(** * Form handling, remote action fall-back, stub executor and CRF
      configuration of the dialogue runtime: a shallow embedding.

    Sources embedded here:
    - [rasa/core/actions/forms.py]                         ([Module Forms])
    - [rasa/core/training/interactive.py]                  ([Module Interactive])
    - [rasa/core/actions/e2e_stub_custom_action_executor.py] ([Module Stub])
    - [rasa/nlu/extractors/crf_entity_extractor.py]        ([Module CRF])

    Python exceptions are values of an error monad, Python dicts are
    association lists in insertion order, and the tracker (whose module is
    not among the sources) is modelled from the specification. *)

From Stdlib Require Import List String Bool Arith ZArith QArith Lia.
From Stdlib Require Import DecimalString.
Import ListNotations.
Close Scope Q_scope.
Open Scope string_scope.
Open Scope list_scope.

(* ================================================================== *)
(** * Python values *)

(** The JSON-like values the embedded code inspects: [None], text, lists
    and dicts.  Truthiness, [len], [in] and [dict.get] are written out as
    Python defines them on these shapes.  Numbers and booleans as slot or
    entity values are outside this universe; the flags the code reads as
    booleans ([validate], [is_new_action]) are typed [bool]. *)
Unset Elimination Schemes.
Inductive PyVal : Type :=
| PNone
| PStr (s : string)
| PList (l : list PyVal)
| PDict (d : list (string * PyVal)).
Set Elimination Schemes.

(** Exceptions raised or propagated by the embedded functions. *)
Inductive Exn : Type :=
| TypeError (msg : string)
| ValueError (msg : string)
| KeyError (key : string)
| AttributeError (msg : string)
| IndexError (msg : string)
| ActionExecutionRejection (action_name : string) (message : string)
| RasaException (message : string)
| ClientError (message : string)
| Abort
| UndoLastStep
| ForkTracker
| RestartConversation
| OtherError (message : string).

(** Outcome of a call that may raise. *)
Inductive result (A : Type) : Type :=
| Ok (a : A)
| Raise (e : Exn).
Arguments Ok {A} a.
Arguments Raise {A} e.

Definition bind {A B : Type} (c : result A) (k : A -> result B) : result B :=
  match c with
  | Ok a => k a
  | Raise e => Raise e
  end.

Notation "x <- c1 ;; c2" := (bind c1 (fun x => c2))
  (at level 61, c1 at next level, right associativity).

(** ** Dicts: association lists in insertion order *)

Definition dict (V : Type) : Type := list (string * V).

Fixpoint dict_get {V : Type} (k : string) (d : dict V) : option V :=
  match d with
  | [] => None
  | (k', v) :: d' => if String.eqb k k' then Some v else dict_get k d'
  end.

(** [d.get(k, default)] *)
Definition dict_get_default {V : Type} (k : string) (default : V) (d : dict V) : V :=
  match dict_get k d with
  | Some v => v
  | None => default
  end.

(** [k in d.keys()] *)
Definition dict_mem {V : Type} (k : string) (d : dict V) : bool :=
  match dict_get k d with
  | Some _ => true
  | None => false
  end.

(** [d[k] = v]: an existing key keeps its position, a new key goes last. *)
Fixpoint dict_set {V : Type} (k : string) (v : V) (d : dict V) : dict V :=
  match d with
  | [] => [(k, v)]
  | (k', v') :: d' =>
      if String.eqb k k' then (k, v) :: d' else (k', v') :: dict_set k v d'
  end.

(** [d.update(other)] *)
Definition dict_update {V : Type} (d other : dict V) : dict V :=
  fold_left (fun acc kv => dict_set (fst kv) (snd kv) acc) other d.

(** [list(d.keys())] *)
Definition dict_keys {V : Type} (d : dict V) : list string := map fst d.

(** ** Operators on values *)

(** [bool(v)] *)
Definition py_truthy (v : PyVal) : bool :=
  match v with
  | PNone => false
  | PStr s => negb (String.eqb s "")
  | PList l => match l with [] => false | _ => true end
  | PDict d => match d with [] => false | _ => true end
  end.

(** [v is None] *)
Definition py_is_none (v : PyVal) : bool :=
  match v with
  | PNone => true
  | _ => false
  end.

(** [s == v] for a text [s]. *)
Definition py_eq_str (s : string) (v : PyVal) : bool :=
  match v with
  | PStr s' => String.eqb s s'
  | _ => false
  end.

(** A value that is [None] or a text, as a Python value. *)
Definition py_of_ostr (o : option string) : PyVal :=
  match o with
  | Some s => PStr s
  | None => PNone
  end.

(** [o == v] for [o] that is [None] or a text. *)
Definition py_eq_ostr (o : option string) (v : PyVal) : bool :=
  match o, v with
  | None, PNone => true
  | Some s, PStr s' => String.eqb s s'
  | _, _ => false
  end.

(** [sub in s] on texts. *)
Definition is_substring (sub s : string) : bool :=
  match String.index 0 sub s with
  | Some _ => true
  | None => false
  end.

(** [x in c] for [x] that is [None] or a text: membership in a list, key
    membership in a dict, substring test on a text; anything else is not
    iterable. *)
Definition py_in (x : option string) (c : PyVal) : result bool :=
  match c with
  | PList l => Ok (existsb (py_eq_ostr x) l)
  | PDict d =>
      match x with
      | Some s => Ok (dict_mem s d)
      | None => Ok false
      end
  | PStr s =>
      match x with
      | Some sub => Ok (is_substring sub s)
      | None =>
          Raise (TypeError "'in <string>' requires string as left operand, not NoneType")
      end
  | PNone => Raise (TypeError "argument of type 'NoneType' is not iterable")
  end.

(** [d[k]] *)
Definition dict_item {V : Type} (k : string) (d : dict V) : result V :=
  match dict_get k d with
  | Some v => Ok v
  | None => Raise (KeyError k)
  end.

(** [len(v)] *)
Definition py_len (v : PyVal) : result nat :=
  match v with
  | PList l => Ok (List.length l)
  | PDict d => Ok (List.length d)
  | PStr s => Ok (String.length s)
  | PNone => Raise (TypeError "object of type 'NoneType' has no len()")
  end.

(** Text of a value inside an f-string.  [None] and texts are rendered
    exactly; lists and dicts are abbreviated (no property below reads the
    text of a message that holds one). *)
Definition py_str (v : PyVal) : string :=
  match v with
  | PNone => "None"
  | PStr s => s
  | PList _ => "[...]"
  | PDict _ => "{...}"
  end.

(* ================================================================== *)
(** * Events and the dialogue state tracker *)

(** Modelled from the spec: the message and event classes are not among the
    sources.  An entity annotation of a user message: its type, its value
    and the optional role and group. *)
Record Entity : Type := mkEntity {
  entity_type : string;
  entity_value : PyVal;
  entity_role : option string;
  entity_group : option string
}.

(** Modelled from the spec: [UserUttered{text, intent, entities}], as the
    form logic reads the latest user message:
    [latest_message.text], [latest_message.intent.get("name")] and
    [latest_message.entities]. *)
Record UserMessage : Type := mkUserMessage {
  text : option string;
  intent_name : option string;
  entities : list Entity
}.

Definition empty_message : UserMessage := mkUserMessage None None [].

(** Modelled from the spec: the event variants [SlotSet{name, value}],
    [UserUttered], [ActionExecuted{action_name, policy?, confidence?}],
    [Restarted], form activation and deactivation and the loop rejection,
    with the constructors the sources call: [Form(None)] is the deactivation
    event, [Form(name)] the activation event. *)
Inductive Event : Type :=
| SlotSet (key : string) (value : PyVal)
| Form (name : option string)
| UserUttered (message : UserMessage)
| ActionExecuted (action_name : string) (policy : option string) (confidence : option Q)
| ActionExecutionRejected (action_name : string)
| Restarted.

(** Modelled from the spec: the form descriptor [{name, validate,
    rejected}], that is [tracker.active_form] when it is not the empty dict. *)
Record ActiveForm : Type := mkActiveForm {
  form_name : string;
  form_validate : bool;
  form_rejected : bool
}.

Module Tracker.

(** Modelled from the spec: the tracker class ([rasa.core.trackers]) is not
    among the sources.  A tracker is its event sequence and the applied
    state: slot values, form descriptor, last action name and last user
    message.  [active_form = None] stands for the empty dict [{}]. *)
Record DialogueStateTracker : Type := mkTracker {
  sender_id : string;
  events : list Event;
  slots : dict PyVal;
  active_form : option ActiveForm;
  latest_action_name : option string;
  latest_message : UserMessage
}.

(** Modelled from the spec: a tracker is "created empty", with no slot set,
    no active form, no last action and an empty last user message. *)
Definition empty (sender : string) : DialogueStateTracker :=
  mkTracker sender [] [] None None empty_message.

(** Modelled from the spec: [get_slot(name)] "returns current value or
    None/absent if unset or unknown". *)
Definition get_slot (t : DialogueStateTracker) (key : string) : PyVal :=
  dict_get_default key PNone (slots t).

(** Modelled from the spec: [get_latest_entity_values(entity, role?, group?)]
    is the "sequence of values of a given entity type extracted from the most
    recent user message only, filtered by optional role/group; empty if
    none".  A role or group that is [None] does not filter. *)
Definition entity_matches (name role group : PyVal) (e : Entity) : bool :=
  py_eq_str (entity_type e) name
  && (py_is_none group || py_eq_ostr (entity_group e) group)
  && (py_is_none role || py_eq_ostr (entity_role e) role).

Definition get_latest_entity_values
    (t : DialogueStateTracker) (name role group : PyVal) : list PyVal :=
  map entity_value (filter (entity_matches name role group) (entities (latest_message t))).

(** Modelled from the spec: [append(event)] "adds to the end of the sequence"
    and re-derives the cached state: "slot updates update only the slot map;
    an ActionExecuted updates last-action; Restarted clears all cached
    state"; the form descriptor [{name, validate, rejected}] follows the most
    recent activation, deactivation and rejection events. *)
Definition apply_event (t : DialogueStateTracker) (e : Event) : DialogueStateTracker :=
  let evs := events t ++ [e] in
  match e with
  | SlotSet k v =>
      mkTracker (sender_id t) evs (dict_set k v (slots t)) (active_form t)
                (latest_action_name t) (latest_message t)
  | Form (Some n) =>
      mkTracker (sender_id t) evs (slots t) (Some (mkActiveForm n true false))
                (latest_action_name t) (latest_message t)
  | Form None =>
      mkTracker (sender_id t) evs (slots t) None
                (latest_action_name t) (latest_message t)
  | UserUttered m =>
      mkTracker (sender_id t) evs (slots t) (active_form t)
                (latest_action_name t) m
  | ActionExecuted a _ _ =>
      mkTracker (sender_id t) evs (slots t) (active_form t) (Some a) (latest_message t)
  | ActionExecutionRejected _ =>
      mkTracker (sender_id t) evs (slots t)
                (option_map (fun f => mkActiveForm (form_name f) (form_validate f) true)
                            (active_form t))
                (latest_action_name t) (latest_message t)
  | Restarted =>
      mkTracker (sender_id t) evs [] None None empty_message
  end.

(** Modelled from the spec: [from_events(sender_id, events)] "reconstructs a
    tracker by full replay" and "returns a new tracker". *)
Definition from_events (sender : string) (evts : list Event) : DialogueStateTracker :=
  fold_left apply_event evts (empty sender).

(** Modelled from the spec: the events "after the most recent Restarted (or
    from the beginning if none)". *)
Fixpoint after_latest_restart (evts : list Event) : list Event :=
  match evts with
  | [] => []
  | e :: rest =>
      if existsb (fun e' => match e' with Restarted => true | _ => false end) evts
      then after_latest_restart rest
      else evts
  end.

Definition events_after_latest_restart (t : DialogueStateTracker) : list Event :=
  after_latest_restart (events t).

End Tracker.
Import Tracker.

(** Modelled from the spec: the domain class is not among the sources.  The
    part the form logic reads: [domain.forms], a list of dicts from form
    name to that form's slot configuration (slot name to mapping rules), and
    [domain.action_names]. *)
Record Domain : Type := mkDomain {
  forms : list (dict (dict PyVal));
  action_names : list string
}.

(* ================================================================== *)
(** * [rasa/core/actions/forms.py] *)

Module Forms.

(** this slot is used to store information needed to do the form handling *)
Definition REQUESTED_SLOT : string := "requested_slot".

Definition ACTION_LISTEN_NAME : string := "action_listen".

(** A [FormAction] object: its name and the domain remembered by [run].
    The action endpoint is the [remote] parameter below. *)
Record FormAction : Type := mkFormAction {
  _form_name : string;
  _domain : option Domain
}.

Definition name (self : FormAction) : string := _form_name self.

(** [_to_list]: [None] becomes the empty list, a non-list a one-element list. *)
Definition _to_list (x : PyVal) : list PyVal :=
  match x with
  | PNone => []
  | PList l => l
  | _ => [x]
  end.

Definition _list_intents (intent not_intent : PyVal) : result (list PyVal * list PyVal) :=
  if py_truthy intent && py_truthy not_intent
  then Raise (ValueError ("Providing  both intent '" ++ py_str intent
                          ++ "' and not_intent '" ++ py_str not_intent
                          ++ "' is not supported."))
  else Ok (_to_list intent, _to_list not_intent).

Definition from_entity (entity intent not_intent role group : PyVal)
  : result (dict PyVal) :=
  p <- _list_intents intent not_intent ;;
  Ok [("type", PStr "from_entity");
      ("entity", entity);
      ("intent", PList (fst p));
      ("not_intent", PList (snd p));
      ("role", role);
      ("group", group)].

Definition from_trigger_intent (value intent not_intent : PyVal)
  : result (dict PyVal) :=
  p <- _list_intents intent not_intent ;;
  Ok [("type", PStr "from_trigger_intent");
      ("value", value);
      ("intent", PList (fst p));
      ("not_intent", PList (snd p))].

Definition from_intent (value intent not_intent : PyVal) : result (dict PyVal) :=
  p <- _list_intents intent not_intent ;;
  Ok [("type", PStr "from_intent");
      ("value", value);
      ("intent", PList (fst p));
      ("not_intent", PList (snd p))].

Definition from_text (intent not_intent : PyVal) : result (dict PyVal) :=
  p <- _list_intents intent not_intent ;;
  Ok [("type", PStr "from_text");
      ("intent", PList (fst p));
      ("not_intent", PList (snd p))].

(** [next((form[name] for form in forms if name in form.keys()), {})] *)
Fixpoint first_form_config (form_name : string) (fs : list (dict (dict PyVal)))
  : dict PyVal :=
  match fs with
  | [] => []
  | form :: rest =>
      match dict_get form_name form with
      | Some cfg => cfg
      | None => first_form_config form_name rest
      end
  end.

Definition _config (self : FormAction) : result (dict PyVal) :=
  match _domain self with
  | None => Raise (AttributeError "'NoneType' object has no attribute 'forms'")
  | Some domain => Ok (first_form_config (_form_name self) (forms domain))
  end.

Definition required_slots (self : FormAction) (tracker : DialogueStateTracker)
  : result (list string) :=
  cfg <- _config self ;;
  Ok (dict_keys cfg).

Definition slot_mappings (self : FormAction) : result (dict PyVal) :=
  match _domain self with
  | None => Ok []
  | Some _ => _config self
  end.

(** [mappings.get(slot_to_fill, default)]: the keys are texts; a list or a
    dict is unhashable. *)
Definition mappings_get (mappings : dict PyVal) (slot_to_fill default : PyVal)
  : result PyVal :=
  match slot_to_fill with
  | PStr s => Ok (dict_get_default s default mappings)
  | PNone => Ok default
  | PList _ => Raise (TypeError "unhashable type: 'list'")
  | PDict _ => Raise (TypeError "unhashable type: 'dict'")
  end.

(** The check of the provided slot mappings: each has to be a dict whose
    ["type"] is not [None]. *)
Fixpoint check_mappings (ms : list PyVal) : result (list (dict PyVal)) :=
  match ms with
  | [] => Ok []
  | PDict m :: rest =>
      if py_is_none (dict_get_default "type" PNone m)
      then Raise (TypeError "Provided incompatible slot mapping")
      else (rest' <- check_mappings rest ;; Ok (m :: rest'))
  | _ :: _ => Raise (TypeError "Provided incompatible slot mapping")
  end.

Definition get_mappings_for_slot (self : FormAction) (slot_to_fill : PyVal)
  : result (list (dict PyVal)) :=
  mappings <- slot_mappings self ;;
  default <- from_entity slot_to_fill PNone PNone PNone PNone ;;
  requested <- mappings_get mappings slot_to_fill (PDict default) ;;
  check_mappings (_to_list requested).

(** Check whether user intent matches intent conditions *)
Definition intent_is_desired (requested_slot_mapping : dict PyVal)
    (tracker : DialogueStateTracker) : result bool :=
  let mapping_intents := dict_get_default "intent" (PList []) requested_slot_mapping in
  let mapping_not_intents :=
    dict_get_default "not_intent" (PList []) requested_slot_mapping in
  let intent := intent_name (latest_message tracker) in
  intent_not_blacklisted <-
    (if negb (py_truthy mapping_intents)
     then (b <- py_in intent mapping_not_intents ;; Ok (negb b))
     else Ok false) ;;
  if intent_not_blacklisted then Ok true else py_in intent mapping_intents.

(** Extract entities for given name and optional role and group. *)
Definition get_entity_value (name : PyVal) (tracker : DialogueStateTracker)
    (role group : PyVal) : PyVal :=
  let value := get_latest_entity_values tracker name role group in
  if Nat.eqb (List.length value) 0 then PNone
  else if Nat.eqb (List.length value) 1 then nth 0 value PNone
  else PList value.

(** Check whether slot should be filled by an entity in the input or not. *)
Definition entity_is_desired (requested_slot_mapping : dict PyVal) (slot : string)
    (tracker : DialogueStateTracker) : bool :=
  let slot_equals_entity :=
    py_eq_str slot (dict_get_default "entity" PNone requested_slot_mapping) in
  let matching_values :=
    get_entity_value (dict_get_default "entity" PNone requested_slot_mapping)
                     tracker
                     (dict_get_default "role" PNone requested_slot_mapping)
                     (dict_get_default "group" PNone requested_slot_mapping) in
  let slot_fulfils_entity_mapping := negb (py_is_none matching_values) in
  slot_equals_entity || slot_fulfils_entity_mapping.

Definition _should_request_slot (tracker : DialogueStateTracker) (slot_name : string)
  : bool :=
  py_is_none (get_slot tracker slot_name).

(** [tracker.active_form.get("name") == self.name()] *)
Definition form_is_active (self : FormAction) (tracker : DialogueStateTracker) : bool :=
  match active_form tracker with
  | Some f => String.eqb (form_name f) (name self)
  | None => false
  end.

(** The body of the inner loop of [extract_other_slots] for one mapping:
    the value it yields for [slot], [None] when the mapping does not fill. *)
Definition other_slot_value (self : FormAction) (tracker : DialogueStateTracker)
    (slot : string) (other_slot_mapping : dict PyVal) : result PyVal :=
  mapping_type <- dict_item "type" other_slot_mapping ;;
  should_fill_entity_slot <-
    (if py_eq_str "from_entity" mapping_type
     then (desired <- intent_is_desired other_slot_mapping tracker ;;
           if desired then Ok (entity_is_desired other_slot_mapping slot tracker)
           else Ok false)
     else Ok false) ;;
  should_fill_trigger_slot <-
    (if negb (form_is_active self tracker)
     then (if py_eq_str "from_trigger_intent" mapping_type
           then intent_is_desired other_slot_mapping tracker
           else Ok false)
     else Ok false) ;;
  if should_fill_entity_slot
  then (entity <- dict_item "entity" other_slot_mapping ;;
        Ok (get_entity_value entity tracker
                             (dict_get_default "role" PNone other_slot_mapping)
                             (dict_get_default "group" PNone other_slot_mapping)))
  else if should_fill_trigger_slot
  then Ok (dict_get_default "value" PNone other_slot_mapping)
  else Ok PNone.

(** The inner loop: the first value that is not [None], then [break]. *)
Fixpoint first_other_value (self : FormAction) (tracker : DialogueStateTracker)
    (slot : string) (other_slot_mappings : list (dict PyVal)) : result PyVal :=
  match other_slot_mappings with
  | [] => Ok PNone
  | m :: rest =>
      value <- other_slot_value self tracker slot m ;;
      if py_is_none value then first_other_value self tracker slot rest
      else Ok value
  end.

(** The outer loop over the required slots, threading [slot_values]. *)
Fixpoint extract_other_loop (self : FormAction) (tracker : DialogueStateTracker)
    (slot_to_fill : PyVal) (slots : list string) (slot_values : dict PyVal)
  : result (dict PyVal) :=
  match slots with
  | [] => Ok slot_values
  | slot :: rest =>
      if negb (py_eq_str slot slot_to_fill)
      then (other_slot_mappings <- get_mappings_for_slot self (PStr slot) ;;
            value <- first_other_value self tracker slot other_slot_mappings ;;
            extract_other_loop self tracker slot_to_fill rest
              (if py_is_none value then slot_values
               else dict_set slot value slot_values))
      else extract_other_loop self tracker slot_to_fill rest slot_values
  end.

(** Extract the values of the other slots if they are set by corresponding
    entities from the user input *)
Definition extract_other_slots (self : FormAction) (tracker : DialogueStateTracker)
  : result (dict PyVal) :=
  let slot_to_fill := get_slot tracker REQUESTED_SLOT in
  slots <- required_slots self tracker ;;
  extract_other_loop self tracker slot_to_fill slots [].

(** [{slot_to_fill: value}].  The key is a text whenever the loop below
    gets this far: for [None] no mapping ever yields a value and lists and
    dicts fail before as unhashable (lemma [extract_requested_slot_key]). *)
Definition singleton_slot (slot_to_fill value : PyVal) : dict PyVal :=
  [(py_str slot_to_fill, value)].

(** The loop of [extract_requested_slot] over the mappings. *)
Fixpoint requested_loop (tracker : DialogueStateTracker) (slot_to_fill : PyVal)
    (requested_slot_mappings : list (dict PyVal)) : result (dict PyVal) :=
  match requested_slot_mappings with
  | [] => Ok []
  | m :: rest =>
      desired <- intent_is_desired m tracker ;;
      if desired then
        mapping_type <- dict_item "type" m ;;
        if py_eq_str "from_entity" mapping_type then
          let value := get_entity_value (dict_get_default "entity" PNone m) tracker
                                        (dict_get_default "role" PNone m)
                                        (dict_get_default "group" PNone m) in
          if py_is_none value then requested_loop tracker slot_to_fill rest
          else Ok (singleton_slot slot_to_fill value)
        else if py_eq_str "from_intent" mapping_type then
          let value := dict_get_default "value" PNone m in
          if py_is_none value then requested_loop tracker slot_to_fill rest
          else Ok (singleton_slot slot_to_fill value)
        else if py_eq_str "from_trigger_intent" mapping_type then
          requested_loop tracker slot_to_fill rest
        else if py_eq_str "from_text" mapping_type then
          let value := py_of_ostr (text (latest_message tracker)) in
          if py_is_none value then requested_loop tracker slot_to_fill rest
          else Ok (singleton_slot slot_to_fill value)
        else Raise (ValueError "Provided slot mapping type is not supported")
      else requested_loop tracker slot_to_fill rest
  end.

(** Extract the value of requested slot from a user input else return None *)
Definition extract_requested_slot (self : FormAction) (tracker : DialogueStateTracker)
  : result (dict PyVal) :=
  let slot_to_fill := get_slot tracker REQUESTED_SLOT in
  requested_slot_mappings <- get_mappings_for_slot self slot_to_fill ;;
  requested_loop tracker slot_to_fill requested_slot_mappings.

(** Request the next slot, else return None *)
Fixpoint request_next_loop (tracker : DialogueStateTracker) (slots : list string)
  : option (list Event) :=
  match slots with
  | [] => None
  | slot :: rest =>
      if _should_request_slot tracker slot
      then Some [SlotSet REQUESTED_SLOT (PStr slot)]
      else request_next_loop tracker rest
  end.

Definition request_next_slot (self : FormAction) (tracker : DialogueStateTracker)
  : result (option (list Event)) :=
  slots <- required_slots self tracker ;;
  Ok (request_next_loop tracker slots).

(** Return [Form] event with [None] as name to deactivate the form and reset
    the requested slot *)
Definition deactivate (self : FormAction) : list Event :=
  [Form None; SlotSet REQUESTED_SLOT PNone].

(** [Form(None) in events]: a [Form] event equals [Form(None)] when its
    name is [None]. *)
Definition is_form_none (e : Event) : bool :=
  match e with
  | Form None => true
  | _ => false
  end.

(** [prefilled_slots] of [_activate_if_required]: the required slots that
    need not be requested, with their tracker values. *)
Fixpoint prefilled_loop (tracker : DialogueStateTracker) (slots : list string)
    (prefilled_slots : dict PyVal) : dict PyVal :=
  match slots with
  | [] => prefilled_slots
  | slot_name :: rest =>
      prefilled_loop tracker rest
        (if negb (_should_request_slot tracker slot_name)
         then dict_set slot_name (get_slot tracker slot_name) prefilled_slots
         else prefilled_slots)
  end.

(** [tracker.active_form.get("validate")], as a truth value. *)
Definition active_form_validate (tracker : DialogueStateTracker) : bool :=
  match active_form tracker with
  | Some f => form_validate f
  | None => false
  end.

(** [tracker.active_form.get("validate", True)], as a truth value. *)
Definition active_form_validate_default_true (tracker : DialogueStateTracker) : bool :=
  match active_form tracker with
  | Some f => form_validate f
  | None => true
  end.

(** [tracker.latest_action_name == "action_listen"] *)
Definition latest_action_is_listen (tracker : DialogueStateTracker) : bool :=
  match latest_action_name tracker with
  | Some a => String.eqb a ACTION_LISTEN_NAME
  | None => false
  end.

Section WithActionServer.

(** [RemoteAction(name, self.action_endpoint).run(output_channel, nlg,
    tracker, domain)]: the call to the action server behind the endpoint.
    What the server answers (events, or a failure) is not decided by this
    code, so it is a parameter.  Output channel and response generator are
    only handed through to it. *)
Variable remote : string -> DialogueStateTracker -> Domain -> result (list Event).

(** Validate slots using helper validation functions. *)
Definition validate_slots (self : FormAction) (slot_dict : dict PyVal)
    (tracker : DialogueStateTracker) (domain : Domain) : result (list Event) :=
  let validate_name := ("action_validate_" ++ _form_name self)%string in
  let form_events := map (fun kv => SlotSet (fst kv) (snd kv)) slot_dict in
  if negb (existsb (String.eqb validate_name) (action_names domain))
     || negb (active_form_validate tracker)
  then Ok form_events
  else
    let tracker' :=
      from_events (sender_id tracker)
                  (events_after_latest_restart tracker ++ form_events) in
    remote validate_name tracker' domain.

(** Extract and validate value of requested slot.  If nothing was extracted
    reject execution of the form action. *)
Definition validate (self : FormAction) (tracker : DialogueStateTracker)
    (domain : Domain) : result (list Event) :=
  slot_values <- extract_other_slots self tracker ;;
  let slot_to_fill := get_slot tracker REQUESTED_SLOT in
  if py_truthy slot_to_fill then
    requested <- extract_requested_slot self tracker ;;
    let slot_values := dict_update slot_values requested in
    match slot_values with
    | [] =>
        Raise (ActionExecutionRejection
                 (name self)
                 ("Failed to extract slot " ++ py_str slot_to_fill
                  ++ " with action " ++ name self))
    | _ :: _ => validate_slots self slot_values tracker domain
    end
  else validate_slots self slot_values tracker domain.

(** Activate form if the form is called for the first time. *)
Definition _activate_if_required (self : FormAction) (tracker : DialogueStateTracker)
    (domain : Domain) : result (list Event) :=
  if form_is_active self tracker then Ok []
  else
    let events := [Form (Some (name self))] in
    slots <- required_slots self tracker ;;
    let prefilled_slots := prefilled_loop tracker slots [] in
    match prefilled_slots with
    | _ :: _ =>
        validated <- validate_slots self prefilled_slots tracker domain ;;
        Ok (events ++ validated)
    | [] => Ok events
    end.

(** Return a list of events from [validate] if validation is required. *)
Definition _validate_if_required (self : FormAction) (tracker : DialogueStateTracker)
    (domain : Domain) : result (list Event) :=
  if latest_action_is_listen tracker && active_form_validate_default_true tracker
  then validate self tracker domain
  else Ok [].

(** Execute the side effects of this form.  [self._domain = domain] is the
    first statement, so every later step sees the form with that domain. *)
Definition run (self : FormAction) (tracker : DialogueStateTracker) (domain : Domain)
  : result (list Event) :=
  let self := mkFormAction (_form_name self) (Some domain) in
  activation_events <- _activate_if_required self tracker domain ;;
  events <- _validate_if_required self tracker domain ;;
  if negb (existsb is_form_none events) then
    let temp_tracker :=
      from_events (sender_id tracker)
                  (events_after_latest_restart tracker ++ events) in
    next_slot_events <- request_next_slot self temp_tracker ;;
    match next_slot_events with
    | Some next_slot_events => Ok (activation_events ++ events ++ next_slot_events)
    | None => Ok (events ++ deactivate self)
    end
  else Ok events.

End WithActionServer.

End Forms.

(* ================================================================== *)
(** * [rasa/core/training/interactive.py]: logging an action *)

Module Interactive.

(** One call of [endpoint.request(json=..., method=..., subpath=...)].  The
    body is an event in its wire form ([as_dict()]). *)
Record Request : Type := mkRequest {
  method : string;
  subpath : string;
  json : Event
}.

(** The server behind an [EndpointConfig]: what it answers to a request,
    given the requests it has received before. *)
Definition EndpointConfig : Type := list Request -> Request -> result PyVal.

(** What [question.ask()] returns when the user answers. *)
Inductive Answer : Type :=
| AnswerBool (b : bool)
| AnswerText (s : string).

Definition answer_truthy (a : Answer) : bool :=
  match a with
  | AnswerBool b => b
  | AnswerText s => negb (String.eqb s "")
  end.

Definition answer_is (s : string) (a : Answer) : bool :=
  match a with
  | AnswerText s' => String.eqb s s'
  | AnswerBool _ => false
  end.

(** The interactive session around the calls: the answers the user will
    still give, in order ([None] is Ctrl-C; with no answer left [ask()]
    returns [None] too), and the requests sent so far. *)
Record Session : Type := mkSession {
  keyboard : list (option Answer);
  sent : list Request
}.

(** A computation in the session that may raise. *)
Definition M (A : Type) : Type := Session -> result A * Session.

Definition request (endpoint : EndpointConfig) (r : Request) : M PyVal :=
  fun s => (endpoint (sent s) r, mkSession (keyboard s) (sent s ++ [r])).

Section WithSession.

(** The module-level dict of responses created for new actions. *)
Variable NEW_TEMPLATES : dict (dict string).

(** [_write_data_to_file]: the export of the session before quitting; its
    file and network effects are not modelled, its outcome is a parameter. *)
Variable _write_data_to_file : string -> EndpointConfig -> M unit.

(** The rest of [_ask_if_quit] once the exit menu was answered. *)
Definition quit_menu_choice (answer : option Answer) (conversation_id : string)
    (endpoint : EndpointConfig) : M bool :=
  fun s =>
    let quits :=
      match answer with
      | None => true
      | Some a => negb (answer_truthy a) || answer_is "quit" a
      end in
    if quits then
      match _write_data_to_file conversation_id endpoint s with
      | (Ok _, s') => (Raise Abort, s')
      | (Raise e, s') => (Raise e, s')
      end
    else
      match answer with
      | Some a =>
          if answer_is "continue" a then (Ok true, s)
          else if answer_is "undo" a then (Raise UndoLastStep, s)
          else if answer_is "fork" a then (Raise ForkTracker, s)
          else if answer_is "restart" a then (Raise RestartConversation, s)
          else (Ok false, s)
      | None => (Ok false, s)
      end.

(** The [while should_retry] loop of [_ask_questions], by recursion on the
    answers that are left: a retry has consumed the answer to the question
    and the answer to the exit menu. *)
Fixpoint ask_loop (is_abort : Answer -> bool) (conversation_id : string)
    (endpoint : EndpointConfig) (keys : list (option Answer)) (log : list Request)
  : result (option Answer) * Session :=
  let aborted answers :=
    match answers with
    | None => true
    | Some a => is_abort a
    end in
  match keys with
  | [] =>
      (* [ask()] and the exit menu both return [None] *)
      match quit_menu_choice None conversation_id endpoint (mkSession [] log) with
      | (Ok _, s') => (Ok None, s')
      | (Raise e, s') => (Raise e, s')
      end
  | answers :: keys' =>
      if aborted answers then
        match keys' with
        | [] =>
            match quit_menu_choice None conversation_id endpoint (mkSession [] log) with
            | (Ok _, s') => (Ok answers, s')
            | (Raise e, s') => (Raise e, s')
            end
        | choice :: keys'' =>
            match quit_menu_choice choice conversation_id endpoint
                                   (mkSession keys'' log) with
            | (Ok true, s') =>
                ask_loop is_abort conversation_id endpoint keys'' (sent s')
            | (Ok false, s') => (Ok answers, s')
            | (Raise e, s') => (Raise e, s')
            end
        end
      else (Ok answers, mkSession keys' log)
  end.

(** Ask the user a question, if Ctrl-C is pressed provide user with menu. *)
Definition _ask_questions (questions : string) (conversation_id : string)
    (endpoint : EndpointConfig) (is_abort : Answer -> bool) : M (option Answer) :=
  fun s => ask_loop is_abort conversation_id endpoint (keyboard s) (sent s).

(** Log an event to a conversation. *)
Definition send_event (endpoint : EndpointConfig) (conversation_id : string)
    (evt : Event) : M PyVal :=
  request endpoint
    (mkRequest "post" ("/conversations/" ++ conversation_id ++ "/tracker/events") evt).

(** The text of the warning shown for a new action that failed.  With a
    response recorded for the action the text quotes
    [[*NEW_TEMPLATES[action_name]][0]], the first key of that entry. *)
Definition new_action_warning (action_name : string) : result string :=
  match dict_get action_name NEW_TEMPLATES with
  | Some templates =>
      match dict_keys templates with
      | response :: _ =>
          Ok ("WARNING: You have created a new action: '" ++ action_name
              ++ "', with matching response: '" ++ response ++ "'. "
              ++ "This action will not return its message in this session, "
              ++ "but the new response will be saved to your domain file "
              ++ "when you exit and save this session. "
              ++ "You do not need to do anything further.")%string
      | [] => Raise (IndexError "list index out of range")
      end
  | None =>
      Ok ("WARNING: You have created a new action: '" ++ action_name
          ++ "', which was not successfully executed. "
          ++ "If this action does not return any events, "
          ++ "you do not need to do anything. "
          ++ "If this is a custom action which returns events, "
          ++ "you are recommended to implement this action "
          ++ "in your action server and try again.")%string
  end.

(** Log an action to a conversation. *)
Definition send_action (endpoint : EndpointConfig) (conversation_id : string)
    (action_name : string) (policy : option string) (confidence : option Q)
    (is_new_action : bool) : M PyVal :=
  fun s =>
    let payload := ActionExecuted action_name policy confidence in
    let subpath := ("/conversations/" ++ conversation_id ++ "/execute")%string in
    match request endpoint (mkRequest "post" subpath payload) s with
    | (Raise (ClientError e), s1) =>
        if is_new_action then
          match new_action_warning action_name with
          | Ok warning_questions =>
              match _ask_questions warning_questions conversation_id endpoint
                                   (fun _ => false) s1 with
              | (Ok _, s2) =>
                  let payload := ActionExecuted action_name None None in
                  send_event endpoint conversation_id payload s2
              | (Raise e', s2) => (Raise e', s2)
              end
          | Raise e' => (Raise e', s1)
          end
        else
          (* logger.error("failed to execute action!"); raise *)
          (Raise (ClientError e), s1)
    | outcome => outcome
    end.

End WithSession.

End Interactive.

(* ================================================================== *)
(** * [rasa/core/actions/e2e_stub_custom_action_executor.py] *)

Module Stub.

(** Modelled from the spec: the stub class ([rasa.e2e_test.stub_custom_action])
    is not among the sources.  A stub is the "prerecorded response" of an
    action; the tests of the repository build it from a dict with the keys
    [events] and [responses] and get that dict back from [as_dict()]. *)
Record StubCustomAction : Type := mkStub {
  stub_action_name : string;
  stub_events : list PyVal;
  stub_responses : list PyVal
}.

Definition as_dict (stub : StubCustomAction) : dict PyVal :=
  [("events", PList (stub_events stub)); ("responses", PList (stub_responses stub))].

(** What running an executor does besides returning: log lines and calls
    over the network. *)
Inductive Effect : Type :=
| LogDebug (event : string) (action_name : string)
| NetworkCall (url : string) (payload : PyVal).

Definition is_network_call (e : Effect) : bool :=
  match e with
  | NetworkCall _ _ => true
  | LogDebug _ _ => false
  end.

Section WithStubs.

(** The endpoint configuration that carries the registered stubs. *)
Variable EndpointConfig : Type.

(** [rasa.e2e_test.stub_custom_action.get_stub_custom_action(endpoint,
    action_name)]: the registered stub, or [None] (the repository's test
    [test_get_stub_custom_action_fallback]).  The function is not among the
    sources; the executor is embedded for any such lookup. *)
Variable stub_lookup : EndpointConfig -> string -> option StubCustomAction.

Record E2EStubCustomActionExecutor : Type := mkExecutor {
  action_name : string;
  action_endpoint : EndpointConfig;
  stub_custom_action : StubCustomAction
}.

(** The method [get_stub_custom_action], on the two attributes it reads.  A
    stub object is truthy, so [if stub_custom_action:] tests for [None]. *)
Definition get_stub_custom_action (action_endpoint : EndpointConfig)
    (action_name : string) : result StubCustomAction :=
  match stub_lookup action_endpoint action_name with
  | Some stub => Ok stub
  | None => Raise (RasaException ("Action `" ++ action_name ++ "` has not been stubbed."))
  end.

(** [E2EStubCustomActionExecutor(action_name, action_endpoint)] *)
Definition init (action_name : string) (action_endpoint : EndpointConfig)
  : result E2EStubCustomActionExecutor :=
  stub <- get_stub_custom_action action_endpoint action_name ;;
  Ok (mkExecutor action_name action_endpoint stub).

(** [run(tracker, domain)]: the effects and the returned response. *)
Definition run (self : E2EStubCustomActionExecutor) (tracker : DialogueStateTracker)
    (domain : option Domain) : list Effect * dict PyVal :=
  ([LogDebug "action.e2e_stub_custom_action_executor.run" (action_name self)],
   as_dict (stub_custom_action self)).

End WithStubs.

End Stub.

(* ================================================================== *)
(** * [rasa/nlu/extractors/crf_entity_extractor.py]: the configuration check *)

Module CRF.

(** The [features] entry of [CRFEntityExtractor.defaults]:
    [before, token, after]. *)
Definition default_features : PyVal :=
  PList [PList [PStr "low"; PStr "title"; PStr "upper"];
         PList [PStr "low"; PStr "bias"; PStr "prefix5"; PStr "prefix2";
                PStr "suffix5"; PStr "suffix3"; PStr "suffix2"; PStr "upper";
                PStr "title"; PStr "digit"; PStr "pattern"];
         PList [PStr "low"; PStr "title"; PStr "upper"]].

Definition _validate_configuration (component_config : dict PyVal) : result unit :=
  n <- py_len (dict_get_default "features" (PList []) component_config) ;;
  if negb (Nat.eqb (n mod 2) 1)
  then Raise (ValueError "Need an odd number of crf feature lists to have a center word.")
  else Ok tt.

End CRF.

(* ================================================================== *)
(** * [rasa/core/training/interactive.py]: the events of a tracker dump *)

(** JSON values as the server returns them ([tracker.get("events")], the
    tracker dump itself): [null], booleans, numbers, texts, arrays and
    objects. *)
Unset Elimination Schemes.
Inductive Json : Type :=
| JNull
| JBool (b : bool)
| JNumber (q : Q)
| JString (s : string)
| JArray (l : list Json)
| JObject (d : list (string * Json)).
Set Elimination Schemes.

Module InteractiveEvents.

(** [bool(v)] *)
Definition json_truthy (v : Json) : bool :=
  match v with
  | JNull => false
  | JBool b => b
  | JNumber q => negb (Qeq_bool q 0)
  | JString s => negb (String.eqb s "")
  | JArray l => match l with [] => false | _ => true end
  | JObject d => match d with [] => false | _ => true end
  end.

(** [v == s] for a text [s]. *)
Definition json_eq_str (s : string) (v : Json) : bool :=
  match v with
  | JString s' => String.eqb s s'
  | _ => false
  end.

(** [v.get(key)]: defined on objects only. *)
Definition json_get (key : string) (v : Json) : result Json :=
  match v with
  | JObject d => Ok (dict_get_default key JNull d)
  | JNull => Raise (AttributeError "'NoneType' object has no attribute 'get'")
  | JBool _ => Raise (AttributeError "'bool' object has no attribute 'get'")
  | JNumber _ => Raise (AttributeError "'float' object has no attribute 'get'")
  | JString _ => Raise (AttributeError "'str' object has no attribute 'get'")
  | JArray _ => Raise (AttributeError "'list' object has no attribute 'get'")
  end.

(** [v[key]] for a text [key]. *)
Definition json_item (key : string) (v : Json) : result Json :=
  match v with
  | JObject d => dict_item key d
  | JNull => Raise (TypeError "'NoneType' object is not subscriptable")
  | JBool _ => Raise (TypeError "'bool' object is not subscriptable")
  | JNumber _ => Raise (TypeError "'float' object is not subscriptable")
  | JString _ => Raise (TypeError "string indices must be integers")
  | JArray _ => Raise (TypeError "list indices must be integers or slices, not str")
  end.

(** [e.get("event") == type_name] *)
Definition event_is (type_name : string) (e : dict Json) : bool :=
  json_eq_str type_name (dict_get_default "event" JNull e).

(** Split a conversation at restart events: the loop, threading
    [sub_conversations] and [current]. *)
Fixpoint split_loop (events : list (dict Json))
    (sub_conversations : list (list (dict Json))) (current : list (dict Json))
  : list (list (dict Json)) :=
  match events with
  | [] =>
      match current with
      | _ :: _ => sub_conversations ++ [current]
      | [] => sub_conversations
      end
  | e :: rest =>
      if event_is "restart" e then
        split_loop rest
          (match current with
           | _ :: _ => sub_conversations ++ [current]
           | [] => sub_conversations
           end)
          []
      else split_loop rest sub_conversations (current ++ [e])
  end.

Definition _split_conversation_at_restarts (events : list (dict Json))
  : list (list (dict Json)) :=
  split_loop events [] [].

Section WithEventNames.

(** The names under which the event classes ([rasa.core.events], not among
    the sources) appear in a dump: [UserUttered.type_name] and
    [ActionExecuted.type_name]. *)
Variable UserUttered_type_name : string.
Variable ActionExecuted_type_name : string.

(** [rasa.core.trackers.ACTIVE_LOOP_KEY] and
    [rasa.core.actions.action.ACTION_LISTEN_NAME], imported constants. *)
Variable ACTIVE_LOOP_KEY : string.
Variable ACTION_LISTEN_NAME : string.

(** The loop [for i, e in enumerate(reversed(events))] of
    [latest_user_message]: the first user message of the reversed list. *)
Fixpoint first_user_message (reversed : list (dict Json)) : option (dict Json) :=
  match reversed with
  | [] => None
  | e :: rest =>
      if event_is UserUttered_type_name e then Some e else first_user_message rest
  end.

(** Return most recent user message. *)
Definition latest_user_message (events : list (dict Json)) : option (dict Json) :=
  first_user_message (rev events).

(** The same loop in [all_events_before_latest_user_msg], returning the
    index [i] at which it stops. *)
Fixpoint first_user_index (i : nat) (reversed : list (dict Json)) : option nat :=
  match reversed with
  | [] => None
  | e :: rest =>
      if event_is UserUttered_type_name e then Some i
      else first_user_index (S i) rest
  end.

(** Return all events that happened before the most recent user message.
    [events[: -(i + 1)]] keeps the first [len(events) - (i + 1)] events. *)
Definition all_events_before_latest_user_msg (events : list (dict Json))
  : list (dict Json) :=
  match first_user_index 0 (rev events) with
  | Some i => firstn (List.length events - (i + 1)) events
  | None => events
  end.

(** Collect all the [ActionExecuted] events into a list. *)
Definition _collect_actions (events : list (dict Json)) : list (dict Json) :=
  filter (event_is ActionExecuted_type_name) events.

(** Check if the form got rejected with the most recent action name.  The
    Python expression is a chain of [and]; the callers only test its truth
    value, which is what is returned here. *)
Definition _form_is_rejected (action_name : string) (tracker : dict Json)
  : result bool :=
  loop_name <- json_get "name" (dict_get_default ACTIVE_LOOP_KEY (JObject []) tracker) ;;
  if json_truthy loop_name then
    active_loop <- dict_item ACTIVE_LOOP_KEY tracker ;;
    loop_name' <- json_item "name" active_loop ;;
    if negb (json_eq_str action_name loop_name')
    then Ok (negb (String.eqb action_name ACTION_LISTEN_NAME))
    else Ok false
  else Ok false.

(** Check whether the form is called again after it was rejected. *)
Definition _form_is_restored (action_name : string) (tracker : dict Json)
  : result bool :=
  rejected <- json_get "rejected" (dict_get_default ACTIVE_LOOP_KEY (JObject []) tracker) ;;
  if json_truthy rejected then
    if json_eq_str ACTION_LISTEN_NAME (dict_get_default "latest_action_name" JNull tracker)
    then (loop_name <- json_get "name"
                         (dict_get_default ACTIVE_LOOP_KEY (JObject []) tracker) ;;
          Ok (json_eq_str action_name loop_name))
    else Ok false
  else Ok false.

End WithEventNames.

End InteractiveEvents.

(* ================================================================== *)
(** * [rasa/nlu/extractors/crf_entity_extractor.py]: order, files, features *)

Module CRFModel.

(** [l[i]] with Python's indices: a negative index counts from the end. *)
Definition py_norm_index (n : nat) (i : Z) : option nat :=
  let j := (if i <? 0 then i + Z.of_nat n else i)%Z in
  if ((j <? 0) || (Z.of_nat n <=? j))%Z then None else Some (Z.to_nat j).

Definition py_index {A : Type} (l : list A) (i : Z) : result A :=
  match py_norm_index (List.length l) i with
  | Some j =>
      match nth_error l j with
      | Some a => Ok a
      | None => Raise (IndexError "list index out of range")
      end
  | None => Raise (IndexError "list index out of range")
  end.

(** [range(a, b)] *)
Definition py_range (a b : Z) : list Z :=
  map (fun k => (a + Z.of_nat k)%Z) (seq 0 (Z.to_nat (b - a))).

(** [str(i)] for an integer. *)
Definition str (i : Z) : string := NilZero.string_of_int (Z.to_int i).

(** [l[j].append(x)]: the list at position [j] of [l] grows in place. *)
Fixpoint append_at {A : Type} (j : nat) (x : A) (l : list (list A)) : list (list A) :=
  match l, j with
  | [], _ => []
  | fs :: rest, O => (fs ++ [x]) :: rest
  | fs :: rest, S j' => fs :: append_at j' x rest
  end.

(** The sets of a training data the extractor asks for. *)
Record TrainingData : Type := mkTrainingData {
  entities : list string;
  entity_roles : list string;
  entity_groups : list string
}.

Section WithTagNames.

(** [rasa.nlu.constants.ENTITY_ATTRIBUTE_TYPE], [..._ROLE], [..._GROUP]:
    imported constants. *)
Variable ENTITY_ATTRIBUTE_TYPE : string.
Variable ENTITY_ATTRIBUTE_ROLE : string.
Variable ENTITY_ATTRIBUTE_GROUP : string.

Definition nonempty (s : list string) : bool :=
  match s with
  | [] => false
  | _ :: _ => true
  end.

(** The loop of [_update_crf_order], threading [_crf_order]. *)
Fixpoint update_loop (crf_order : list string) (training_data : TrainingData)
    (_crf_order : list string) : list string :=
  match crf_order with
  | [] => _crf_order
  | tag_name :: rest =>
      update_loop rest training_data
        (if String.eqb tag_name ENTITY_ATTRIBUTE_TYPE
            && nonempty (entities training_data)
         then _crf_order ++ [ENTITY_ATTRIBUTE_TYPE]
         else if String.eqb tag_name ENTITY_ATTRIBUTE_ROLE
                 && nonempty (entity_roles training_data)
         then _crf_order ++ [ENTITY_ATTRIBUTE_ROLE]
         else if String.eqb tag_name ENTITY_ATTRIBUTE_GROUP
                 && nonempty (entity_groups training_data)
         then _crf_order ++ [ENTITY_ATTRIBUTE_GROUP]
         else _crf_order)
  end.

(** Train only CRFs we actually have training data for: the new value of
    [self.crf_order]. *)
Definition _update_crf_order (crf_order : list string) (training_data : TrainingData)
  : list string :=
  update_loop crf_order training_data [].

End WithTagNames.

Section WithTaggers.

(** A trained tagger, and [os.path.join]. *)
Variable Tagger : Type.
Variable path_join : string -> string -> string.

(** The loop of [persist] over [self.entity_taggers.items()]: [file_name] is
    reassigned in every round; [dumps] records the calls of [joblib.dump]. *)
Fixpoint persist_loop (taggers : dict Tagger) (file_name model_dir : string)
    (file_names : dict string) (dumps : list (Tagger * string))
  : dict string * list (Tagger * string) :=
  match taggers with
  | [] => (file_names, dumps)
  | (name, entity_tagger) :: rest =>
      let file_name := (file_name ++ "." ++ name ++ ".pkl")%string in
      let model_file_name := path_join model_dir file_name in
      persist_loop rest file_name model_dir
                   (dict_set name file_name file_names)
                   (dumps ++ [(entity_tagger, model_file_name)])
  end.

(** Persist this model into the passed directory: the dict stored under
    ["file"] in the returned metadata, and the files written. *)
Definition persist (entity_taggers : option (dict Tagger)) (file_name model_dir : string)
  : dict string * list (Tagger * string) :=
  match entity_taggers with
  | Some ((_ :: _) as taggers) => persist_loop taggers file_name model_dir [] []
  | _ => ([], [])
  end.

End WithTaggers.

Section WithFeatures.

(** The values of features, with Python's [True]; the tokens; the class's
    table [function_dict] from feature name to feature function (the
    functions themselves read a token's text, tags and patterns and are not
    modelled); and [value.items()], defined when the value is a dict. *)
Variable V : Type.
Variable vTrue : V.
Variable CRFToken : Type.
Variable function_dict : dict (CRFToken -> V).
Variable items : V -> option (list (string * V)).

(** [for p_name, matched in regex_patterns.items()] *)
Fixpoint pattern_loop (prefix feature : string) (regex_patterns : list (string * V))
    (word_features : dict V) : dict V :=
  match regex_patterns with
  | [] => word_features
  | (p_name, matched) :: rest =>
      pattern_loop prefix feature rest
        (dict_set (prefix ++ ":" ++ feature ++ ":" ++ p_name) matched word_features)
  end.

(** [for feature in features].  The branch for ["pos"] and ["pos2"] writes
    the same key and value as the last branch (a token object is truthy),
    so the two are one case here. *)
Fixpoint feature_loop (word : CRFToken) (prefix : string) (features : list string)
    (word_features : dict V) : result (dict V) :=
  match features with
  | [] => Ok word_features
  | feature :: rest =>
      if String.eqb feature "pattern" then
        f <- dict_item feature function_dict ;;
        regex_patterns <-
          match items (f word) with
          | Some l => Ok l
          | None => Raise (AttributeError "object has no attribute 'items'")
          end ;;
        feature_loop word prefix rest
                     (pattern_loop prefix feature regex_patterns word_features)
      else
        f <- dict_item feature function_dict ;;
        feature_loop word prefix rest
                     (dict_set (prefix ++ ":" ++ feature) (f word) word_features)
  end.

(** [for f_i in feature_range], threading the configured features (their
    lists grow when tag features are included) and [word_features]. *)
Fixpoint offsets_loop (sentence : list CRFToken) (include_tag_features : bool)
    (word_idx : nat) (half_span : Z) (prefixes : list string) (feature_range : list Z)
    (configured_features : list (list string)) (word_features : dict V)
  : result (list (list string) * dict V) :=
  match feature_range with
  | [] => Ok (configured_features, word_features)
  | f_i :: rest =>
      let position := (Z.of_nat word_idx + f_i)%Z in
      if (Z.of_nat (List.length sentence) <=? position)%Z then
        (* End Of Sentence *)
        offsets_loop sentence include_tag_features word_idx half_span prefixes rest
                     configured_features (dict_set "EOS" vTrue word_features)
      else if (position <? 0)%Z then
        (* Beginning Of Sentence *)
        offsets_loop sentence include_tag_features word_idx half_span prefixes rest
                     configured_features (dict_set "BOS" vTrue word_features)
      else
        word <- py_index sentence position ;;
        let f_i_from_zero := (f_i + half_span)%Z in
        prefix <- py_index prefixes f_i_from_zero ;;
        features <- py_index configured_features f_i_from_zero ;;
        let features := if include_tag_features then features ++ ["entity"] else features in
        let configured_features :=
          if include_tag_features
          then match py_norm_index (List.length configured_features) f_i_from_zero with
               | Some j => append_at j "entity" configured_features
               | None => configured_features
               end
          else configured_features in
        word_features <- feature_loop word prefix features word_features ;;
        offsets_loop sentence include_tag_features word_idx half_span prefixes rest
                     configured_features word_features
  end.

(** [for word_idx in range(len(sentence))], threading the configured
    features and [sentence_features]. *)
Fixpoint words_loop (sentence : list CRFToken) (include_tag_features : bool)
    (word_indices : list nat) (configured_features : list (list string))
    (sentence_features : list (dict V))
  : result (list (dict V) * list (list string)) :=
  match word_indices with
  | [] => Ok (sentence_features, configured_features)
  | word_idx :: rest =>
      let feature_span := Z.of_nat (List.length configured_features) in
      let half_span := (feature_span / 2)%Z in
      let feature_range := py_range (- half_span) (half_span + 1) in
      let prefixes := map str feature_range in
      step <- offsets_loop sentence include_tag_features word_idx half_span prefixes
                           feature_range configured_features [] ;;
      words_loop sentence include_tag_features rest (fst step)
                 (sentence_features ++ [snd step])
  end.

(** Convert a word into discrete features including word before and word
    after: the feature dicts of the sentence, and the configured features
    ([self.component_config["features"]]) as the call leaves them. *)
Definition _sentence_to_features (configured_features : list (list string))
    (sentence : list CRFToken) (include_tag_features : bool)
  : result (list (dict V) * list (list string)) :=
  words_loop sentence include_tag_features (seq 0 (List.length sentence))
             configured_features [].

End WithFeatures.

End CRFModel.

(* ================================================================== *)
(** * Scenarios: a restaurant booking form *)

Module Scenarios.
Import Forms.

(** [time] is filled from the entity [time]. *)
Definition time_mappings : PyVal :=
  PList [PDict [("type", PStr "from_entity"); ("entity", PStr "time")]].

(** [people] is filled from the entity [number] or from the whole text, both
    only for the intent [inform]. *)
Definition people_mappings : PyVal :=
  PList [PDict [("type", PStr "from_entity"); ("entity", PStr "number");
                ("intent", PList [PStr "inform"]); ("not_intent", PList [])];
         PDict [("type", PStr "from_text"); ("intent", PList [PStr "inform"]);
                ("not_intent", PList [])]].

Definition restaurant_domain : Domain :=
  mkDomain
    [[("book_restaurant", [("time", time_mappings); ("people", people_mappings)])]]
    ["action_listen"; "book_restaurant"].

(** A form whose single slot [cuisine] has no mapping of its own in the
    slot mappings the form reads (no domain is attached). *)
Definition cuisine_form : FormAction := mkFormAction "cuisine_form" None.

Definition book_restaurant : FormAction :=
  mkFormAction "book_restaurant" (Some restaurant_domain).

(** An action server that is never reached. *)
Definition no_server : string -> DialogueStateTracker -> Domain -> result (list Event) :=
  fun _ _ _ => Raise (OtherError "no action server").

Definition greeting : UserMessage := mkUserMessage (Some "hello") (Some "greet") [].

Definition at_8pm : UserMessage :=
  mkUserMessage (Some "at 8pm") (Some "greet") [mkEntity "time" (PStr "8pm") None None].

Definition two_cities : UserMessage :=
  mkUserMessage (Some "from Berlin to Paris") (Some "inform")
    [mkEntity "city" (PStr "Berlin") None None;
     mkEntity "city" (PStr "Paris") None None].

(** The form is active and asked for [people]; the user only greets. *)
Definition tracker_greets : DialogueStateTracker :=
  from_events "user"
    [Form (Some "book_restaurant"); SlotSet "requested_slot" (PStr "people");
     ActionExecuted "action_listen" None None; UserUttered greeting].

(** The form is active and asked for [people]; the user gives a time. *)
Definition tracker_gives_time : DialogueStateTracker :=
  from_events "user"
    [Form (Some "book_restaurant"); SlotSet "requested_slot" (PStr "people");
     ActionExecuted "action_listen" None None; UserUttered at_8pm].

(** No form is active yet; the user gives a time. *)
Definition tracker_before_form : DialogueStateTracker :=
  from_events "user" [ActionExecuted "action_listen" None None; UserUttered at_8pm].

(** [time] is set, [people] is not. *)
Definition tracker_time_set : DialogueStateTracker :=
  from_events "user" [SlotSet "time" (PStr "8pm")].

Definition for_four : UserMessage :=
  mkUserMessage (Some "for four") (Some "inform")
    [mkEntity "number" (PStr "4") None None].

(** [time] is set before the form is called, and the message that calls the
    form gives the number of people. *)
Definition tracker_finishes_at_once : DialogueStateTracker :=
  from_events "user"
    [SlotSet "time" (PStr "8pm");
     ActionExecuted "action_listen" None None; UserUttered for_four].

Definition tracker_two_cities : DialogueStateTracker :=
  from_events "user" [UserUttered two_cities].

(** A mapping with a [not_intent] filter only. *)
Definition not_greet_mapping : dict PyVal :=
  [("type", PStr "from_entity"); ("entity", PStr "time");
   ("intent", PList []); ("not_intent", PList [PStr "greet"])].

(** A mapping with an [intent] filter only. *)
Definition inform_mapping : dict PyVal :=
  [("type", PStr "from_entity"); ("entity", PStr "time");
   ("intent", PList [PStr "inform"]); ("not_intent", PList [])].

End Scenarios.

(** ** An interactive session with a failing action server *)

Module InteractiveScenarios.
Import Interactive.

(** A server whose first request times out and that accepts the later ones. *)
Definition times_out_once : EndpointConfig :=
  fun received _ =>
    match received with
    | [] => Raise (ClientError "timeout")
    | _ :: _ => Ok (PDict [])
    end.

(** The user confirms the warning. *)
Definition confirming_session : Session := mkSession [Some (AnswerBool true)] [].

Definition export_nothing : string -> EndpointConfig -> M unit :=
  fun _ _ s => (Ok tt, s).

End InteractiveScenarios.

(** ** A table of stubs *)

Module StubScenarios.
Import Stub.

(** Stubs registered by action name in a table. *)
Definition table_lookup : dict StubCustomAction -> string -> option StubCustomAction :=
  fun table action_name => dict_get action_name table.

Definition check_balance_stub : StubCustomAction :=
  mkStub "action_check_balance"
         [PDict [("event", PStr "slot"); ("name", PStr "balance"); ("value", PStr "100")]]
         [PDict [("text", PStr "Your balance is 100.")]].

Definition stub_table : dict StubCustomAction :=
  [("action_check_balance", check_balance_stub)].

End StubScenarios.

(* ================================================================== *)
(** * Notions used in the statements *)

Module Notions.
Import Forms.

(** The filters of a mapping as [intent_is_desired] reads them. *)
Definition intent_filter (m : dict PyVal) : PyVal :=
  dict_get_default "intent" (PList []) m.

Definition not_intent_filter (m : dict PyVal) : PyVal :=
  dict_get_default "not_intent" (PList []) m.

(** The check in the words of the specification: the [not_intent] filter is
    empty and does not hold the intent, or the [intent] filter holds it. *)
Definition intent_check_as_stated (li lni : list PyVal) (intent : option string) : Prop :=
  (lni = [] /\ ~ In (py_of_ostr intent) lni) \/ In (py_of_ostr intent) li.

(** The check as the code computes it: the [intent] filter is empty and the
    [not_intent] filter does not hold the intent, or the [intent] filter
    holds it. *)
Definition intent_check_as_coded (li lni : list PyVal) (intent : option string) : Prop :=
  (li = [] /\ ~ In (py_of_ostr intent) lni) \/ In (py_of_ostr intent) li.

(** The mapping [from_entity(slot)] with no further argument: the implicit
    mapping of a slot to the entity of the same name. *)
Definition implicit_mapping (slot : string) : dict PyVal :=
  [("type", PStr "from_entity");
   ("entity", PStr slot);
   ("intent", PList []);
   ("not_intent", PList []);
   ("role", PNone);
   ("group", PNone)].

(** The condition for validation in the words of the specification: the
    form was already active, the last action was the listen action, and
    validation is not disabled for the active loop. *)
Definition validation_condition_as_stated (self : FormAction)
    (t : DialogueStateTracker) : bool :=
  form_is_active self t && latest_action_is_listen t
  && active_form_validate_default_true t.

(** The form as [run] uses it after [self._domain = domain]. *)
Definition with_domain (self : FormAction) (domain : Domain) : FormAction :=
  mkFormAction (_form_name self) (Some domain).

(** The tracker [run] replays to choose the next slot: the events after the
    latest restart followed by the events of this turn's validation. *)
Definition temp_tracker (t : DialogueStateTracker) (events : list Event)
  : DialogueStateTracker :=
  from_events (sender_id t) (events_after_latest_restart t ++ events).

(** A slot whose tracker value is set. *)
Definition slot_is_set (t : DialogueStateTracker) (slot : string) : Prop :=
  get_slot t slot <> PNone.

(** [slot] is the first of [slots] whose tracker value is unset. *)
Definition first_unset (t : DialogueStateTracker) (slots : list string)
    (slot : string) : Prop :=
  exists before after : list string,
    slots = before ++ slot :: after
    /\ Forall (slot_is_set t) before
    /\ get_slot t slot = PNone.

End Notions.
Import Notions.

(* ================================================================== *)
(** * Further scenarios *)

Module MoreScenarios.
Import Forms Scenarios.

(** The requested slot holds a list instead of a slot name. *)
Definition tracker_unhashable_request : DialogueStateTracker :=
  from_events "user" [SlotSet "requested_slot" (PList [PStr "people"])].

(** The form is active and asked for [people]; the user gives a number. *)
Definition tracker_answers_people : DialogueStateTracker :=
  from_events "user"
    [Form (Some "book_restaurant"); SlotSet "requested_slot" (PStr "people");
     ActionExecuted "action_listen" None None; UserUttered for_four].

(** The user's intent is [info]. *)
Definition tracker_info : DialogueStateTracker :=
  from_events "user" [UserUttered (mkUserMessage (Some "tell me") (Some "info") [])].

(** [from_trigger_intent("outdoor", intent="inform")]. *)
Definition trigger_mapping : dict PyVal :=
  [("type", PStr "from_trigger_intent"); ("value", PStr "outdoor");
   ("intent", PList [PStr "inform"]); ("not_intent", PList [])].

(** A mapping of a type the form does not know. *)
Definition from_slot_mapping : dict PyVal := [("type", PStr "from_slot")].

(** A mapping whose [intent] is the text [inform], not the list. *)
Definition text_filter_mapping : dict PyVal :=
  [("type", PStr "from_entity"); ("entity", PStr "time"); ("intent", PStr "inform")].

(** A form the restaurant domain does not configure. *)
Definition unknown_form : FormAction := mkFormAction "feedback_form" None.

(** A form whose required slot [cuisine] is declared without a mapping
    ([cuisine:] with nothing after it, that is [None]). *)
Definition cuisine_domain : Domain :=
  mkDomain [[("cuisine_form", [("cuisine", PNone)])]]
           ["action_listen"; "cuisine_form"].

Definition declared_cuisine_form : FormAction :=
  mkFormAction "cuisine_form" (Some cuisine_domain).

Definition thai_food : UserMessage :=
  mkUserMessage (Some "thai food") (Some "inform")
    [mkEntity "cuisine" (PStr "thai") None None].

(** The form is active and asked for [cuisine]; the user names one. *)
Definition tracker_wants_thai : DialogueStateTracker :=
  from_events "user"
    [Form (Some "cuisine_form"); SlotSet "requested_slot" (PStr "cuisine");
     ActionExecuted "action_listen" None None; UserUttered thai_food].

End MoreScenarios.

Module MoreInteractiveScenarios.
Import Interactive InteractiveEvents.

(** A server that answers every request with an internal error. *)
Definition server_error : EndpointConfig :=
  fun _ _ => Raise (OtherError "internal server error").

(** A dump in which the form [book_restaurant] is active. *)
Definition dump_with_active_form : dict Json :=
  [("latest_action_name", JString "action_listen");
   ("active_loop",
    JObject [("name", JString "book_restaurant"); ("validate", JBool true);
             ("rejected", JBool true)])].

End MoreInteractiveScenarios.

Module CRFScenarios.
Import CRFModel.

(** Two taggers, files joined with a slash. *)
Definition two_taggers : dict unit := [("entity", tt); ("role", tt)].

Definition join_with_slash (directory file : string) : string :=
  (directory ++ "/" ++ file)%string.

(** Tokens that are their text, feature values that are texts, and a small
    table of feature functions. *)
Definition text_functions : dict (string -> string) :=
  [("low", fun word => word); ("bias", fun _ => "bias"); ("entity", fun _ => "O")].

Definition no_items : string -> option (list (string * string)) := fun _ => None.

Definition three_windows : list (list string) := [["low"]; ["low"; "bias"]; ["low"]].

Definition two_windows : list (list string) := [["low"]; ["low"; "bias"]].

Definition book_a_table : list string := ["book"; "a"; "table"].

End CRFScenarios.

(* ================================================================== *)
(** * Further notions used in the statements *)

Module MoreNotions.
Import Forms.

(** [m] is what one of the four mapping constructors returns for the given
    [intent] and [not_intent] arguments. *)
Definition built_by_constructor (m : dict PyVal) (intent not_intent : PyVal) : Prop :=
  (exists entity role group : PyVal,
      from_entity entity intent not_intent role group = Ok m)
  \/ (exists value : PyVal, from_trigger_intent value intent not_intent = Ok m)
  \/ (exists value : PyVal, from_intent value intent not_intent = Ok m)
  \/ from_text intent not_intent = Ok m.

(** An argument that is [None] or a list. *)
Definition none_or_list (x : PyVal) : Prop :=
  x = PNone \/ exists l : list PyVal, x = PList l.

(** A mapping whose ["type"] is present and not [None]. *)
Definition has_type (m : dict PyVal) : Prop :=
  exists ty : PyVal, dict_get "type" m = Some ty /\ py_is_none ty = false.

(** The exception is a [TypeError]. *)
Definition is_TypeError (e : Exn) : Prop := exists msg : string, e = TypeError msg.

(** The exception is a [ValueError]. *)
Definition is_ValueError (e : Exn) : Prop := exists msg : string, e = ValueError msg.

(** The exception is an [AttributeError]. *)
Definition is_AttributeError (e : Exn) : Prop :=
  exists msg : string, e = AttributeError msg.

(** The four mapping types [extract_requested_slot] knows. *)
Definition is_known_type (ty : PyVal) : bool :=
  py_eq_str "from_entity" ty || py_eq_str "from_intent" ty
  || py_eq_str "from_trigger_intent" ty || py_eq_str "from_text" ty.

(** The domain has no action [action_validate_<form name>]. *)
Definition no_validation_action (self : FormAction) (d : Domain) : Prop :=
  existsb (String.eqb ("action_validate_" ++ _form_name self)) (action_names d) = false.

(** The tag names for which a training data has examples. *)
Definition has_training_data (type_name role_name group_name : string)
    (td : CRFModel.TrainingData) (tag_name : string) : bool :=
  String.eqb tag_name type_name && CRFModel.nonempty (CRFModel.entities td)
  || String.eqb tag_name role_name && CRFModel.nonempty (CRFModel.entity_roles td)
  || String.eqb tag_name group_name && CRFModel.nonempty (CRFModel.entity_groups td).

(** The file names [persist] goes through: each one is the one before,
    followed by a dot, the tagger's name and [.pkl]. *)
Fixpoint nested_file_names (file_name : string) (names : list string) : list string :=
  match names with
  | [] => []
  | name :: rest =>
      let file_name := (file_name ++ "." ++ name ++ ".pkl")%string in
      file_name :: nested_file_names file_name rest
  end.

(** The exception is not an [IndexError]. *)
Definition not_IndexError (e : Exn) : Prop := forall msg : string, e <> IndexError msg.

(** [new] is [old] with some number of ["entity"] appended. *)
Definition grown_by_entity (old new : list string) : Prop :=
  exists k : nat, new = old ++ repeat "entity" k.

(** A feature name the table [function_dict] can evaluate on every token:
    it has a function, and for ["pattern"] the function yields a dict. *)
Definition evaluable {V CRFToken : Type} (function_dict : dict (CRFToken -> V))
    (items : V -> option (list (string * V))) (feature : string) : Prop :=
  exists f : CRFToken -> V,
    dict_get feature function_dict = Some f
    /\ (feature = "pattern" -> forall word : CRFToken, items (f word) <> None).

End MoreNotions.
Import MoreNotions.

(* ================================================================== *)
(** * Properties *)

(** ** Monad and dict facts *)

Lemma bind_Ok {A B : Type} (a : A) (k : A -> result B) : bind (Ok a) k = k a.
Proof. reflexivity. Qed.

Lemma bind_Raise {A B : Type} (e : Exn) (k : A -> result B) :
  bind (Raise e) k = Raise e.
Proof. reflexivity. Qed.

Lemma bind_inv_Ok {A B : Type} (c : result A) (k : A -> result B) (b : B) :
  bind c k = Ok b -> exists a, c = Ok a /\ k a = Ok b.
Proof.
  destruct c as [a|e]; simpl; intros H.
  - exists a. split; [reflexivity | exact H].
  - discriminate H.
Qed.

Lemma py_eq_ostr_true (x : option string) (v : PyVal) :
  py_eq_ostr x v = true <-> v = py_of_ostr x.
Proof.
  destruct x as [s|]; destruct v as [|s'|l|d]; simpl; split; intros H;
    try discriminate H; try reflexivity.
  - apply String.eqb_eq in H. now subst.
  - injection H as ->. apply String.eqb_refl.
Qed.

Lemma existsb_py_eq_ostr (x : option string) (l : list PyVal) :
  existsb (py_eq_ostr x) l = true <-> In (py_of_ostr x) l.
Proof.
  rewrite existsb_exists. split.
  - intros [v [Hin Heq]]. apply py_eq_ostr_true in Heq. now subst.
  - intros Hin. exists (py_of_ostr x). split; [exact Hin|].
    now apply py_eq_ostr_true.
Qed.

Lemma dict_set_not_nil {V : Type} (k : string) (v : V) (d : dict V) :
  dict_set k v d <> [].
Proof.
  destruct d as [|[k' v'] d']; simpl; [discriminate|].
  destruct (String.eqb k k'); discriminate.
Qed.

Lemma dict_update_not_nil_l {V : Type} (other d : dict V) :
  d <> [] -> dict_update d other <> [].
Proof.
  unfold dict_update. revert d.
  induction other as [|[k v] other IH]; intros d Hd; simpl; [exact Hd|].
  apply IH. apply dict_set_not_nil.
Qed.

Lemma dict_update_nil {V : Type} (d other : dict V) :
  dict_update d other = [] <-> d = [] /\ other = [].
Proof.
  split.
  - intros H. destruct other as [|[k v] other].
    + split; [exact H | reflexivity].
    + exfalso. unfold dict_update in H. simpl in H.
      apply (dict_update_not_nil_l other (dict_set k v d)); [|exact H].
      apply dict_set_not_nil.
  - intros [-> ->]. reflexivity.
Qed.

(** ** The intent check of a slot mapping *)

Section IntentCheck.
Import Forms Scenarios.

Lemma intent_is_desired_lists (m : dict PyVal) (t : DialogueStateTracker)
    (li lni : list PyVal) :
  intent_filter m = PList li ->
  not_intent_filter m = PList lni ->
  intent_is_desired m t =
    Ok ((match li with [] => negb (existsb (py_eq_ostr (intent_name (latest_message t))) lni)
                  | _ => false end)
        || existsb (py_eq_ostr (intent_name (latest_message t))) li).
Proof.
  unfold intent_filter, not_intent_filter, intent_is_desired. intros -> ->.
  destruct li as [|i li']; simpl.
  - destruct (existsb _ lni); reflexivity.
  - reflexivity.
Qed.

(** C2 (as stated, refuted): a mapping that only excludes [greet] passes the
    check for the intent [inform], although its [not_intent] filter is not
    empty and its [intent] filter does not hold [inform]. *)
Lemma intent_check_as_stated_fails :
  ~ (forall (m : dict PyVal) (t : DialogueStateTracker) (li lni : list PyVal),
        intent_filter m = PList li ->
        not_intent_filter m = PList lni ->
        (intent_is_desired m t = Ok true
         <-> intent_check_as_stated li lni (intent_name (latest_message t)))).
Proof.
  intros H.
  specialize (H not_greet_mapping tracker_two_cities [] [PStr "greet"]
                eq_refl eq_refl).
  destruct H as [H _]. specialize (H eq_refl).
  destruct H as [[Hnil _] | Hin].
  - discriminate Hnil.
  - destruct Hin.
Qed.

(** C2 (amended): for every mapping with list filters and every tracker the
    intent check returns a truth value, and it passes if and only if the
    [intent] filter is empty and the current intent is not in the
    [not_intent] filter, or the current intent is in the [intent] filter. *)
Theorem intent_is_desired_iff
    (m : dict PyVal) (t : DialogueStateTracker) (li lni : list PyVal) :
  intent_filter m = PList li ->
  not_intent_filter m = PList lni ->
  exists b : bool,
    intent_is_desired m t = Ok b
    /\ (b = true <-> intent_check_as_coded li lni (intent_name (latest_message t))).
Proof.
  intros Hi Hni. rewrite (intent_is_desired_lists m t li lni Hi Hni).
  eexists. split; [reflexivity|].
  unfold intent_check_as_coded.
  rewrite orb_true_iff, !existsb_py_eq_ostr. split.
  - intros [H|H]; [left|right; exact H].
    destruct li as [|i li']; [|discriminate H].
    split; [reflexivity|].
    apply negb_true_iff in H. intros Hin.
    apply existsb_py_eq_ostr in Hin. congruence.
  - intros [[-> Hnot]|H]; [left|right; exact H].
    apply negb_true_iff. destruct (existsb _ lni) eqn:E; [|reflexivity].
    exfalso. apply Hnot. now apply existsb_py_eq_ostr.
Qed.

(** The mapping that only excludes [greet] passes for [inform]; the mapping
    that only admits [inform] passes for it too. *)
Lemma intent_is_desired_iff_witness :
  exists b : bool,
    intent_is_desired not_greet_mapping tracker_two_cities = Ok b
    /\ (b = true <-> intent_check_as_coded [] [PStr "greet"] (Some "inform")).
Proof.
  apply (intent_is_desired_iff not_greet_mapping tracker_two_cities
                               [] [PStr "greet"]); reflexivity.
Defined.

End IntentCheck.

(** ** Entity values of the latest message *)

Section EntityValue.
Import Forms Scenarios.

(** C5: for every lookup of an entity (with optional role and group) in the
    latest user message, [get_entity_value] returns [None] when no value
    matches, the value itself when exactly one matches, and the whole list
    of values, in order, when more than one matches. *)
Theorem get_entity_value_by_count
    (name role group : PyVal) (t : DialogueStateTracker) :
  let values := get_latest_entity_values t name role group in
  (values = [] -> get_entity_value name t role group = PNone)
  /\ (forall v, values = [v] -> get_entity_value name t role group = v)
  /\ (2 <= List.length values -> get_entity_value name t role group = PList values).
Proof.
  unfold get_entity_value. cbv zeta.
  destruct (get_latest_entity_values t name role group) as [|v [|w vs]];
    simpl; (split; [|split]).
  - reflexivity.
  - intros v H. discriminate H.
  - intros H. lia.
  - intros H. discriminate H.
  - intros v' H. congruence.
  - intros H. lia.
  - intros H. discriminate H.
  - intros v' H. discriminate H.
  - reflexivity.
Qed.

(** Two cities in one message: the slot gets both, in order. *)
Lemma get_entity_value_by_count_witness :
  get_entity_value (PStr "city") tracker_two_cities PNone PNone
  = PList [PStr "Berlin"; PStr "Paris"].
Proof.
  apply (proj2 (proj2 (get_entity_value_by_count (PStr "city") PNone PNone
                                                 tracker_two_cities))).
  simpl. lia.
Defined.

End EntityValue.

(** ** Slots without a mapping of their own *)

Section ImplicitMapping.
Import Forms Scenarios.

Lemma from_entity_implicit (slot : string) :
  from_entity (PStr slot) PNone PNone PNone PNone = Ok (implicit_mapping slot).
Proof. reflexivity. Qed.

Lemma intent_is_desired_implicit (slot : string) (t : DialogueStateTracker) :
  intent_is_desired (implicit_mapping slot) t = Ok true.
Proof. reflexivity. Qed.

Lemma get_mappings_for_slot_explicit (self : FormAction) (slot : string)
    (mappings : dict PyVal) (m : dict PyVal) :
  slot_mappings self = Ok mappings ->
  dict_get slot mappings = Some (PList [PDict m]) ->
  get_mappings_for_slot self (PStr slot) = check_mappings [PDict m].
Proof.
  intros Hm Hget. unfold get_mappings_for_slot.
  rewrite Hm, from_entity_implicit. simpl.
  unfold dict_get_default. rewrite Hget. reflexivity.
Qed.

(** The default of the lookup: for a slot that is not a key of the form's
    slot mappings, [get_mappings_for_slot] returns exactly
    [[from_entity(slot)]]; the requested slot is then resolved from the
    entity named like the slot ([None] for no value, the value for one, the
    list for several), which is also what any form does that configures
    that mapping explicitly. *)
Theorem get_mappings_for_slot_default
    (self : FormAction) (slot : string) (mappings : dict PyVal) :
  slot_mappings self = Ok mappings ->
  dict_get slot mappings = None ->
  exists m : dict PyVal,
    from_entity (PStr slot) PNone PNone PNone PNone = Ok m
    /\ get_mappings_for_slot self (PStr slot) = Ok [m]
    /\ (forall t : DialogueStateTracker,
           get_slot t REQUESTED_SLOT = PStr slot ->
           extract_requested_slot self t
           = (let value := get_entity_value (PStr slot) t PNone PNone in
              if py_is_none value then Ok [] else Ok [(slot, value)]))
    /\ (forall (self' : FormAction) (mappings' : dict PyVal) (t : DialogueStateTracker),
           slot_mappings self' = Ok mappings' ->
           dict_get slot mappings' = Some (PList [PDict m]) ->
           get_slot t REQUESTED_SLOT = PStr slot ->
           extract_requested_slot self t = extract_requested_slot self' t).
Proof.
  intros Hm Hget. exists (implicit_mapping slot).
  assert (Hdefault : get_mappings_for_slot self (PStr slot) = Ok [implicit_mapping slot]).
  { unfold get_mappings_for_slot. rewrite Hm, from_entity_implicit. simpl.
    unfold dict_get_default. rewrite Hget. reflexivity. }
  split; [apply from_entity_implicit|].
  split; [exact Hdefault|].
  split.
  - intros t Hreq. unfold extract_requested_slot. rewrite Hreq, Hdefault.
    simpl. destruct (py_is_none _); reflexivity.
  - intros self' mappings' t Hm' Hget' Hreq.
    unfold extract_requested_slot. rewrite Hreq, Hdefault.
    rewrite (get_mappings_for_slot_explicit self' slot mappings' _ Hm' Hget').
    reflexivity.
Qed.

(** The restaurant form does not configure [cuisine]: asked for that slot,
    it resolves it from the entity [cuisine]. *)
Lemma get_mappings_for_slot_default_witness :
  exists m : dict PyVal,
    from_entity (PStr "cuisine") PNone PNone PNone PNone = Ok m
    /\ get_mappings_for_slot book_restaurant (PStr "cuisine") = Ok [m]
    /\ (forall t : DialogueStateTracker,
           get_slot t REQUESTED_SLOT = PStr "cuisine" ->
           extract_requested_slot book_restaurant t
           = (let value := get_entity_value (PStr "cuisine") t PNone PNone in
              if py_is_none value then Ok [] else Ok [("cuisine", value)]))
    /\ (forall (self' : FormAction) (mappings' : dict PyVal) (t : DialogueStateTracker),
           slot_mappings self' = Ok mappings' ->
           dict_get "cuisine" mappings' = Some (PList [PDict m]) ->
           get_slot t REQUESTED_SLOT = PStr "cuisine" ->
           extract_requested_slot book_restaurant t = extract_requested_slot self' t).
Proof.
  apply (get_mappings_for_slot_default
           book_restaurant "cuisine"
           [("time", time_mappings); ("people", people_mappings)]);
    reflexivity.
Defined.

End ImplicitMapping.

(** ** The CRF configuration check *)

Section CRFConfiguration.
Import CRF.

Lemma mod_2_is_1 (n : nat) : Nat.eqb (n mod 2) 1 = Nat.odd n.
Proof.
  rewrite <- Nat.bit0_mod, Nat.bit0_odd. destruct (Nat.odd n); reflexivity.
Qed.

(** C9 (as stated, refuted): the default feature windows are three lists,
    an odd number, and the check accepts them. *)
Lemma odd_feature_windows_accepted :
  ~ (forall (component_config : dict PyVal) (features : list PyVal),
        dict_get "features" component_config = Some (PList features) ->
        Nat.odd (List.length features) = true ->
        exists e : Exn, _validate_configuration component_config = Raise e).
Proof.
  intros H.
  destruct (H [("features", default_features)] _ eq_refl eq_refl) as [e He].
  discriminate He.
Qed.

(** C9 (amended): the check raises, at validation time and without changing
    the configuration, exactly when the number of feature lists is even
    (zero included); an odd number of feature lists is accepted. *)
Theorem validate_configuration_even_raises
    (component_config : dict PyVal) (features : list PyVal) :
  dict_get "features" component_config = Some (PList features) ->
  _validate_configuration component_config
  = if Nat.even (List.length features)
    then Raise (ValueError "Need an odd number of crf feature lists to have a center word.")
    else Ok tt.
Proof.
  intros Hget. unfold _validate_configuration, dict_get_default.
  rewrite Hget. cbn [py_len bind]. rewrite mod_2_is_1.
  rewrite <- Nat.negb_odd. destruct (Nat.odd _); reflexivity.
Qed.

(** Two feature lists (no center word) are refused. *)
Lemma validate_configuration_even_raises_witness :
  _validate_configuration
    [("features", PList [PList [PStr "low"]; PList [PStr "title"]])]
  = Raise (ValueError "Need an odd number of crf feature lists to have a center word.").
Proof.
  apply (validate_configuration_even_raises
           [("features", PList [PList [PStr "low"]; PList [PStr "title"]])]
           [PList [PStr "low"]; PList [PStr "title"]]).
  reflexivity.
Defined.

End CRFConfiguration.

(** ** Validation of the user input by the form *)

Section FormValidation.
Import Forms Scenarios.

Variable remote : string -> DialogueStateTracker -> Domain -> result (list Event).

Lemma validate_unfold (self : FormAction) (t : DialogueStateTracker) (d : Domain)
    (others : dict PyVal) :
  extract_other_slots self t = Ok others ->
  validate remote self t d =
    if py_truthy (get_slot t REQUESTED_SLOT) then
      requested <- extract_requested_slot self t ;;
      match dict_update others requested with
      | [] =>
          Raise (ActionExecutionRejection
                   (name self)
                   ("Failed to extract slot " ++ py_str (get_slot t REQUESTED_SLOT)
                    ++ " with action " ++ name self))
      | _ :: _ => validate_slots remote self (dict_update others requested) t d
      end
    else validate_slots remote self others t d.
Proof. intros H. unfold validate. rewrite H. reflexivity. Qed.

(** C1 (amended): when a slot is requested, [validate] raises the rejection
    signal if nothing was extracted at all, neither for the requested slot
    nor for any other required slot; when a value was extracted for some
    slot it goes on to validate the extracted values; with no slot requested
    it validates the other slots' values and this rejection is not raised. *)
Theorem validate_rejects_when_nothing_extracted
    (self : FormAction) (t : DialogueStateTracker) (d : Domain) (others : dict PyVal) :
  extract_other_slots self t = Ok others ->
  (py_truthy (get_slot t REQUESTED_SLOT) = false ->
   validate remote self t d = validate_slots remote self others t d)
  /\ (py_truthy (get_slot t REQUESTED_SLOT) = true ->
      forall requested : dict PyVal,
        extract_requested_slot self t = Ok requested ->
        (others = [] /\ requested = [] ->
         validate remote self t d
         = Raise (ActionExecutionRejection
                    (name self)
                    ("Failed to extract slot " ++ py_str (get_slot t REQUESTED_SLOT)
                     ++ " with action " ++ name self)))
        /\ (others <> [] \/ requested <> [] ->
            validate remote self t d
            = validate_slots remote self (dict_update others requested) t d)).
Proof.
  intros Hother. rewrite (validate_unfold self t d others Hother). split.
  - intros ->. reflexivity.
  - intros -> requested ->. rewrite bind_Ok. split.
    + intros [-> ->]. reflexivity.
    + intros Hne. destruct (dict_update others requested) eqn:E; [|reflexivity].
      apply dict_update_nil in E. destruct E as [-> ->].
      destruct Hne as [Hne|Hne]; now contradiction Hne.
Qed.

(** A [from_trigger_intent] mapping fills a slot only through the
    validation of a turn in which the form is not active yet. *)
Lemma trigger_intent_needs_inactive_form (self : FormAction)
    (t : DialogueStateTracker) (slot : string) (m : dict PyVal) :
  dict_get "type" m = Some (PStr "from_trigger_intent") ->
  form_is_active self t = true ->
  other_slot_value self t slot m = Ok PNone.
Proof.
  intros Hty Hact. unfold other_slot_value, dict_item.
  rewrite Hty, Hact. reflexivity.
Qed.

(** C3 (amended): [_validate_if_required] runs [validate] when the last
    action is the listen action and the active loop's [validate] flag, read
    as true when no form is active, is true; otherwise validation is
    skipped and yields no event.  That the form was already active is not
    required. *)
Theorem validate_if_required_iff
    (self : FormAction) (t : DialogueStateTracker) (d : Domain) :
  (latest_action_is_listen t = true ->
   active_form_validate_default_true t = true ->
   _validate_if_required remote self t d = validate remote self t d)
  /\ (latest_action_is_listen t = false \/ active_form_validate_default_true t = false ->
      _validate_if_required remote self t d = Ok [])
  /\ (active_form t = None -> active_form_validate_default_true t = true).
Proof.
  unfold _validate_if_required. split; [|split].
  - intros -> ->. reflexivity.
  - intros [-> | ->]; [reflexivity|]. now rewrite andb_false_r.
  - unfold active_form_validate_default_true. intros ->. reflexivity.
Qed.

End FormValidation.

Section FormValidationExamples.
Import Forms Scenarios.

(** C1 (as stated, refuted): [people] is requested and nothing is extracted
    for it, yet the user gave a time: [validate] returns the event that sets
    [time] and raises nothing. *)
Lemma validate_not_rejected_with_other_slot :
  ~ (forall (remote : string -> DialogueStateTracker -> Domain -> result (list Event))
            (self : FormAction) (t : DialogueStateTracker) (d : Domain),
        py_truthy (get_slot t REQUESTED_SLOT) = true ->
        extract_requested_slot self t = Ok [] ->
        exists message : string,
          validate remote self t d
          = Raise (ActionExecutionRejection (name self) message)).
Proof.
  intros H.
  destruct (H no_server book_restaurant tracker_gives_time restaurant_domain
              eq_refl eq_refl) as [message Hm].
  vm_compute in Hm. discriminate Hm.
Qed.

(** Scenario C: [people] is requested, the message has no entity and its
    intent is outside the filters of both mappings; [validate] rejects. *)
Lemma validate_rejects_when_nothing_extracted_witness :
  validate no_server book_restaurant tracker_greets restaurant_domain
  = Raise (ActionExecutionRejection
             "book_restaurant"
             "Failed to extract slot people with action book_restaurant").
Proof.
  apply (proj2 (validate_rejects_when_nothing_extracted
                  no_server book_restaurant tracker_greets restaurant_domain []
                  eq_refl) eq_refl [] eq_refl).
  split; reflexivity.
Defined.

(** C3 (as stated, refuted): no form is active, so the stated condition is
    false, yet the input is validated and yields an event. *)
Lemma validation_runs_before_form_is_active :
  ~ (forall (remote : string -> DialogueStateTracker -> Domain -> result (list Event))
            (self : FormAction) (t : DialogueStateTracker) (d : Domain),
        validation_condition_as_stated self t = false ->
        _validate_if_required remote self t d = Ok []).
Proof.
  intros H.
  specialize (H no_server book_restaurant tracker_before_form restaurant_domain
                eq_refl).
  vm_compute in H. discriminate H.
Qed.

(** Before the form is active the user input is validated. *)
Lemma validate_if_required_iff_witness :
  _validate_if_required no_server book_restaurant tracker_before_form restaurant_domain
  = validate no_server book_restaurant tracker_before_form restaurant_domain.
Proof.
  apply (proj1 (validate_if_required_iff
                  no_server book_restaurant tracker_before_form restaurant_domain));
    reflexivity.
Defined.

End FormValidationExamples.

(** ** Choosing the next slot and finishing the form *)

Section NextSlot.
Import Forms Scenarios.

Lemma _should_request_slot_false (t : DialogueStateTracker) (slot : string) :
  _should_request_slot t slot = false <-> slot_is_set t slot.
Proof.
  unfold _should_request_slot, slot_is_set.
  destruct (get_slot t slot); simpl; split; intros H;
    try discriminate; try reflexivity; now contradiction H.
Qed.

Lemma _should_request_slot_true (t : DialogueStateTracker) (slot : string) :
  _should_request_slot t slot = true <-> get_slot t slot = PNone.
Proof.
  unfold _should_request_slot.
  destruct (get_slot t slot); simpl; split; intros H;
    try discriminate; reflexivity.
Qed.

Lemma request_next_loop_shape (t : DialogueStateTracker) (slots : list string) :
  request_next_loop t slots = None
  \/ exists slot, request_next_loop t slots = Some [SlotSet REQUESTED_SLOT (PStr slot)].
Proof.
  induction slots as [|s rest IH]; simpl.
  - left. reflexivity.
  - destruct (_should_request_slot t s).
    + right. exists s. reflexivity.
    + exact IH.
Qed.

Lemma request_next_loop_None (t : DialogueStateTracker) (slots : list string) :
  request_next_loop t slots = None <-> Forall (slot_is_set t) slots.
Proof.
  induction slots as [|s rest IH]; simpl.
  - split; [constructor | reflexivity].
  - destruct (_should_request_slot t s) eqn:E.
    + split; [discriminate|].
      intros H. inversion H as [|x l Hset Hrest]; subst.
      apply _should_request_slot_false in Hset. congruence.
    + rewrite IH. split.
      * intros H. constructor; [now apply _should_request_slot_false | exact H].
      * intros H. now inversion H.
Qed.

Lemma request_next_loop_Some (t : DialogueStateTracker) (slots : list string)
    (slot : string) :
  request_next_loop t slots = Some [SlotSet REQUESTED_SLOT (PStr slot)]
  <-> first_unset t slots slot.
Proof.
  unfold first_unset. induction slots as [|s rest IH]; simpl.
  - split; [discriminate|].
    intros [before [after [H _]]]. destruct before; discriminate H.
  - destruct (_should_request_slot t s) eqn:E.
    + split.
      * intros H. injection H as <-. exists [], rest.
        repeat split; [constructor | now apply _should_request_slot_true].
      * intros [before [after [Heq [Hset Hnone]]]].
        destruct before as [|b before]; simpl in Heq; injection Heq as <- _.
        -- reflexivity.
        -- inversion Hset as [|x l Hb _]; subst.
           apply _should_request_slot_false in Hb. congruence.
    + rewrite IH. split.
      * intros [before [after [-> [Hset Hnone]]]].
        exists (s :: before), after. repeat split; [|exact Hnone].
        constructor; [now apply _should_request_slot_false | exact Hset].
      * intros [before [after [Heq [Hset Hnone]]]].
        destruct before as [|b before]; simpl in Heq; injection Heq as <- Hrest.
        -- apply _should_request_slot_true in Hnone. congruence.
        -- exists before, after. repeat split; [exact Hrest | | exact Hnone].
           now inversion Hset.
Qed.

Variable remote : string -> DialogueStateTracker -> Domain -> result (list Event).

(** [run], once activation and validation have returned their events. *)
Lemma run_unfold (self : FormAction) (t : DialogueStateTracker) (d : Domain)
    (activation events : list Event) :
  _activate_if_required remote (with_domain self d) t d = Ok activation ->
  _validate_if_required remote (with_domain self d) t d = Ok events ->
  run remote self t d =
    if existsb is_form_none events then Ok events
    else
      next <- request_next_slot (with_domain self d) (temp_tracker t events) ;;
      match next with
      | Some next_slot_events => Ok (activation ++ events ++ next_slot_events)
      | None => Ok (events ++ deactivate self)
      end.
Proof.
  unfold with_domain, temp_tracker. intros Ha Hv. unfold run.
  rewrite Ha, Hv. simpl. destruct (existsb is_form_none events); reflexivity.
Qed.

(** What activation returns in a turn in which the form is not active yet:
    the activation event, then the events of validating pre-filled slots. *)
Lemma _activate_if_required_inactive (self : FormAction) (t : DialogueStateTracker)
    (d : Domain) (activation : list Event) :
  form_is_active self t = false ->
  _activate_if_required remote self t d = Ok activation ->
  exists prefilled : list Event, activation = Form (Some (name self)) :: prefilled.
Proof.
  unfold _activate_if_required. intros -> H.
  apply bind_inv_Ok in H. destruct H as [slots [_ H]].
  destruct (prefilled_loop t slots []) as [|kv rest].
  - injection H as <-. exists []. reflexivity.
  - apply bind_inv_Ok in H. destruct H as [validated [_ H]].
    injection H as <-. exists validated. reflexivity.
Qed.

(** C4: [request_next_slot] goes through the required slots in declared
    order and returns [[SlotSet(requested_slot, name)]] for the first slot
    whose tracker value is [None], and [None] if every required slot is set;
    when that happens in [run], the form is deactivated: the returned events
    end with [Form(None)] followed by [SlotSet(requested_slot, None)]. *)
Theorem request_next_slot_first_unset
    (self : FormAction) (t : DialogueStateTracker) (slots : list string) :
  required_slots self t = Ok slots ->
  exists next : option (list Event),
    request_next_slot self t = Ok next
    /\ (next = None
        \/ exists slot, next = Some [SlotSet REQUESTED_SLOT (PStr slot)])
    /\ (forall slot : string,
           next = Some [SlotSet REQUESTED_SLOT (PStr slot)]
           <-> first_unset t slots slot)
    /\ (next = None <-> Forall (slot_is_set t) slots)
    /\ (next = None ->
        forall (self0 : FormAction) (t0 : DialogueStateTracker) (d : Domain)
               (activation events : list Event),
          self = with_domain self0 d ->
          t = temp_tracker t0 events ->
          _activate_if_required remote self t0 d = Ok activation ->
          _validate_if_required remote self t0 d = Ok events ->
          existsb is_form_none events = false ->
          run remote self0 t0 d
          = Ok (events ++ [Form None; SlotSet REQUESTED_SLOT PNone])).
Proof.
  intros Hreq. exists (request_next_loop t slots).
  assert (Hnext : request_next_slot self t = Ok (request_next_loop t slots)).
  { unfold request_next_slot. rewrite Hreq. reflexivity. }
  split; [exact Hnext|].
  split; [apply request_next_loop_shape|].
  split; [intros slot; apply request_next_loop_Some|].
  split; [apply request_next_loop_None|].
  intros Hnone self0 t0 d activation events -> -> Ha Hv Hform.
  rewrite (run_unfold self0 t0 d activation events Ha Hv).
  rewrite Hform, Hnext, Hnone. reflexivity.
Qed.

(** C10: in a turn in which [run] activates the form, the activation events
    (the [Form(form_name)] event and the events of validating pre-filled
    slots) are part of the returned list only when a next slot is
    requested.  When no required slot is left unset after validation, the
    returned list is the validation events followed by the deactivation
    events, and holds no [Form(form_name)] event unless validation itself
    returned one; when validation deactivated the form, the returned list is
    the validation events alone. *)
Theorem run_returns_activation_only_with_next_slot
    (self : FormAction) (t : DialogueStateTracker) (d : Domain)
    (activation events : list Event) :
  form_is_active (with_domain self d) t = false ->
  _activate_if_required remote (with_domain self d) t d = Ok activation ->
  _validate_if_required remote (with_domain self d) t d = Ok events ->
  (exists prefilled : list Event, activation = Form (Some (name self)) :: prefilled)
  /\ (existsb is_form_none events = false ->
      request_next_slot (with_domain self d) (temp_tracker t events) = Ok None ->
      run remote self t d = Ok (events ++ [Form None; SlotSet REQUESTED_SLOT PNone])
      /\ (~ In (Form (Some (name self))) events ->
          forall returned : list Event,
            run remote self t d = Ok returned ->
            ~ In (Form (Some (name self))) returned))
  /\ (existsb is_form_none events = false ->
      forall next_slot_events : list Event,
        request_next_slot (with_domain self d) (temp_tracker t events)
        = Ok (Some next_slot_events) ->
        run remote self t d = Ok (activation ++ events ++ next_slot_events))
  /\ (existsb is_form_none events = true -> run remote self t d = Ok events).
Proof.
  intros Hinactive Ha Hv.
  pose proof (run_unfold self t d activation events Ha Hv) as Hrun.
  split; [|split; [|split]].
  - exact (_activate_if_required_inactive _ t d activation Hinactive Ha).
  - intros Hform Hnext. rewrite Hform, Hnext in Hrun. simpl in Hrun.
    split; [exact Hrun|].
    intros Hnot returned Hret. rewrite Hrun in Hret. injection Hret as <-.
    intros Hin. apply in_app_or in Hin. destruct Hin as [Hin|Hin].
    + exact (Hnot Hin).
    + simpl in Hin. destruct Hin as [H|[H|H]]; try discriminate H. exact H.
  - intros Hform next_slot_events Hnext. rewrite Hform, Hnext in Hrun. exact Hrun.
  - intros Hform. rewrite Hform in Hrun. exact Hrun.
Qed.

End NextSlot.

Section NextSlotExamples.
Import Forms Scenarios.

(** Scenario B: [time] is set and [people] is not, so [people] is
    requested; and with [time] set and the number of people given in the
    message, no slot is left and the returned events end with the
    deactivation events. *)
Lemma request_next_slot_first_unset_witness :
  request_next_slot book_restaurant tracker_time_set
  = Ok (Some [SlotSet REQUESTED_SLOT (PStr "people")])
  /\ run no_server book_restaurant tracker_finishes_at_once restaurant_domain
     = Ok ([SlotSet "people" (PStr "4")] ++ [Form None; SlotSet REQUESTED_SLOT PNone]).
Proof.
  split.
  - destruct (request_next_slot_first_unset
                no_server book_restaurant tracker_time_set ["time"; "people"] eq_refl)
      as [next [Hnext [_ [Hsome _]]]].
    rewrite Hnext. f_equal. apply Hsome.
    exists ["time"], []. split; [reflexivity|]. split; [|reflexivity].
    constructor; [|constructor]. vm_compute. discriminate.
  - destruct (request_next_slot_first_unset
                no_server book_restaurant
                (temp_tracker tracker_finishes_at_once [SlotSet "people" (PStr "4")])
                ["time"; "people"] eq_refl)
      as [next [_ [_ [_ [Hnone Hrun]]]]].
    assert (Hset : next = None).
    { apply Hnone. repeat constructor; vm_compute; discriminate. }
    apply (Hrun Hset book_restaurant tracker_finishes_at_once restaurant_domain
                [Form (Some "book_restaurant"); SlotSet "time" (PStr "8pm")]
                [SlotSet "people" (PStr "4")]);
      reflexivity.
Defined.

(** The form is called with [time] set and a message that gives the number
    of people: it finishes at once, and the returned events are the
    validation event and the deactivation events, without the activation
    event. *)
Lemma run_returns_activation_only_with_next_slot_witness :
  run no_server book_restaurant tracker_finishes_at_once restaurant_domain
  = Ok [SlotSet "people" (PStr "4"); Form None; SlotSet "requested_slot" PNone].
Proof.
  apply (proj1 (proj1 (proj2 (run_returns_activation_only_with_next_slot
           no_server book_restaurant tracker_finishes_at_once restaurant_domain
           [Form (Some "book_restaurant"); SlotSet "time" (PStr "8pm")]
           [SlotSet "people" (PStr "4")]
           eq_refl eq_refl eq_refl)) eq_refl eq_refl)).
Defined.

End NextSlotExamples.

(** ** Logging an action whose execution fails *)

Section LoggingAnAction.
Import Interactive.

Variable NEW_TEMPLATES : dict (dict string).
Variable _write_data_to_file : string -> EndpointConfig -> M unit.

(** C7: when the request that executes an action fails with a client
    error, [send_action] raises that error again for a known action; for a
    new action, once the warning has been acknowledged, it posts a bare
    [ActionExecuted] event for that action name to the conversation's
    events, and when the server accepts it [send_action] returns the
    server's answer instead of raising. *)
Theorem send_action_on_client_error
    (endpoint : EndpointConfig) (conversation_id action_name : string)
    (policy : option string) (confidence : option Q) (s : Session)
    (message : string) :
  let execute :=
    mkRequest "post" ("/conversations/" ++ conversation_id ++ "/execute")
              (ActionExecuted action_name policy confidence) in
  let append :=
    mkRequest "post" ("/conversations/" ++ conversation_id ++ "/tracker/events")
              (ActionExecuted action_name None None) in
  let s1 := mkSession (keyboard s) (sent s ++ [execute]) in
  endpoint (sent s) execute = Raise (ClientError message) ->
  send_action NEW_TEMPLATES _write_data_to_file endpoint conversation_id
              action_name policy confidence false s
  = (Raise (ClientError message), s1)
  /\ (forall (warning : string) (answer : option Answer) (s2 : Session),
         new_action_warning NEW_TEMPLATES action_name = Ok warning ->
         _ask_questions _write_data_to_file warning conversation_id endpoint
                        (fun _ => false) s1 = (Ok answer, s2) ->
         send_action NEW_TEMPLATES _write_data_to_file endpoint conversation_id
                     action_name policy confidence true s
         = send_event endpoint conversation_id (ActionExecuted action_name None None) s2
         /\ (forall response : PyVal,
                endpoint (sent s2) append = Ok response ->
                send_action NEW_TEMPLATES _write_data_to_file endpoint conversation_id
                            action_name policy confidence true s
                = (Ok response, mkSession (keyboard s2) (sent s2 ++ [append])))).
Proof.
  intros execute append s1 Hfail.
  assert (Hreq : request endpoint execute s = (Raise (ClientError message), s1)).
  { unfold request. rewrite Hfail. reflexivity. }
  split.
  - unfold send_action. fold execute. rewrite Hreq. reflexivity.
  - intros warning answer s2 Hwarn Hask.
    assert (Hnew : send_action NEW_TEMPLATES _write_data_to_file endpoint
                     conversation_id action_name policy confidence true s
                   = send_event endpoint conversation_id
                                (ActionExecuted action_name None None) s2).
    { unfold send_action. fold execute. rewrite Hreq, Hwarn, Hask. reflexivity. }
    split; [exact Hnew|].
    intros response Hok. rewrite Hnew. unfold send_event, request.
    fold append. rewrite Hok. reflexivity.
Qed.

End LoggingAnAction.

Section LoggingAnActionExample.
Import Interactive InteractiveScenarios.

(** Scenario E: the call for a known action times out and the error is
    raised; the same timeout for a new action is followed by the bare
    [ActionExecuted] event and a normal return. *)
Lemma send_action_on_client_error_witness :
  send_action [] export_nothing times_out_once "c1" "action_book" (Some "policy_1")
              None false confirming_session
  = (Raise (ClientError "timeout"),
     mkSession [Some (AnswerBool true)]
               [mkRequest "post" "/conversations/c1/execute"
                          (ActionExecuted "action_book" (Some "policy_1") None)])
  /\ send_action [] export_nothing times_out_once "c1" "action_book" (Some "policy_1")
                 None true confirming_session
     = (Ok (PDict []),
        mkSession []
                  [mkRequest "post" "/conversations/c1/execute"
                             (ActionExecuted "action_book" (Some "policy_1") None);
                   mkRequest "post" "/conversations/c1/tracker/events"
                             (ActionExecuted "action_book" None None)]).
Proof.
  pose proof (send_action_on_client_error
                [] export_nothing times_out_once "c1" "action_book"
                (Some "policy_1") None confirming_session "timeout" eq_refl)
    as [Hknown Hnew].
  split; [exact Hknown|].
  destruct (Hnew _ (Some (AnswerBool true))
                 (mkSession []
                    [mkRequest "post" "/conversations/c1/execute"
                               (ActionExecuted "action_book" (Some "policy_1") None)])
                 eq_refl eq_refl) as [_ Hok].
  exact (Hok (PDict []) eq_refl).
Defined.

End LoggingAnActionExample.

(** ** The stub executor *)

Section StubExecutor.
Import Stub.

Variable EndpointConfig : Type.
Variable stub_lookup : EndpointConfig -> string -> option StubCustomAction.

(** C8: with a stub registered for the action, the executor is built and
    every run returns the prerecorded response of that stub and makes no
    call over the network; with no stub registered, building the executor
    raises a [RasaException] whose message names the action. *)
Theorem stub_executor_runs_without_network
    (action_name : string) (endpoint : EndpointConfig) :
  (forall stub : StubCustomAction,
      stub_lookup endpoint action_name = Some stub ->
      exists executor : E2EStubCustomActionExecutor EndpointConfig,
        init EndpointConfig stub_lookup action_name endpoint = Ok executor
        /\ forall (t : DialogueStateTracker) (d : option Domain),
             snd (run EndpointConfig executor t d) = as_dict stub
             /\ existsb is_network_call (fst (run EndpointConfig executor t d)) = false)
  /\ (stub_lookup endpoint action_name = None ->
      init EndpointConfig stub_lookup action_name endpoint
      = Raise (RasaException ("Action `" ++ action_name ++ "` has not been stubbed."))).
Proof.
  unfold init, get_stub_custom_action. split.
  - intros stub ->. eexists. split; [reflexivity|].
    intros t d. split; reflexivity.
  - intros ->. reflexivity.
Qed.

End StubExecutor.

Section StubExecutorExample.
Import Stub StubScenarios.

(** The registered action runs from its stub; an action that is not
    registered is refused by name. *)
Lemma stub_executor_runs_without_network_witness :
  (exists executor : E2EStubCustomActionExecutor (dict StubCustomAction),
      init _ table_lookup "action_check_balance" stub_table = Ok executor
      /\ forall (t : DialogueStateTracker) (d : option Domain),
           snd (run _ executor t d) = as_dict check_balance_stub
           /\ existsb is_network_call (fst (run _ executor t d)) = false)
  /\ init _ table_lookup "new_action" stub_table
     = Raise (RasaException "Action `new_action` has not been stubbed.").
Proof.
  split.
  - apply (proj1 (stub_executor_runs_without_network
                    _ table_lookup "action_check_balance" stub_table)
                 check_balance_stub).
    reflexivity.
  - apply (proj2 (stub_executor_runs_without_network
                    _ table_lookup "new_action" stub_table)).
    reflexivity.
Defined.

End StubExecutorExample.

(** ** The key of the extracted requested slot *)

Section RequestedSlotKey.
Import Forms.

Lemma requested_loop_shape (t : DialogueStateTracker) (slot_to_fill : PyVal)
    (ms : list (dict PyVal)) (r : dict PyVal) :
  requested_loop t slot_to_fill ms = Ok r ->
  r = [] \/ exists value, py_is_none value = false /\ r = singleton_slot slot_to_fill value.
Proof.
  induction ms as [|m rest IH]; simpl; intros H.
  - left. now injection H as <-.
  - apply bind_inv_Ok in H. destruct H as [desired [_ H]].
    destruct desired; [|exact (IH H)].
    apply bind_inv_Ok in H. destruct H as [ty [_ H]].
    repeat match type of H with
           | (if py_is_none ?v then _ else _) = _ =>
               let E := fresh "E" in
               destruct (py_is_none v) eqn:E;
               [exact (IH H) | right; exists v; split; [exact E | now injection H as <-]]
           | (if ?c then _ else _) = _ => destruct c
           end.
    + exact (IH H).
    + discriminate H.
Qed.

Lemma no_entity_named_None (t : DialogueStateTracker) (role group : PyVal) :
  get_entity_value PNone t role group = PNone.
Proof.
  unfold get_entity_value, get_latest_entity_values.
  replace (filter (entity_matches PNone role group) (entities (latest_message t)))
    with (@nil Entity); [reflexivity|].
  induction (entities (latest_message t)) as [|e es IH]; [reflexivity|].
  simpl. exact IH.
Qed.

(** Whatever [extract_requested_slot] returns is empty or holds one value
    under the requested slot's name, which is a text. *)
Lemma extract_requested_slot_key (self : FormAction) (t : DialogueStateTracker)
    (r : dict PyVal) :
  extract_requested_slot self t = Ok r ->
  r = [] \/ exists (slot : string) (value : PyVal),
              get_slot t REQUESTED_SLOT = PStr slot /\ r = [(slot, value)].
Proof.
  unfold extract_requested_slot, get_mappings_for_slot. intros H.
  apply bind_inv_Ok in H. destruct H as [ms [Hms H]].
  apply bind_inv_Ok in Hms. destruct Hms as [mappings [_ Hms]].
  destruct (get_slot t REQUESTED_SLOT) as [|slot|l|d]; simpl in Hms.
  - injection Hms as <-. simpl in H. rewrite no_entity_named_None in H.
    simpl in H. left. now injection H as <-.
  - apply requested_loop_shape in H. destruct H as [->|[value [_ ->]]].
    + left. reflexivity.
    + right. exists slot, value. split; reflexivity.
  - discriminate Hms.
  - discriminate Hms.
Qed.

End RequestedSlotKey.

(* ================================================================== *)
(** * Further properties of the form action *)

(** ** The mapping constructors *)

Section MappingConstructors.
Import Forms Scenarios.

Lemma _list_intents_Ok (intent not_intent : PyVal) (p : list PyVal * list PyVal) :
  _list_intents intent not_intent = Ok p ->
  (py_truthy intent = false \/ py_truthy not_intent = false)
  /\ p = (_to_list intent, _to_list not_intent).
Proof.
  unfold _list_intents.
  destruct (py_truthy intent) eqn:Ei; destruct (py_truthy not_intent) eqn:En;
    simpl; intros H; try discriminate H; injection H as <-; auto.
Qed.

Lemma _to_list_falsy (x : PyVal) :
  none_or_list x -> py_truthy x = false -> _to_list x = [].
Proof.
  intros [-> | [l ->]] H; [reflexivity|].
  destruct l; [reflexivity | discriminate H].
Qed.

Lemma py_in_list (x : option string) (l : list PyVal) :
  py_in x (PList l) = Ok (existsb (py_eq_ostr x) l).
Proof. reflexivity. Qed.

Lemma intent_is_desired_total_on_lists (m : dict PyVal) (t : DialogueStateTracker)
    (li lni : list PyVal) :
  intent_filter m = PList li ->
  not_intent_filter m = PList lni ->
  exists b : bool, intent_is_desired m t = Ok b.
Proof.
  intros Hi Hni. rewrite (intent_is_desired_lists m t li lni Hi Hni).
  eexists. reflexivity.
Qed.

(** A mapping constructor succeeds only when [intent] and [not_intent] are
    not both given; the mapping it returns carries both filters as lists,
    passes the check of [get_mappings_for_slot], and its intent check
    returns a truth value for every tracker (it cannot raise).  When the
    arguments are [None] or lists, at most one filter is non-empty. *)
Theorem constructors_build_checked_mappings
    (m : dict PyVal) (intent not_intent : PyVal) :
  built_by_constructor m intent not_intent ->
  (py_truthy intent = false \/ py_truthy not_intent = false)
  /\ intent_filter m = PList (_to_list intent)
  /\ not_intent_filter m = PList (_to_list not_intent)
  /\ check_mappings [PDict m] = Ok [m]
  /\ (forall t : DialogueStateTracker, exists b : bool, intent_is_desired m t = Ok b)
  /\ (none_or_list intent -> none_or_list not_intent ->
      _to_list intent = [] \/ _to_list not_intent = []).
Proof.
  intros Hbuilt.
  assert (H : exists p, _list_intents intent not_intent = Ok p
                        /\ intent_filter m = PList (fst p)
                        /\ not_intent_filter m = PList (snd p)
                        /\ check_mappings [PDict m] = Ok [m]).
  { destruct Hbuilt as [[entity [role [group H]]] | [[value H] | [[value H] | H]]];
      unfold from_entity, from_trigger_intent, from_intent, from_text in H;
      apply bind_inv_Ok in H; destruct H as [p [Hp H]]; injection H as <-;
      exists p; repeat split; try exact Hp; reflexivity. }
  destruct H as [p [Hp [Hi [Hni Hcheck]]]].
  apply _list_intents_Ok in Hp. destruct Hp as [Hexcl ->]. simpl in Hi, Hni.
  split; [exact Hexcl|]. split; [exact Hi|]. split; [exact Hni|].
  split; [exact Hcheck|]. split.
  - intros t. exact (intent_is_desired_total_on_lists m t _ _ Hi Hni).
  - intros Hl Hnl. destruct Hexcl as [Hf|Hf].
    + left. now apply _to_list_falsy.
    + right. now apply _to_list_falsy.
Qed.

(** [from_entity("city", intent="inform")]. *)
Lemma constructors_build_checked_mappings_witness :
  exists m : dict PyVal,
    from_entity (PStr "city") (PStr "inform") PNone PNone PNone = Ok m
    /\ intent_filter m = PList [PStr "inform"]
    /\ not_intent_filter m = PList []
    /\ check_mappings [PDict m] = Ok [m].
Proof.
  eexists. split; [reflexivity|].
  destruct (constructors_build_checked_mappings
              _ (PStr "inform") PNone
              (or_introl (ex_intro _ (PStr "city")
                 (ex_intro _ PNone (ex_intro _ PNone eq_refl)))))
    as [_ [Hi [Hni [Hcheck _]]]].
  split; [exact Hi|]. split; [exact Hni | exact Hcheck].
Defined.

End MappingConstructors.

(** ** What extraction can raise, and what it returns *)

Section Extraction.
Import Forms Scenarios.

Lemma bind_inv_Raise {A B : Type} (c : result A) (k : A -> result B) (e : Exn) :
  bind c k = Raise e -> c = Raise e \/ exists a, c = Ok a /\ k a = Raise e.
Proof.
  destruct c as [a|e']; simpl; intros H.
  - right. exists a. split; [reflexivity | exact H].
  - left. injection H as ->. reflexivity.
Qed.

Lemma py_in_raises (x : option string) (c : PyVal) (e : Exn) :
  py_in x c = Raise e -> is_TypeError e.
Proof.
  unfold is_TypeError. destruct c as [|s|l|d]; destruct x as [i|]; simpl; intros H;
    try discriminate H; injection H as <-; eexists; reflexivity.
Qed.

Lemma intent_is_desired_raises (m : dict PyVal) (t : DialogueStateTracker) (e : Exn) :
  intent_is_desired m t = Raise e -> is_TypeError e.
Proof.
  unfold intent_is_desired. intros H.
  apply bind_inv_Raise in H. destruct H as [H | [b [_ H]]].
  - destruct (negb _); [|discriminate H].
    apply bind_inv_Raise in H. destruct H as [H | [b [_ H]]]; [|discriminate H].
    exact (py_in_raises _ _ _ H).
  - destruct b; [discriminate H|]. exact (py_in_raises _ _ _ H).
Qed.

Lemma slot_mappings_Ok (self : FormAction) :
  exists mappings : dict PyVal, slot_mappings self = Ok mappings.
Proof.
  unfold slot_mappings, _config. destruct (_domain self); eexists; reflexivity.
Qed.

Lemma check_mappings_raises (ms : list PyVal) (e : Exn) :
  check_mappings ms = Raise e -> is_TypeError e.
Proof.
  unfold is_TypeError. induction ms as [|v rest IH]; simpl; intros H.
  - discriminate H.
  - destruct v as [|s|l|m]; try (injection H as <-; eexists; reflexivity).
    destruct (py_is_none _).
    + injection H as <-. eexists. reflexivity.
    + apply bind_inv_Raise in H. destruct H as [H | [rest' [_ H]]];
        [exact (IH H) | discriminate H].
Qed.

Lemma check_mappings_typed (ms : list PyVal) (checked : list (dict PyVal)) :
  check_mappings ms = Ok checked -> Forall has_type checked.
Proof.
  revert checked. induction ms as [|v rest IH]; simpl; intros checked H.
  - injection H as <-. constructor.
  - destruct v as [|s|l|m]; try discriminate H.
    destruct (py_is_none (dict_get_default "type" PNone m)) eqn:E; [discriminate H|].
    apply bind_inv_Ok in H. destruct H as [rest' [Hrest H]]. injection H as <-.
    constructor; [|exact (IH _ Hrest)].
    unfold has_type. unfold dict_get_default in E.
    destruct (dict_get "type" m) as [ty|]; [|discriminate E].
    exists ty. split; [reflexivity | exact E].
Qed.

Lemma get_mappings_for_slot_raises (self : FormAction) (slot_to_fill : PyVal) (e : Exn) :
  get_mappings_for_slot self slot_to_fill = Raise e -> is_TypeError e.
Proof.
  unfold get_mappings_for_slot. destruct (slot_mappings_Ok self) as [mappings ->].
  rewrite bind_Ok. intros H.
  apply bind_inv_Raise in H. destruct H as [H | [default [_ H]]]; [discriminate H|].
  apply bind_inv_Raise in H. destruct H as [H | [requested [_ H]]].
  - unfold is_TypeError. destruct slot_to_fill; simpl in H; try discriminate H;
      injection H as <-; eexists; reflexivity.
  - exact (check_mappings_raises _ _ H).
Qed.

Lemma get_mappings_for_slot_typed (self : FormAction) (slot_to_fill : PyVal)
    (ms : list (dict PyVal)) :
  get_mappings_for_slot self slot_to_fill = Ok ms -> Forall has_type ms.
Proof.
  unfold get_mappings_for_slot. intros H.
  apply bind_inv_Ok in H. destruct H as [mappings [_ H]].
  apply bind_inv_Ok in H. destruct H as [default [_ H]].
  apply bind_inv_Ok in H. destruct H as [requested [_ H]].
  exact (check_mappings_typed _ _ H).
Qed.

Lemma dict_item_has_type (m : dict PyVal) :
  has_type m -> exists ty, dict_item "type" m = Ok ty /\ py_is_none ty = false.
Proof.
  intros [ty [Hget Hty]]. exists ty. unfold dict_item. rewrite Hget. auto.
Qed.

Lemma requested_loop_raises (t : DialogueStateTracker) (slot_to_fill : PyVal)
    (ms : list (dict PyVal)) (e : Exn) :
  Forall has_type ms ->
  requested_loop t slot_to_fill ms = Raise e ->
  is_TypeError e \/ is_ValueError e.
Proof.
  induction ms as [|m rest IH]; simpl; intros Hty H; [discriminate H|].
  inversion Hty as [|m' rest' Hm Hrest]; subst.
  apply bind_inv_Raise in H. destruct H as [H | [desired [_ H]]].
  - left. exact (intent_is_desired_raises _ _ _ H).
  - destruct desired; cbv beta iota in H; [|exact (IH Hrest H)].
    destruct (dict_item_has_type m Hm) as [ty [Hitem _]].
    rewrite Hitem, bind_Ok in H.
    repeat match type of H with
           | (if py_is_none ?v then _ else _) = _ =>
               destruct (py_is_none v); [exact (IH Hrest H) | discriminate H]
           | (if ?c then _ else _) = _ => destruct c
           end.
    + exact (IH Hrest H).
    + right. injection H as <-. eexists. reflexivity.
Qed.

(** [extract_requested_slot] raises nothing but a [TypeError] (a slot
    mapping that is not a dict with a type, an unhashable requested slot, a
    filter that cannot be searched) or a [ValueError] (a mapping type it
    does not support); in particular reading a mapping's ["type"] never
    fails. *)
Theorem extract_requested_slot_raises_only
    (self : FormAction) (t : DialogueStateTracker) (e : Exn) :
  extract_requested_slot self t = Raise e ->
  is_TypeError e \/ is_ValueError e.
Proof.
  unfold extract_requested_slot. intros H.
  apply bind_inv_Raise in H. destruct H as [H | [ms [Hms H]]].
  - left. exact (get_mappings_for_slot_raises _ _ _ H).
  - apply get_mappings_for_slot_typed in Hms.
    exact (requested_loop_raises _ _ _ _ Hms H).
Qed.

(** The first mapping that yields a value wins: on a list of mappings split
    in two, the loop returns what the first part returns unless that is
    empty, and only then goes through the second part. *)
Theorem requested_loop_app
    (t : DialogueStateTracker) (slot_to_fill : PyVal) (ms1 ms2 : list (dict PyVal)) :
  requested_loop t slot_to_fill (ms1 ++ ms2)
  = match requested_loop t slot_to_fill ms1 with
    | Ok [] => requested_loop t slot_to_fill ms2
    | outcome => outcome
    end.
Proof.
  induction ms1 as [|m rest IH]; simpl; [reflexivity|].
  destruct (intent_is_desired m t) as [desired|e]; simpl; [|reflexivity].
  destruct desired; [|exact IH].
  destruct (dict_item "type" m) as [ty|e]; simpl; [|reflexivity].
  repeat match goal with
         | |- context [if py_is_none ?v then _ else _] =>
             destruct (py_is_none v); [exact IH | reflexivity]
         | |- context [if py_eq_str ?s ty then _ else _] =>
             destruct (py_eq_str s ty)
         end.
  - exact IH.
  - reflexivity.
Qed.

(** What [extract_requested_slot] returns is empty or one entry: the
    requested slot, which is then a text, with a value that is not [None]. *)
Theorem extract_requested_slot_single
    (self : FormAction) (t : DialogueStateTracker) (r : dict PyVal) :
  extract_requested_slot self t = Ok r ->
  r = []
  \/ exists (slot : string) (value : PyVal),
       get_slot t REQUESTED_SLOT = PStr slot
       /\ py_is_none value = false
       /\ r = [(slot, value)].
Proof.
  intros H. destruct (extract_requested_slot_key self t r H)
    as [->|[slot [value [Hslot ->]]]]; [left; reflexivity|].
  right. exists slot, value. split; [exact Hslot|]. split; [|reflexivity].
  unfold extract_requested_slot in H. rewrite Hslot in H.
  apply bind_inv_Ok in H. destruct H as [ms [_ H]].
  apply requested_loop_shape in H. destruct H as [H|[v [Hv H]]]; [discriminate H|].
  unfold singleton_slot in H. simpl in H. injection H as <-. exact Hv.
Qed.

(** A [from_trigger_intent] mapping never fills the requested slot: a slot
    that only has such mappings gets nothing extracted. *)
Theorem trigger_intent_never_fills_requested_slot
    (t : DialogueStateTracker) (slot_to_fill : PyVal) (ms : list (dict PyVal)) :
  Forall (fun m => dict_get "type" m = Some (PStr "from_trigger_intent")
                   /\ exists b : bool, intent_is_desired m t = Ok b) ms ->
  requested_loop t slot_to_fill ms = Ok [].
Proof.
  induction ms as [|m rest IH]; simpl; intros H; [reflexivity|].
  inversion H as [|m' rest' [Hty [b Hb]] Hrest]; subst.
  rewrite Hb. simpl. destruct b; [|exact (IH Hrest)].
  unfold dict_item. rewrite Hty. simpl. exact (IH Hrest).
Qed.

(** A mapping type that is none of the four known ones passes the check of
    the slot mappings; it is refused with a [ValueError] only when the loop
    reaches the mapping and its intent check passes, and skipped when the
    intent check fails. *)
Theorem unsupported_mapping_type_raises_late
    (t : DialogueStateTracker) (slot_to_fill : PyVal) (m : dict PyVal) (ty : PyVal)
    (rest : list (dict PyVal)) :
  dict_get "type" m = Some ty ->
  py_is_none ty = false ->
  is_known_type ty = false ->
  check_mappings [PDict m] = Ok [m]
  /\ (intent_is_desired m t = Ok true ->
      requested_loop t slot_to_fill (m :: rest)
      = Raise (ValueError "Provided slot mapping type is not supported"))
  /\ (intent_is_desired m t = Ok false ->
      requested_loop t slot_to_fill (m :: rest) = requested_loop t slot_to_fill rest).
Proof.
  intros Hget Hnone Hknown. unfold is_known_type in Hknown.
  apply orb_false_iff in Hknown. destruct Hknown as [Hknown Htext].
  apply orb_false_iff in Hknown. destruct Hknown as [Hknown Htrigger].
  apply orb_false_iff in Hknown. destruct Hknown as [Hentity Hintent].
  split; [|split].
  - simpl. unfold dict_get_default. rewrite Hget, Hnone. reflexivity.
  - intros Hd. simpl. rewrite Hd. simpl. unfold dict_item. rewrite Hget. simpl.
    rewrite Hentity, Hintent, Htrigger, Htext. reflexivity.
  - intros Hd. simpl. rewrite Hd. reflexivity.
Qed.

End Extraction.

(** ** The other slots *)

Section OtherSlots.
Import Forms Scenarios.

Lemma entity_is_desired_has_entity (m : dict PyVal) (slot : string)
    (t : DialogueStateTracker) :
  entity_is_desired m slot t = true -> exists entity, dict_get "entity" m = Some entity.
Proof.
  unfold entity_is_desired, dict_get_default.
  destruct (dict_get "entity" m) as [entity|]; [intros _; eexists; reflexivity|].
  rewrite no_entity_named_None. simpl. discriminate.
Qed.

Lemma other_slot_value_raises (self : FormAction) (t : DialogueStateTracker)
    (slot : string) (m : dict PyVal) (e : Exn) :
  has_type m ->
  other_slot_value self t slot m = Raise e -> is_TypeError e.
Proof.
  intros Hm. unfold other_slot_value.
  destruct (dict_item_has_type m Hm) as [ty [-> _]]. rewrite bind_Ok. intros H.
  apply bind_inv_Raise in H. destruct H as [H | [fill_entity [Hfill H]]].
  - destruct (py_eq_str "from_entity" ty); [|discriminate H].
    apply bind_inv_Raise in H. destruct H as [H | [desired [_ H]]].
    + exact (intent_is_desired_raises _ _ _ H).
    + destruct desired; discriminate H.
  - apply bind_inv_Raise in H. destruct H as [H | [fill_trigger [_ H]]].
    + destruct (negb _); [|discriminate H].
      destruct (py_eq_str "from_trigger_intent" ty); [|discriminate H].
      exact (intent_is_desired_raises _ _ _ H).
    + destruct fill_entity.
      * exfalso.
        destruct (py_eq_str "from_entity" ty); [|discriminate Hfill].
        apply bind_inv_Ok in Hfill. destruct Hfill as [desired [_ Hfill]].
        destruct desired; [|discriminate Hfill].
        injection Hfill as Hfill.
        apply entity_is_desired_has_entity in Hfill. destruct Hfill as [entity He].
        unfold dict_item in H. rewrite He in H. discriminate H.
      * destruct fill_trigger; discriminate H.
Qed.

Lemma first_other_value_raises (self : FormAction) (t : DialogueStateTracker)
    (slot : string) (ms : list (dict PyVal)) (e : Exn) :
  Forall has_type ms ->
  first_other_value self t slot ms = Raise e -> is_TypeError e.
Proof.
  induction ms as [|m rest IH]; simpl; intros Hty H; [discriminate H|].
  inversion Hty as [|m' rest' Hm Hrest]; subst.
  apply bind_inv_Raise in H. destruct H as [H | [value [_ H]]].
  - exact (other_slot_value_raises _ _ _ _ _ Hm H).
  - destruct (py_is_none value); [exact (IH Hrest H) | discriminate H].
Qed.

Lemma extract_other_loop_raises (self : FormAction) (t : DialogueStateTracker)
    (slot_to_fill : PyVal) (slots : list string) (acc : dict PyVal) (e : Exn) :
  extract_other_loop self t slot_to_fill slots acc = Raise e -> is_TypeError e.
Proof.
  revert acc. induction slots as [|slot rest IH]; simpl; intros acc H;
    [discriminate H|].
  destruct (negb (py_eq_str slot slot_to_fill)); [|exact (IH _ H)].
  apply bind_inv_Raise in H. destruct H as [H | [ms [Hms H]]].
  - exact (get_mappings_for_slot_raises _ _ _ H).
  - apply bind_inv_Raise in H. destruct H as [H | [value [_ H]]].
    + apply get_mappings_for_slot_typed in Hms.
      exact (first_other_value_raises _ _ _ _ _ Hms H).
    + exact (IH _ H).
Qed.

(** [extract_other_slots] raises nothing but an [AttributeError] (no domain
    is attached to the form) or a [TypeError]; reading a mapping's
    ["type"] or ["entity"] never fails, because the entity of a mapping is
    only read once an entity value was found under it or the slot carries
    its name. *)
Theorem extract_other_slots_raises_only
    (self : FormAction) (t : DialogueStateTracker) (e : Exn) :
  extract_other_slots self t = Raise e ->
  is_AttributeError e \/ is_TypeError e.
Proof.
  unfold extract_other_slots, required_slots, _config. intros H.
  destruct (_domain self) as [domain|]; simpl in H.
  - right. exact (extract_other_loop_raises _ _ _ _ _ _ H).
  - left. injection H as <-. eexists. reflexivity.
Qed.

Lemma dict_set_In {V : Type} (k : string) (v : V) (d : dict V) (k' : string) (v' : V) :
  In (k', v') (dict_set k v d) -> (k', v') = (k, v) \/ In (k', v') d.
Proof.
  induction d as [|[k0 v0] d IH]; simpl.
  - intros [H|[]]. left. now symmetry.
  - destruct (String.eqb k k0); simpl.
    + intros [H|H]; [left; now symmetry | right; right; exact H].
    + intros [H|H]; [right; left; exact H|].
      destruct (IH H) as [Heq|Hin]; [left; exact Heq | right; right; exact Hin].
Qed.

Lemma dict_set_keys_NoDup {V : Type} (k : string) (v : V) (d : dict V) :
  NoDup (dict_keys d) -> NoDup (dict_keys (dict_set k v d)).
Proof.
  unfold dict_keys. induction d as [|[k0 v0] d IH]; simpl; intros H.
  - constructor; [intros [] | constructor].
  - inversion H as [|x l Hnotin Hnodup]; subst.
    destruct (String.eqb k k0) eqn:E; simpl.
    + apply String.eqb_eq in E. subst. constructor; assumption.
    + constructor; [|exact (IH Hnodup)].
      intros Hin. apply in_map_iff in Hin. destruct Hin as [[k1 v1] [Hk Hin]].
      simpl in Hk. subst k1. apply dict_set_In in Hin. destruct Hin as [Heq|Hin].
      * injection Heq as -> _. rewrite String.eqb_refl in E. discriminate E.
      * apply Hnotin. apply in_map_iff. exists (k0, v1). auto.
Qed.

Lemma extract_other_loop_entries (self : FormAction) (t : DialogueStateTracker)
    (slot_to_fill : PyVal) (slots : list string) (acc r : dict PyVal)
    (P : string -> PyVal -> Prop) :
  (forall k v, In k slots -> py_eq_str k slot_to_fill = false ->
               py_is_none v = false -> P k v) ->
  (forall k v, In (k, v) acc -> P k v) ->
  NoDup (dict_keys acc) ->
  extract_other_loop self t slot_to_fill slots acc = Ok r ->
  (forall k v, In (k, v) r -> P k v) /\ NoDup (dict_keys r).
Proof.
  revert acc. induction slots as [|slot rest IH]; simpl; intros acc HP Hacc Hnd H.
  - injection H as <-. split; assumption.
  - assert (HP' : forall k v, In k rest -> py_eq_str k slot_to_fill = false ->
                              py_is_none v = false -> P k v).
    { intros k v Hin. apply HP. right. exact Hin. }
    destruct (py_eq_str slot slot_to_fill) eqn:Eslot; simpl in H;
      [exact (IH acc HP' Hacc Hnd H)|].
    apply bind_inv_Ok in H. destruct H as [ms [_ H]].
    apply bind_inv_Ok in H. destruct H as [value [_ H]].
    destruct (py_is_none value) eqn:Ev; [exact (IH acc HP' Hacc Hnd H)|].
    apply (IH (dict_set slot value acc) HP'); [| |exact H].
    + intros k v Hin. apply dict_set_In in Hin. destruct Hin as [Heq|Hin].
      * injection Heq as -> ->. apply HP; auto.
      * exact (Hacc k v Hin).
    + now apply dict_set_keys_NoDup.
Qed.

(** Every entry of what [extract_other_slots] returns is a required slot
    other than the requested one with a value that is not [None], and no
    slot occurs twice. *)
Theorem extract_other_slots_entries
    (self : FormAction) (t : DialogueStateTracker) (r : dict PyVal) :
  extract_other_slots self t = Ok r ->
  exists slots : list string,
    required_slots self t = Ok slots
    /\ (forall (k : string) (v : PyVal),
           In (k, v) r ->
           In k slots
           /\ py_eq_str k (get_slot t REQUESTED_SLOT) = false
           /\ py_is_none v = false)
    /\ NoDup (dict_keys r).
Proof.
  unfold extract_other_slots. intros H.
  apply bind_inv_Ok in H. destruct H as [slots [Hslots H]].
  exists slots. split; [exact Hslots|].
  apply (extract_other_loop_entries self t (get_slot t REQUESTED_SLOT) slots [] r
           (fun k v => In k slots
                       /\ py_eq_str k (get_slot t REQUESTED_SLOT) = false
                       /\ py_is_none v = false)).
  - intros k v Hin Hk Hv. auto.
  - intros k v [].
  - constructor.
  - exact H.
Qed.

End OtherSlots.

(** ** A filter that is a text *)

Section TextFilter.
Import Forms Scenarios.

Lemma prefix_iff (s1 s2 : string) :
  String.prefix s1 s2 = true <-> exists post : string, s2 = (s1 ++ post)%string.
Proof.
  revert s2. induction s1 as [|a s1 IH]; intros s2; destruct s2 as [|b s2]; simpl.
  - split; [intros _; exists ""; reflexivity | reflexivity].
  - split; [intros _; exists (String b s2); reflexivity | reflexivity].
  - split; [discriminate | intros [post H]; discriminate H].
  - destruct (Ascii.ascii_dec a b) as [->|Hne].
    + rewrite IH. split; intros [post H]; exists post.
      * now rewrite H.
      * now injection H.
    + split; [discriminate|]. intros [post H]. injection H as H _.
      now contradiction Hne.
Qed.

Lemma is_substring_iff (sub s : string) :
  is_substring sub s = true
  <-> exists pre post : string, s = (pre ++ sub ++ post)%string.
Proof.
  unfold is_substring. induction s as [|b s IH].
  - simpl. destruct sub as [|a sub]; split.
    + intros _. exists "", "". reflexivity.
    + reflexivity.
    + discriminate.
    + intros [pre [post H]]. destruct pre; discriminate H.
  - cbn [String.index]. destruct (String.prefix sub (String b s)) eqn:E.
    + split; [|reflexivity]. intros _.
      apply prefix_iff in E. destruct E as [post E].
      exists "", post. exact E.
    + split.
      * intros H. destruct (String.index 0 sub s) eqn:Ei; [|discriminate H].
        destruct (proj1 IH eq_refl) as [pre [post Hs]].
        exists (String b pre), post. simpl. now rewrite Hs.
      * intros [pre [post H]]. destruct pre as [|c pre].
        -- simpl in H. exfalso.
           assert (Hp : String.prefix sub (String b s) = true)
             by (apply prefix_iff; exists post; exact H).
           congruence.
        -- simpl in H. injection H as _ H.
           assert (Hi : match String.index 0 sub s with
                        | Some _ => true | None => false end = true)
             by (apply IH; exists pre, post; exact H).
           destruct (String.index 0 sub s); [reflexivity | discriminate Hi].
Qed.

(** When the ["intent"] entry of a mapping is a non-empty text instead of a
    list, the intent check is a substring test: it passes exactly for the
    intents that occur inside that text; and with no intent in the latest
    message it raises a [TypeError]. *)
Theorem intent_filter_text_is_substring_test
    (m : dict PyVal) (t : DialogueStateTracker) (s : string) :
  dict_get "intent" m = Some (PStr s) ->
  s <> "" ->
  (forall i : string,
      intent_name (latest_message t) = Some i ->
      exists b : bool,
        intent_is_desired m t = Ok b
        /\ (b = true <-> exists pre post : string, s = (pre ++ i ++ post)%string))
  /\ (intent_name (latest_message t) = None ->
      exists msg : string, intent_is_desired m t = Raise (TypeError msg)).
Proof.
  intros Hget Hs. apply String.eqb_neq in Hs.
  unfold intent_is_desired, dict_get_default. rewrite Hget. simpl. rewrite Hs. simpl.
  split.
  - intros i ->. simpl. eexists. split; [reflexivity|]. apply is_substring_iff.
  - intros ->. simpl. eexists. reflexivity.
Qed.

End TextFilter.

(** ** Activation and the end of a run *)

Section ActivationAndRun.
Import Forms Scenarios.

Variable remote : string -> DialogueStateTracker -> Domain -> result (list Event).

Lemma dict_get_app_None {V : Type} (k : string) (d1 d2 : dict V) :
  dict_get k d1 = None -> dict_get k (d1 ++ d2) = dict_get k d2.
Proof.
  induction d1 as [|[k0 v0] d1 IH]; simpl; [reflexivity|].
  destruct (String.eqb k k0); [discriminate | exact IH].
Qed.

Lemma dict_set_fresh {V : Type} (k : string) (v : V) (d : dict V) :
  dict_get k d = None -> dict_set k v d = d ++ [(k, v)].
Proof.
  induction d as [|[k0 v0] d IH]; simpl; [reflexivity|].
  destruct (String.eqb k k0); [discriminate|].
  intros H. now rewrite (IH H).
Qed.

Lemma prefilled_loop_filter (t : DialogueStateTracker) (slots : list string)
    (acc : dict PyVal) :
  NoDup slots ->
  (forall s, In s slots -> dict_get s acc = None) ->
  prefilled_loop t slots acc
  = acc ++ map (fun s => (s, get_slot t s))
               (filter (fun s => negb (_should_request_slot t s)) slots).
Proof.
  revert acc. induction slots as [|slot rest IH]; simpl; intros acc Hnd Hfresh.
  - now rewrite app_nil_r.
  - inversion Hnd as [|x l Hnotin Hnd']; subst.
    destruct (negb (_should_request_slot t slot)) eqn:E.
    + rewrite (dict_set_fresh slot _ acc (Hfresh slot (or_introl eq_refl))).
      rewrite IH; [now rewrite <- app_assoc | exact Hnd' |].
      intros s Hin. rewrite dict_get_app_None; [|apply Hfresh; now right].
      simpl. destruct (String.eqb s slot) eqn:Es; [|reflexivity].
      apply String.eqb_eq in Es. subst. now contradiction Hnotin.
    + apply IH; [exact Hnd'|]. intros s Hin. apply Hfresh. now right.
Qed.

Lemma validate_slots_local (self : FormAction) (slot_dict : dict PyVal)
    (t : DialogueStateTracker) (d : Domain) :
  no_validation_action self d \/ active_form_validate t = false ->
  validate_slots remote self slot_dict t d
  = Ok (map (fun kv => SlotSet (fst kv) (snd kv)) slot_dict).
Proof.
  unfold validate_slots, no_validation_action.
  intros [-> | ->]; [reflexivity|]. now rewrite orb_true_r.
Qed.

(** In a turn in which no form at all is active, activation does not reach
    the action server: whatever the server would answer, the events are the
    activation event followed by one [SlotSet] for each required slot that
    is already set, in declared order, with the value it has. *)
Theorem activation_without_active_form
    (self : FormAction) (t : DialogueStateTracker) (d : Domain) (slots : list string) :
  active_form t = None ->
  required_slots self t = Ok slots ->
  NoDup slots ->
  _activate_if_required remote self t d
  = Ok (Form (Some (name self))
        :: map (fun s => SlotSet s (get_slot t s))
               (filter (fun s => negb (_should_request_slot t s)) slots)).
Proof.
  intros Hform Hslots Hnd. unfold _activate_if_required, form_is_active.
  rewrite Hform, Hslots. simpl.
  rewrite (prefilled_loop_filter t slots [] Hnd) by reflexivity. simpl.
  destruct (filter _ slots) as [|s rest] eqn:E; simpl; [reflexivity|].
  rewrite validate_slots_local.
  - simpl. rewrite map_map. reflexivity.
  - right. unfold active_form_validate. now rewrite Hform.
Qed.

Lemma validate_local_events (self : FormAction) (t : DialogueStateTracker)
    (d : Domain) (events : list Event) :
  no_validation_action self d ->
  validate remote self t d = Ok events ->
  exists slot_dict : dict PyVal,
    events = map (fun kv => SlotSet (fst kv) (snd kv)) slot_dict.
Proof.
  intros Hno. unfold validate. intros H.
  apply bind_inv_Ok in H. destruct H as [others [_ H]].
  destruct (py_truthy _).
  - apply bind_inv_Ok in H. destruct H as [requested [_ H]].
    destruct (dict_update others requested) as [|kv rest]; [discriminate H|].
    rewrite validate_slots_local in H by (left; exact Hno).
    injection H as <-. exists (kv :: rest). reflexivity.
  - rewrite validate_slots_local in H by (left; exact Hno).
    injection H as <-. exists others. reflexivity.
Qed.

Lemma slot_sets_hold_no_form (slot_dict : dict PyVal) :
  existsb is_form_none (map (fun kv => SlotSet (fst kv) (snd kv)) slot_dict) = false.
Proof. induction slot_dict as [|kv rest IH]; simpl; [reflexivity | exact IH]. Qed.

(** In a domain without a validation action for the form, a run that
    returns always ends by writing the requested slot: its last event is a
    [SlotSet] of [requested_slot], to the next slot's name or to [None]. *)
Theorem run_ends_with_requested_slot
    (self : FormAction) (t : DialogueStateTracker) (d : Domain)
    (returned : list Event) :
  no_validation_action self d ->
  run remote self t d = Ok returned ->
  exists (before : list Event) (value : PyVal),
    returned = before ++ [SlotSet REQUESTED_SLOT value].
Proof.
  intros Hno Hrun. pose proof Hrun as H. unfold run in H.
  apply bind_inv_Ok in H. destruct H as [activation [Ha H]].
  apply bind_inv_Ok in H. destruct H as [events [Hev _]].
  assert (Hform : existsb is_form_none events = false).
  { pose proof Hev as Hev'. unfold _validate_if_required in Hev'. destruct (_ && _).
    - apply validate_local_events in Hev'; [|exact Hno].
      destruct Hev' as [slot_dict ->]. apply slot_sets_hold_no_form.
    - injection Hev' as <-. reflexivity. }
  rewrite (run_unfold remote self t d activation events Ha Hev), Hform in Hrun.
  apply bind_inv_Ok in Hrun. destruct Hrun as [next [Hnext H]].
  unfold request_next_slot in Hnext.
  apply bind_inv_Ok in Hnext. destruct Hnext as [slots [_ Hnext]].
  injection Hnext as <-.
  destruct (request_next_loop_shape (temp_tracker t events) slots)
    as [Hn | [slot Hn]]; rewrite Hn in H; injection H as <-.
  - exists (events ++ [Form None]), PNone. now rewrite <- app_assoc.
  - exists (activation ++ events), (PStr slot). now rewrite <- app_assoc.
Qed.

(** The active form was asked for a slot, the user answered, and nothing
    could be extracted from the answer: the whole run raises the rejection
    and returns no event. *)
Theorem run_rejects_when_nothing_extracted
    (self : FormAction) (t : DialogueStateTracker) (d : Domain) :
  form_is_active self t = true ->
  latest_action_is_listen t = true ->
  active_form_validate_default_true t = true ->
  py_truthy (get_slot t REQUESTED_SLOT) = true ->
  extract_other_slots (with_domain self d) t = Ok [] ->
  extract_requested_slot (with_domain self d) t = Ok [] ->
  run remote self t d
  = Raise (ActionExecutionRejection
             (name self)
             ("Failed to extract slot " ++ py_str (get_slot t REQUESTED_SLOT)
              ++ " with action " ++ name self)).
Proof.
  intros Hactive Hlisten Hflag Hreq Hother Hrequested.
  unfold run. fold (with_domain self d).
  unfold _activate_if_required.
  replace (form_is_active (with_domain self d) t) with true by (symmetry; exact Hactive).
  rewrite bind_Ok. unfold _validate_if_required. rewrite Hlisten, Hflag. simpl.
  rewrite (validate_unfold remote (with_domain self d) t d [] Hother).
  rewrite Hreq, Hrequested. reflexivity.
Qed.

(** A form without required slots (for one, a form the domain does not
    configure), called while no slot is requested and with no validation
    action in the domain, returns exactly the deactivation events. *)
Theorem run_without_required_slots
    (self : FormAction) (t : DialogueStateTracker) (d : Domain) :
  first_form_config (_form_name self) (forms d) = [] ->
  py_truthy (get_slot t REQUESTED_SLOT) = false ->
  no_validation_action self d ->
  run remote self t d = Ok [Form None; SlotSet REQUESTED_SLOT PNone].
Proof.
  intros Hcfg Hreq Hno.
  assert (Hslots : forall t', required_slots (with_domain self d) t' = Ok []).
  { intros t'. unfold required_slots, _config, with_domain. simpl.
    rewrite Hcfg. reflexivity. }
  assert (Ha : exists activation,
             _activate_if_required remote (with_domain self d) t d = Ok activation).
  { unfold _activate_if_required. destruct (form_is_active _ t).
    - eexists. reflexivity.
    - rewrite Hslots. simpl. eexists. reflexivity. }
  destruct Ha as [activation Ha].
  assert (Hv : _validate_if_required remote (with_domain self d) t d = Ok []).
  { unfold _validate_if_required. destruct (_ && _); [|reflexivity].
    unfold validate, extract_other_slots. rewrite Hslots. simpl. rewrite Hreq.
    rewrite validate_slots_local by (left; exact Hno). reflexivity. }
  rewrite (run_unfold remote self t d activation [] Ha Hv).
  cbn [existsb]. unfold request_next_slot. rewrite Hslots. reflexivity.
Qed.

End ActivationAndRun.

(* ================================================================== *)
(** * Further properties of the interactive session *)

(** ** The events of a tracker dump *)

Section DumpEvents.
Import InteractiveEvents.

Variable UserUttered_type_name : string.

Lemma first_user_split (reversed : list (dict Json)) (i : nat) :
  match first_user_message UserUttered_type_name reversed,
        first_user_index UserUttered_type_name i reversed with
  | None, None =>
      Forall (fun e => event_is UserUttered_type_name e = false) reversed
  | Some m, Some j =>
      exists pre post : list (dict Json),
        reversed = pre ++ m :: post
        /\ Forall (fun e => event_is UserUttered_type_name e = false) pre
        /\ event_is UserUttered_type_name m = true
        /\ j = i + List.length pre
  | _, _ => False
  end.
Proof.
  revert i. induction reversed as [|e rest IH]; intros i; simpl.
  - constructor.
  - destruct (event_is UserUttered_type_name e) eqn:E.
    + exists [], rest. split; [reflexivity|]. split; [constructor|].
      split; [exact E | simpl; lia].
    + specialize (IH (S i)).
      destruct (first_user_message UserUttered_type_name rest) as [m|];
        destruct (first_user_index UserUttered_type_name (S i) rest) as [j|];
        try contradiction.
      * destruct IH as [pre [post [-> [Hpre [Hm ->]]]]].
        exists (e :: pre), post. split; [reflexivity|].
        split; [constructor; assumption|]. split; [exact Hm | simpl; lia].
      * constructor; assumption.
Qed.

(** The most recent user message cuts the events in two: the events are
    [all_events_before_latest_user_msg], then that message, then events
    none of which is a user message.  With no user message in the events,
    [latest_user_message] is [None] and all events are kept. *)
Theorem latest_user_message_splits (events : list (dict Json)) :
  match latest_user_message UserUttered_type_name events with
  | Some m =>
      event_is UserUttered_type_name m = true
      /\ exists after : list (dict Json),
           events
           = all_events_before_latest_user_msg UserUttered_type_name events
               ++ m :: after
           /\ Forall (fun e => event_is UserUttered_type_name e = false) after
  | None =>
      all_events_before_latest_user_msg UserUttered_type_name events = events
      /\ Forall (fun e => event_is UserUttered_type_name e = false) events
  end.
Proof.
  unfold latest_user_message, all_events_before_latest_user_msg.
  pose proof (first_user_split (rev events) 0) as H.
  destruct (first_user_message UserUttered_type_name (rev events)) as [m|];
    destruct (first_user_index UserUttered_type_name 0 (rev events)) as [j|];
    try contradiction.
  - destruct H as [pre [post [Hrev [Hpre [Hm ->]]]]].
    split; [exact Hm|]. exists (rev pre).
    assert (Hev : events = rev post ++ m :: rev pre).
    { rewrite <- (rev_involutive events), Hrev, rev_app_distr. simpl.
      now rewrite <- app_assoc. }
    split.
    + rewrite Hev at 1. f_equal.
      replace (List.length events - (0 + List.length pre + 1))
        with (List.length (rev post) + 0).
      * rewrite Hev, firstn_app_2. simpl. now rewrite app_nil_r.
      * rewrite Hev, length_app. simpl. rewrite !length_rev. lia.
    + apply Forall_rev. exact Hpre.
  - split; [reflexivity|].
    rewrite <- (rev_involutive events). apply Forall_rev. exact H.
Qed.

Lemma split_loop_spec (events : list (dict Json))
    (subs : list (list (dict Json))) (current : list (dict Json)) :
  Forall (fun c => c <> []) subs ->
  List.concat (split_loop events subs current)
  = List.concat subs ++ current ++ filter (fun e => negb (event_is "restart" e)) events
  /\ Forall (fun c => c <> []) (split_loop events subs current).
Proof.
  revert subs current. induction events as [|e rest IH]; intros subs current Hsubs; simpl.
  - rewrite app_nil_r. destruct current as [|c cur].
    + rewrite app_nil_r. split; [reflexivity | exact Hsubs].
    + split.
      * rewrite List.concat_app. simpl. now rewrite app_nil_r.
      * apply Forall_app. split; [exact Hsubs|]. constructor; [discriminate | constructor].
  - destruct (event_is "restart" e); simpl.
    + destruct current as [|c cur].
      * exact (IH subs [] Hsubs).
      * destruct (IH (subs ++ [c :: cur]) []) as [Hc Hne].
        { apply Forall_app. split; [exact Hsubs|].
          constructor; [discriminate | constructor]. }
        split; [|exact Hne].
        rewrite Hc, List.concat_app. simpl. now rewrite app_nil_r, <- app_assoc.
    + destruct (IH subs (current ++ [e]) Hsubs) as [Hc Hne].
      split; [|exact Hne]. rewrite Hc, <- app_assoc. reflexivity.
Qed.

(** Splitting a conversation at restarts loses nothing but the restart
    events: the parts put together again are the events without the
    restarts, in order, and no part is empty. *)
Theorem split_conversation_keeps_other_events (events : list (dict Json)) :
  List.concat (_split_conversation_at_restarts events)
  = filter (fun e => negb (event_is "restart" e)) events
  /\ Forall (fun c => c <> []) (_split_conversation_at_restarts events).
Proof.
  unfold _split_conversation_at_restarts.
  destruct (split_loop_spec events [] [] (Forall_nil _)) as [Hc Hne].
  split; [exact Hc | exact Hne].
Qed.

Variable ACTIVE_LOOP_KEY : string.
Variable ACTION_LISTEN_NAME : string.

(** An action cannot both reject the form and restore it: when
    [_form_is_rejected] holds for an action and a tracker dump,
    [_form_is_restored] does not. *)
Theorem form_rejected_excludes_restored (action_name : string) (tracker : dict Json) :
  _form_is_rejected ACTIVE_LOOP_KEY ACTION_LISTEN_NAME action_name tracker = Ok true ->
  _form_is_restored ACTIVE_LOOP_KEY ACTION_LISTEN_NAME action_name tracker = Ok false.
Proof.
  unfold _form_is_rejected, _form_is_restored, dict_get_default, dict_item.
  destruct (dict_get ACTIVE_LOOP_KEY tracker) as [active_loop|];
    [|cbn; discriminate].
  destruct active_loop as [| | | | |d]; try (cbn; discriminate).
  cbn [json_get json_item bind]. unfold dict_get_default, dict_item.
  destruct (dict_get "name" d) as [loop_name|]; [|cbn; discriminate].
  cbn [bind].
  destruct (json_truthy loop_name); [|discriminate].
  destruct (json_eq_str action_name loop_name); [cbn; discriminate|].
  intros _.
  destruct (json_truthy _); [|reflexivity].
  destruct (json_eq_str ACTION_LISTEN_NAME _); reflexivity.
Qed.

End DumpEvents.

(** ** Asking the user and logging an action *)

Section AskingAndLogging.
Import Interactive.

Variable NEW_TEMPLATES : dict (dict string).
Variable _write_data_to_file : string -> EndpointConfig -> M unit.

Lemma quit_menu_choice_Ok (answer : option Answer) (conversation_id : string)
    (endpoint : EndpointConfig) (s s' : Session) (b : bool) :
  quit_menu_choice _write_data_to_file answer conversation_id endpoint s = (Ok b, s') ->
  s' = s.
Proof.
  unfold quit_menu_choice.
  destruct (match answer with
            | Some a => negb (answer_truthy a) || answer_is "quit" a
            | None => true
            end).
  - destruct (_write_data_to_file conversation_id endpoint s) as [[u|e] s0];
      discriminate.
  - destruct answer as [a|]; [|intros H; now injection H].
    repeat match goal with
           | |- (if ?c then _ else _) = _ -> _ => destruct c
           end; intros H; try discriminate H; now injection H.
Qed.

Lemma ask_loop_Ok (is_abort : Answer -> bool) (conversation_id : string)
    (endpoint : EndpointConfig) (n : nat) :
  forall (keys : list (option Answer)) (log : list Request)
         (answer : option Answer) (s' : Session),
    List.length keys <= n ->
    ask_loop _write_data_to_file is_abort conversation_id endpoint keys log
    = (Ok answer, s') ->
    sent s' = log
    /\ exists consumed : list (option Answer),
         consumed <> [] /\ keys = consumed ++ keyboard s'.
Proof.
  induction n as [|n IH]; intros keys log answer s' Hlen H.
  - destruct keys as [|k keys]; [|simpl in Hlen; lia].
    simpl in H.
    destruct (quit_menu_choice _ None conversation_id endpoint (mkSession [] log))
      as [[b|e] s0] eqn:E; [|discriminate H].
    unfold quit_menu_choice in E.
    destruct (_write_data_to_file conversation_id endpoint (mkSession [] log))
      as [[u|e] s1]; discriminate E.
  - destruct keys as [|k keys].
    + apply (IH [] log answer s'); [simpl; lia | exact H].
    + simpl in H.
      destruct (match k with Some a => is_abort a | None => true end).
      * destruct keys as [|choice keys].
        -- destruct (quit_menu_choice _ None conversation_id endpoint (mkSession [] log))
             as [[b|e] s0] eqn:E; [|discriminate H].
           unfold quit_menu_choice in E.
           destruct (_write_data_to_file conversation_id endpoint (mkSession [] log))
             as [[u|e] s1]; discriminate E.
        -- destruct (quit_menu_choice _ choice conversation_id endpoint
                                      (mkSession keys log))
             as [[b|e] s0] eqn:E; [|discriminate H].
           apply quit_menu_choice_Ok in E. subst s0.
           destruct b.
           ++ simpl in H.
              destruct (IH keys log answer s') as [Hsent [consumed [Hne Hkeys]]];
                [simpl in Hlen; lia | exact H |].
              split; [exact Hsent|].
              exists (k :: choice :: consumed). split; [discriminate|].
              simpl. now rewrite Hkeys.
           ++ injection H as _ <-. simpl. split; [reflexivity|].
              exists [k; choice]. split; [discriminate | reflexivity].
      * injection H as _ <-. simpl. split; [reflexivity|].
        exists [k]. split; [discriminate | reflexivity].
Qed.

(** When [_ask_questions] returns an answer it has sent no request, and the
    user has given at least one answer, which is consumed in order.  So
    with no answer left from the user it never returns: it raises (the
    abort that follows the export, or what the export raised). *)
Theorem ask_questions_returns_after_an_answer
    (questions conversation_id : string) (endpoint : EndpointConfig)
    (is_abort : Answer -> bool) (s s' : Session) (answer : option Answer) :
  _ask_questions _write_data_to_file questions conversation_id endpoint is_abort s
  = (Ok answer, s') ->
  sent s' = sent s
  /\ exists consumed : list (option Answer),
       consumed <> [] /\ keyboard s = consumed ++ keyboard s'.
Proof.
  unfold _ask_questions. intros H.
  exact (ask_loop_Ok is_abort conversation_id endpoint (List.length (keyboard s))
                     (keyboard s) (sent s) answer s' (le_n _) H).
Qed.

(** [send_action] takes over from the server only after a client error:
    an answer of the server, or any other failure of the request, is what
    [send_action] returns or raises, after that one request, whether or not
    the action is new. *)
Theorem send_action_passes_through
    (endpoint : EndpointConfig) (conversation_id action_name : string)
    (policy : option string) (confidence : option Q) (is_new_action : bool)
    (s : Session) (outcome : result PyVal) :
  let execute :=
    mkRequest "post" ("/conversations/" ++ conversation_id ++ "/execute")
              (ActionExecuted action_name policy confidence) in
  endpoint (sent s) execute = outcome ->
  (forall message : string, outcome <> Raise (ClientError message)) ->
  send_action NEW_TEMPLATES _write_data_to_file endpoint conversation_id
              action_name policy confidence is_new_action s
  = (outcome, mkSession (keyboard s) (sent s ++ [execute])).
Proof.
  intros execute Hout Hnot. unfold send_action, request. fold execute.
  rewrite Hout. destruct outcome as [a|e]; [reflexivity|].
  destruct e; try reflexivity. now contradiction (Hnot message).
Qed.

End AskingAndLogging.

(* ================================================================== *)
(** * Further properties of the CRF extractor *)

(** ** The order of the taggers and their files *)

Section TaggerOrder.
Import CRFModel.

Variable ENTITY_ATTRIBUTE_TYPE : string.
Variable ENTITY_ATTRIBUTE_ROLE : string.
Variable ENTITY_ATTRIBUTE_GROUP : string.

Lemma update_loop_filter (crf_order : list string) (td : TrainingData)
    (acc : list string) :
  update_loop ENTITY_ATTRIBUTE_TYPE ENTITY_ATTRIBUTE_ROLE ENTITY_ATTRIBUTE_GROUP
              crf_order td acc
  = acc ++ filter (has_training_data ENTITY_ATTRIBUTE_TYPE ENTITY_ATTRIBUTE_ROLE
                                     ENTITY_ATTRIBUTE_GROUP td) crf_order.
Proof.
  revert acc. induction crf_order as [|tag rest IH]; intros acc; simpl.
  - now rewrite app_nil_r.
  - rewrite IH. unfold has_training_data.
    destruct (String.eqb tag ENTITY_ATTRIBUTE_TYPE && nonempty (entities td)) eqn:Et.
    + apply andb_true_iff in Et. destruct Et as [Et _].
      apply String.eqb_eq in Et. subst. simpl. now rewrite <- app_assoc.
    + destruct (String.eqb tag ENTITY_ATTRIBUTE_ROLE && nonempty (entity_roles td))
        eqn:Er.
      * apply andb_true_iff in Er. destruct Er as [Er _].
        apply String.eqb_eq in Er. subst. simpl. now rewrite <- app_assoc.
      * destruct (String.eqb tag ENTITY_ATTRIBUTE_GROUP
                  && nonempty (entity_groups td)) eqn:Eg.
        -- apply andb_true_iff in Eg. destruct Eg as [Eg _].
           apply String.eqb_eq in Eg. subst. simpl. now rewrite <- app_assoc.
        -- reflexivity.
Qed.

Lemma filter_idempotent {A : Type} (f : A -> bool) (l : list A) :
  filter f (filter f l) = filter f l.
Proof.
  induction l as [|a l IH]; simpl; [reflexivity|].
  destruct (f a) eqn:E; simpl; [rewrite E, IH; reflexivity | exact IH].
Qed.

(** [_update_crf_order] only drops tag names: it keeps, in their order,
    the tag names for which the training data has examples; updating again
    with the same training data changes nothing. *)
Theorem update_crf_order_keeps_trained_tags
    (crf_order : list string) (td : TrainingData) :
  let updated :=
    _update_crf_order ENTITY_ATTRIBUTE_TYPE ENTITY_ATTRIBUTE_ROLE
                      ENTITY_ATTRIBUTE_GROUP crf_order td in
  updated = filter (has_training_data ENTITY_ATTRIBUTE_TYPE ENTITY_ATTRIBUTE_ROLE
                                      ENTITY_ATTRIBUTE_GROUP td) crf_order
  /\ _update_crf_order ENTITY_ATTRIBUTE_TYPE ENTITY_ATTRIBUTE_ROLE
                       ENTITY_ATTRIBUTE_GROUP updated td = updated.
Proof.
  unfold _update_crf_order. cbv zeta. rewrite !update_loop_filter. simpl.
  split; [reflexivity|]. apply filter_idempotent.
Qed.

End TaggerOrder.

Section TaggerFiles.
Import CRFModel.

Variable Tagger : Type.
Variable path_join : string -> string -> string.

Lemma append_length (s1 s2 : string) :
  String.length (s1 ++ s2) = String.length s1 + String.length s2.
Proof. induction s1 as [|a s1 IH]; simpl; [reflexivity | now rewrite IH]. Qed.

Lemma nested_file_names_longer (file_name : string) (names : list string) (x : string) :
  In x (nested_file_names file_name names) ->
  String.length file_name < String.length x.
Proof.
  revert file_name. induction names as [|n rest IH]; intros file_name; simpl.
  - intros [].
  - assert (Hlen : String.length file_name
                   < String.length (file_name ++ "." ++ n ++ ".pkl")).
    { rewrite append_length. simpl. lia. }
    intros [<- | Hin]; [exact Hlen|].
    apply IH in Hin. exact (Nat.lt_trans _ _ _ Hlen Hin).
Qed.

Lemma nested_file_names_NoDup (file_name : string) (names : list string) :
  NoDup (nested_file_names file_name names).
Proof.
  revert file_name. induction names as [|n rest IH]; intros file_name; simpl.
  - constructor.
  - constructor; [|apply IH].
    intros Hin. apply nested_file_names_longer in Hin.
    exact (Nat.lt_irrefl _ Hin).
Qed.

Lemma nested_file_names_length (file_name : string) (names : list string) :
  List.length (nested_file_names file_name names) = List.length names.
Proof.
  revert file_name. induction names as [|n rest IH]; intros file_name; simpl;
    [reflexivity | now rewrite IH].
Qed.

Lemma persist_loop_spec (taggers : dict Tagger) (file_name model_dir : string)
    (file_names : dict string) (dumps : list (Tagger * string)) :
  NoDup (dict_keys taggers) ->
  (forall k, In k (dict_keys taggers) -> dict_get k file_names = None) ->
  persist_loop Tagger path_join taggers file_name model_dir file_names dumps
  = (file_names
       ++ combine (dict_keys taggers) (nested_file_names file_name (dict_keys taggers)),
     dumps
       ++ combine (map snd taggers)
                  (map (path_join model_dir)
                       (nested_file_names file_name (dict_keys taggers)))).
Proof.
  revert file_name file_names dumps.
  induction taggers as [|[name tagger] rest IH];
    intros file_name file_names dumps Hnd Hfresh; simpl.
  - now rewrite !app_nil_r.
  - simpl in Hnd. inversion Hnd as [|x l Hnotin Hnd']; subst.
    rewrite (dict_set_fresh name _ file_names (Hfresh name (or_introl eq_refl))).
    rewrite IH; [now rewrite <- !app_assoc | exact Hnd' |].
    intros k Hin. rewrite dict_get_app_None; [|apply Hfresh; now right].
    simpl. destruct (String.eqb k name) eqn:E; [|reflexivity].
    apply String.eqb_eq in E. subst. now contradiction Hnotin.
Qed.

(** [persist] writes every tagger to a file of its own: the file names
    recorded for the taggers, in order, extend one another (each is the
    previous one followed by the tagger's name and [.pkl]), so no two of
    them are equal, and the files written are these names under the model
    directory, one per tagger. *)
Theorem persist_file_names_are_distinct
    (taggers : dict Tagger) (file_name model_dir : string) :
  NoDup (dict_keys taggers) ->
  let names := nested_file_names file_name (dict_keys taggers) in
  persist Tagger path_join (Some taggers) file_name model_dir
  = (combine (dict_keys taggers) names,
     combine (map snd taggers) (map (path_join model_dir) names))
  /\ NoDup names
  /\ List.length names = List.length taggers.
Proof.
  intros Hnd names. split; [|split].
  - unfold persist. destruct taggers as [|kv rest]; [reflexivity|].
    exact (persist_loop_spec (kv :: rest) file_name model_dir [] [] Hnd
                             (fun k _ => eq_refl)).
  - apply nested_file_names_NoDup.
  - unfold names, dict_keys. now rewrite nested_file_names_length, length_map.
Qed.

End TaggerFiles.

(** ** The feature windows *)

Section FeatureWindows.
Import CRFModel.

Variable V : Type.
Variable vTrue : V.
Variable CRFToken : Type.
Variable function_dict : dict (CRFToken -> V).
Variable items : V -> option (list (string * V)).

Lemma py_norm_index_in (n : nat) (i : Z) :
  (0 <= i < Z.of_nat n)%Z -> py_norm_index n i = Some (Z.to_nat i).
Proof.
  intros H. unfold py_norm_index.
  destruct (Z.ltb_spec i 0) as [Hlt|_]; [lia|].
  destruct (Z.ltb_spec i 0) as [Hlt|_]; [lia|].
  destruct (Z.leb_spec (Z.of_nat n) i) as [Hle|_]; [lia|]. reflexivity.
Qed.

Lemma py_index_in {A : Type} (l : list A) (i : Z) :
  (0 <= i < Z.of_nat (List.length l))%Z -> exists a : A, py_index l i = Ok a.
Proof.
  intros H. unfold py_index. rewrite (py_norm_index_in _ _ H).
  destruct (nth_error l (Z.to_nat i)) as [a|] eqn:E; [exists a; reflexivity|].
  apply nth_error_None in E. lia.
Qed.

Lemma append_at_length {A : Type} (j : nat) (x : A) (l : list (list A)) :
  List.length (append_at j x l) = List.length l.
Proof.
  revert j. induction l as [|fs rest IH]; intros j;
    destruct j as [|j]; simpl; try reflexivity. now rewrite IH.
Qed.

Lemma feature_loop_raises (word : CRFToken) (prefix : string) (features : list string)
    (word_features : dict V) (e : Exn) :
  feature_loop V CRFToken function_dict items word prefix features word_features
  = Raise e ->
  not_IndexError e.
Proof.
  revert word_features. induction features as [|feature rest IH];
    intros word_features; simpl; [discriminate|].
  unfold dict_item.
  destruct (String.eqb feature "pattern");
    (destruct (dict_get feature function_dict) as [f|];
     [|simpl; intros H; injection H as <-; intros msg; discriminate]); simpl.
  - destruct (items (f word)) as [l|]; simpl; [apply IH|].
    intros H. injection H as <-. intros msg. discriminate.
  - apply IH.
Qed.

Lemma offsets_loop_safe (sentence : list CRFToken) (include_tag_features : bool)
    (word_idx : nat) (half_span : Z) (prefixes : list string) (feature_range : list Z) :
  forall (configured : list (list string)) (word_features : dict V),
    Z.of_nat (List.length configured) = (2 * half_span + 1)%Z ->
    List.length prefixes = List.length configured ->
    Forall (fun f_i => (- half_span <= f_i <= half_span)%Z) feature_range ->
    match offsets_loop V vTrue CRFToken function_dict items sentence
                       include_tag_features word_idx half_span prefixes
                       feature_range configured word_features with
    | Ok step => List.length (fst step) = List.length configured
    | Raise e => not_IndexError e
    end.
Proof.
  induction feature_range as [|f_i rest IH];
    intros configured word_features Hspan Hprefixes Hrange; [reflexivity|].
  inversion Hrange as [|x l Hf Hrest]; subst.
  cbn [offsets_loop].
  destruct (Z.leb_spec (Z.of_nat (List.length sentence)) (Z.of_nat word_idx + f_i))
    as [Heos|Hin]; [now apply IH|].
  destruct (Z.ltb_spec (Z.of_nat word_idx + f_i) 0) as [Hbos|Hpos]; [now apply IH|].
  destruct (py_index_in sentence (Z.of_nat word_idx + f_i)) as [word ->]; [lia|].
  destruct (py_index_in prefixes (f_i + half_span)) as [prefix ->]; [lia|].
  destruct (py_index_in configured (f_i + half_span)) as [features ->]; [lia|].
  rewrite !bind_Ok.
  rewrite (py_norm_index_in (List.length configured) (f_i + half_span)) by lia.
  destruct (feature_loop V CRFToken function_dict items word prefix
              (if include_tag_features then features ++ ["entity"] else features)
              word_features) as [word_features'|e] eqn:E.
  - rewrite bind_Ok. destruct include_tag_features.
    + specialize (IH (append_at (Z.to_nat (f_i + half_span)) "entity" configured)
                     word_features').
      rewrite append_at_length in IH. apply IH; assumption.
    + now apply IH.
  - rewrite bind_Raise. exact (feature_loop_raises _ _ _ _ _ E).
Qed.

Lemma odd_span (n : nat) :
  Nat.odd n = true -> Z.of_nat n = (2 * (Z.of_nat n / 2) + 1)%Z.
Proof.
  intros H. apply Nat.odd_spec in H. destruct H as [k Hk].
  pose proof (Z.div_mod (Z.of_nat n) 2 ltac:(lia)) as Hdiv.
  pose proof (Z.mod_pos_bound (Z.of_nat n) 2 ltac:(lia)) as Hmod.
  lia.
Qed.

Lemma py_range_bounds (a b : Z) :
  Forall (fun i => (a <= i < b)%Z) (py_range a b).
Proof.
  unfold py_range. apply Forall_forall. intros i Hin.
  apply in_map_iff in Hin. destruct Hin as [k [<- Hk]].
  apply in_seq in Hk. lia.
Qed.

Lemma py_range_length (a b : Z) : List.length (py_range a b) = Z.to_nat (b - a).
Proof. unfold py_range. now rewrite length_map, length_seq. Qed.

Lemma words_loop_safe (sentence : list CRFToken) (include_tag_features : bool)
    (word_indices : list nat) :
  forall (configured : list (list string)) (sentence_features : list (dict V)),
    Nat.odd (List.length configured) = true ->
    match words_loop V vTrue CRFToken function_dict items sentence
                     include_tag_features word_indices configured
                     sentence_features with
    | Ok out =>
        List.length (fst out)
        = List.length sentence_features + List.length word_indices
        /\ List.length (snd out) = List.length configured
    | Raise e => not_IndexError e
    end.
Proof.
  induction word_indices as [|word_idx rest IH];
    intros configured sentence_features Hodd.
  - simpl. split; [lia | reflexivity].
  - cbn [words_loop].
    pose proof (odd_span _ Hodd) as Hspan.
    set (half_span := (Z.of_nat (List.length configured) / 2)%Z) in *.
    pose proof (offsets_loop_safe sentence include_tag_features word_idx half_span
                  (map str (py_range (- half_span) (half_span + 1)))
                  (py_range (- half_span) (half_span + 1))
                  configured [] Hspan) as Hstep.
    destruct (offsets_loop V vTrue CRFToken function_dict items sentence
                include_tag_features word_idx half_span
                (map str (py_range (- half_span) (half_span + 1)))
                (py_range (- half_span) (half_span + 1)) configured [])
      as [step|e].
    + rewrite bind_Ok.
      assert (Hlen : List.length (fst step) = List.length configured).
      { apply Hstep.
        - rewrite length_map, py_range_length. lia.
        - eapply Forall_impl; [|apply py_range_bounds]. cbv beta. intros i Hi. lia. }
      specialize (IH (fst step) (sentence_features ++ [snd step])).
      rewrite Hlen in IH. specialize (IH Hodd).
      destruct (words_loop V vTrue CRFToken function_dict items sentence
                  include_tag_features rest (fst step)
                  (sentence_features ++ [snd step])) as [out|e]; [|exact IH].
      destruct IH as [Hfeats Hconf]. rewrite length_app in Hfeats. simpl in *.
      split; [lia|]. now rewrite Hconf.
    + rewrite bind_Raise. apply Hstep.
      * rewrite length_map, py_range_length. lia.
      * eapply Forall_impl; [|apply py_range_bounds]. cbv beta. intros i Hi. lia.
Qed.

(** With an odd number of configured feature lists (what the configuration
    check demands) the window never reaches outside the configuration:
    [_sentence_to_features] raises no [IndexError], and when it returns it
    gives one feature dict per token and leaves the number of configured
    lists as it was. *)
Theorem sentence_features_stay_inside_windows
    (configured : list (list string)) (sentence : list CRFToken)
    (include_tag_features : bool) :
  Nat.odd (List.length configured) = true ->
  match _sentence_to_features V vTrue CRFToken function_dict items
                              configured sentence include_tag_features with
  | Ok out =>
      List.length (fst out) = List.length sentence
      /\ List.length (snd out) = List.length configured
  | Raise e => not_IndexError e
  end.
Proof.
  intros Hodd. unfold _sentence_to_features.
  pose proof (words_loop_safe sentence include_tag_features
                (seq 0 (List.length sentence)) configured [] Hodd) as H.
  destruct (words_loop V vTrue CRFToken function_dict items sentence
              include_tag_features (seq 0 (List.length sentence)) configured [])
    as [out|e]; [|exact H].
  rewrite length_seq in H. exact H.
Qed.

End FeatureWindows.

(** ** What a call leaves in the configured features *)

Section ConfiguredFeatures.
Import CRFModel.

Variable V : Type.
Variable vTrue : V.
Variable CRFToken : Type.
Variable function_dict : dict (CRFToken -> V).
Variable items : V -> option (list (string * V)).

Lemma grown_by_entity_refl (l : list string) : grown_by_entity l l.
Proof. exists 0. simpl. now rewrite app_nil_r. Qed.

Lemma grown_by_entity_trans (l1 l2 l3 : list string) :
  grown_by_entity l1 l2 -> grown_by_entity l2 l3 -> grown_by_entity l1 l3.
Proof.
  intros [k1 ->] [k2 ->]. exists (k1 + k2).
  now rewrite <- app_assoc, repeat_app.
Qed.

Lemma all_grown_refl (c : list (list string)) : Forall2 grown_by_entity c c.
Proof. induction c; constructor; [apply grown_by_entity_refl | assumption]. Qed.

Lemma all_grown_trans (c1 c2 c3 : list (list string)) :
  Forall2 grown_by_entity c1 c2 -> Forall2 grown_by_entity c2 c3 ->
  Forall2 grown_by_entity c1 c3.
Proof.
  intros H12. revert c3. induction H12 as [|l1 l2 c1 c2 Hl H12 IH]; intros c3 H23.
  - inversion H23. constructor.
  - inversion H23 as [|l2' l3 c2' c3' Hl' H23']; subst.
    constructor; [exact (grown_by_entity_trans _ _ _ Hl Hl') | exact (IH _ H23')].
Qed.

Lemma append_at_grown (j : nat) (c : list (list string)) :
  Forall2 grown_by_entity c (append_at j "entity" c).
Proof.
  revert j. induction c as [|l c IH]; intros j; destruct j as [|j]; simpl;
    try constructor; try apply all_grown_refl; try apply grown_by_entity_refl.
  - exists 1. reflexivity.
  - apply IH.
Qed.

(** The number of configured feature names, over all lists. *)
Lemma append_at_total (j : nat) (x : string) (c : list (list string)) :
  j < List.length c ->
  List.length (List.concat (append_at j x c)) = S (List.length (List.concat c)).
Proof.
  revert j. induction c as [|l c IH]; intros j Hj; [simpl in Hj; lia|].
  destruct j as [|j]; simpl.
  - rewrite !length_app. simpl. lia.
  - rewrite !length_app, IH by (simpl in Hj; lia). lia.
Qed.

Lemma py_index_Ok_norm {A : Type} (l : list A) (i : Z) (a : A) :
  py_index l i = Ok a ->
  exists j : nat, py_norm_index (List.length l) i = Some j /\ j < List.length l.
Proof.
  unfold py_index. destruct (py_norm_index (List.length l) i) as [j|]; [|discriminate].
  destruct (nth_error l j) eqn:E; [|discriminate]. intros _.
  exists j. split; [reflexivity|]. apply nth_error_Some. congruence.
Qed.

Lemma offsets_loop_configured (sentence : list CRFToken) (include_tag_features : bool)
    (word_idx : nat) (half_span : Z) (prefixes : list string) (feature_range : list Z) :
  forall (configured : list (list string)) (word_features : dict V)
         (step : list (list string) * dict V),
    offsets_loop V vTrue CRFToken function_dict items sentence include_tag_features
                 word_idx half_span prefixes feature_range configured word_features
    = Ok step ->
    (include_tag_features = false -> fst step = configured)
    /\ Forall2 grown_by_entity configured (fst step)
    /\ List.length (List.concat configured) <= List.length (List.concat (fst step))
    /\ (include_tag_features = true ->
        forall f_i : Z,
          In f_i feature_range ->
          (0 <= Z.of_nat word_idx + f_i < Z.of_nat (List.length sentence))%Z ->
          List.length (List.concat configured)
          < List.length (List.concat (fst step))).
Proof.
  induction feature_range as [|f_i rest IH]; intros configured word_features step H.
  - simpl in H. injection H as <-. simpl.
    split; [reflexivity|]. split; [apply all_grown_refl|]. split; [lia|].
    intros _ f [].
  - cbn [offsets_loop] in H.
    destruct (Z.leb_spec (Z.of_nat (List.length sentence)) (Z.of_nat word_idx + f_i))
      as [Heos|Hin].
    { destruct (IH _ _ _ H) as [Hsame [Hgrown [Hle Hlt]]].
      repeat split; try assumption.
      intros Hinc f [<-|Hf] Hpos; [lia | exact (Hlt Hinc f Hf Hpos)]. }
    destruct (Z.ltb_spec (Z.of_nat word_idx + f_i) 0) as [Hbos|Hpos].
    { destruct (IH _ _ _ H) as [Hsame [Hgrown [Hle Hlt]]].
      repeat split; try assumption.
      intros Hinc f [<-|Hf] Hpos'; [lia | exact (Hlt Hinc f Hf Hpos')]. }
    apply bind_inv_Ok in H. destruct H as [word [_ H]].
    apply bind_inv_Ok in H. destruct H as [prefix [_ H]].
    apply bind_inv_Ok in H. destruct H as [features [Hfeatures H]].
    apply bind_inv_Ok in H. destruct H as [word_features' [_ H]].
    destruct (py_index_Ok_norm _ _ _ Hfeatures) as [j [Hnorm Hj]].
    rewrite Hnorm in H.
    destruct include_tag_features.
    + destruct (IH _ _ _ H) as [_ [Hgrown [Hle _]]].
      rewrite append_at_total in Hle by exact Hj.
      split; [discriminate|]. split.
      * exact (all_grown_trans _ _ _ (append_at_grown j configured) Hgrown).
      * split; [lia|]. intros _ f _ _. lia.
    + destruct (IH _ _ _ H) as [Hsame [Hgrown [Hle _]]].
      repeat split; try assumption. discriminate.
Qed.

Lemma py_range_has_zero (half_span : Z) :
  (0 <= half_span)%Z -> In 0%Z (py_range (- half_span) (half_span + 1)).
Proof.
  intros H. unfold py_range. apply in_map_iff.
  exists (Z.to_nat half_span). split; [lia|]. apply in_seq. lia.
Qed.

Lemma words_loop_configured (sentence : list CRFToken) (include_tag_features : bool)
    (word_indices : list nat) :
  forall (configured : list (list string)) (sentence_features : list (dict V))
         (out : list (dict V) * list (list string)),
    words_loop V vTrue CRFToken function_dict items sentence include_tag_features
               word_indices configured sentence_features = Ok out ->
    (include_tag_features = false -> snd out = configured)
    /\ Forall2 grown_by_entity configured (snd out)
    /\ List.length (List.concat configured) <= List.length (List.concat (snd out))
    /\ (include_tag_features = true ->
        forall word_idx : nat,
          In word_idx word_indices ->
          word_idx < List.length sentence ->
          List.length (List.concat configured)
          < List.length (List.concat (snd out))).
Proof.
  induction word_indices as [|word_idx rest IH];
    intros configured sentence_features out H.
  - simpl in H. injection H as <-. simpl.
    split; [reflexivity|]. split; [apply all_grown_refl|]. split; [lia|].
    intros _ w [].
  - cbn [words_loop] in H.
    apply bind_inv_Ok in H. destruct H as [step [Hstep H]].
    apply offsets_loop_configured in Hstep.
    destruct Hstep as [Hsame [Hgrown [Hle Hlt]]].
    destruct (IH _ _ _ H) as [Hsame' [Hgrown' [Hle' Hlt']]].
    split; [|split; [|split]].
    + intros Hinc. rewrite (Hsame' Hinc). exact (Hsame Hinc).
    + exact (all_grown_trans _ _ _ Hgrown Hgrown').
    + lia.
    + intros Hinc w [<-|Hw] Hpos.
      * specialize (Hlt Hinc 0%Z).
        assert (Hhalf : (0 <= Z.of_nat (List.length configured) / 2)%Z)
          by (apply Z.div_pos; lia).
        specialize (Hlt (py_range_has_zero _ Hhalf)). lia.
      * specialize (Hlt' Hinc w Hw Hpos). lia.
Qed.

(** What a call of [_sentence_to_features] leaves in the configured
    features: without tag features they are unchanged; with tag features
    every list is what it was followed by some number of ["entity"], and
    for a sentence that is not empty the configuration has grown by at
    least one such entry, so the next call starts from longer lists. *)
Theorem sentence_features_grow_configuration
    (configured : list (list string)) (sentence : list CRFToken)
    (include_tag_features : bool) (out : list (dict V) * list (list string)) :
  _sentence_to_features V vTrue CRFToken function_dict items
                        configured sentence include_tag_features = Ok out ->
  (include_tag_features = false -> snd out = configured)
  /\ Forall2 grown_by_entity configured (snd out)
  /\ (include_tag_features = true -> sentence <> [] ->
      List.length (List.concat configured) < List.length (List.concat (snd out))).
Proof.
  unfold _sentence_to_features. intros H.
  apply words_loop_configured in H. destruct H as [Hsame [Hgrown [_ Hlt]]].
  split; [exact Hsame|]. split; [exact Hgrown|].
  intros Hinc Hne. apply (Hlt Hinc 0).
  - destruct sentence; [now contradiction Hne | simpl; now left].
  - destruct sentence; [now contradiction Hne | simpl; lia].
Qed.

End ConfiguredFeatures.

(** ** An even number of feature lists *)

Section EvenWindows.
Import CRFModel.

Variable V : Type.
Variable vTrue : V.
Variable CRFToken : Type.
Variable function_dict : dict (CRFToken -> V).
Variable items : V -> option (list (string * V)).

Lemma feature_loop_evaluable (word : CRFToken) (prefix : string)
    (features : list string) (word_features : dict V) :
  Forall (evaluable function_dict items) features ->
  exists word_features' : dict V,
    feature_loop V CRFToken function_dict items word prefix features word_features
    = Ok word_features'.
Proof.
  revert word_features. induction features as [|feature rest IH];
    intros word_features Hev; simpl; [eexists; reflexivity|].
  inversion Hev as [|x l [f [Hf Hpattern]] Hrest]; subst.
  unfold dict_item. rewrite Hf. simpl.
  destruct (String.eqb feature "pattern") eqn:E.
  - apply String.eqb_eq in E. specialize (Hpattern E word).
    destruct (items (f word)) as [l|]; [|now contradiction Hpattern].
    simpl. apply IH. exact Hrest.
  - apply IH. exact Hrest.
Qed.

Lemma py_index_Forall {A : Type} (P : A -> Prop) (l : list A) (i : Z) (a : A) :
  Forall P l -> py_index l i = Ok a -> P a.
Proof.
  unfold py_index. intros HP.
  destruct (py_norm_index (List.length l) i) as [j|]; [|discriminate].
  destruct (nth_error l j) as [a'|] eqn:E; [|discriminate].
  intros H. injection H as <-.
  apply nth_error_In in E. rewrite Forall_forall in HP. exact (HP _ E).
Qed.

Lemma py_index_out {A : Type} (l : list A) (i : Z) :
  (Z.of_nat (List.length l) <= i)%Z ->
  py_index l i = Raise (IndexError "list index out of range").
Proof.
  intros H. unfold py_index, py_norm_index.
  destruct (Z.ltb_spec i 0) as [Hlt|_]; [lia|].
  destruct (Z.ltb_spec i 0) as [Hlt|_]; [lia|].
  destruct (Z.leb_spec (Z.of_nat (List.length l)) i) as [_|Hlt]; [reflexivity | lia].
Qed.

Lemma append_at_Forall {A : Type} (P : A -> Prop) (j : nat) (x : A)
    (c : list (list A)) :
  P x -> Forall (Forall P) c -> Forall (Forall P) (append_at j x c).
Proof.
  intros Hx. revert j. induction c as [|l c IH]; intros j Hc;
    destruct j as [|j]; simpl; try constructor;
    inversion Hc as [|l' c' Hl Hc']; subst; try assumption.
  - apply Forall_app. split; [exact Hl | constructor; [exact Hx | constructor]].
  - apply IH. exact Hc'.
Qed.

Lemma offsets_loop_even (sentence : list CRFToken) (include_tag_features : bool)
    (half_span : Z) (prefixes : list string) (feature_range : list Z) :
  forall (configured : list (list string)) (word_features : dict V),
    Z.of_nat (List.length configured) = (2 * half_span)%Z ->
    Z.of_nat (List.length prefixes) = (2 * half_span + 1)%Z ->
    (half_span < Z.of_nat (List.length sentence))%Z ->
    Forall (fun f_i => (- half_span <= f_i <= half_span)%Z) feature_range ->
    In half_span feature_range ->
    Forall (Forall (evaluable function_dict items)) configured ->
    (include_tag_features = true -> evaluable function_dict items "entity") ->
    offsets_loop V vTrue CRFToken function_dict items sentence include_tag_features
                 0 half_span prefixes feature_range configured word_features
    = Raise (IndexError "list index out of range").
Proof.
  induction feature_range as [|f_i rest IH];
    intros configured word_features Hspan Hprefixes Hlong Hrange Hin Hev Hentity;
    [destruct Hin|].
  inversion Hrange as [|x l Hf Hrest]; subst.
  cbn [offsets_loop].
  destruct (Z.leb_spec (Z.of_nat (List.length sentence)) (Z.of_nat 0 + f_i))
    as [Heos|_]; [lia|].
  destruct (Z.ltb_spec (Z.of_nat 0 + f_i) 0) as [Hbos|Hpos].
  { apply IH; try assumption. destruct Hin as [<-|Hin]; [lia | exact Hin]. }
  destruct (py_index_in sentence (Z.of_nat 0 + f_i)) as [word ->]; [lia|].
  destruct (py_index_in prefixes (f_i + half_span)) as [prefix ->]; [lia|].
  rewrite !bind_Ok.
  destruct (Z.eq_dec f_i half_span) as [->|Hne].
  - rewrite py_index_out by lia. reflexivity.
  - destruct (py_index_in configured (f_i + half_span)) as [features Hfeatures];
      [lia|].
    rewrite Hfeatures, bind_Ok.
    rewrite (py_norm_index_in (List.length configured) (f_i + half_span)) by lia.
    assert (Hfev : Forall (evaluable function_dict items)
                          (if include_tag_features then features ++ ["entity"]
                           else features)).
    { pose proof (py_index_Forall _ _ _ _ Hev Hfeatures) as Hf'.
      destruct include_tag_features; [|exact Hf'].
      apply Forall_app. split; [exact Hf'|].
      constructor; [exact (Hentity eq_refl) | constructor]. }
    destruct (feature_loop_evaluable word prefix _ word_features Hfev)
      as [word_features' ->].
    rewrite bind_Ok.
    assert (Hin' : In half_span rest)
      by (destruct Hin as [Heq|Hin]; [now contradiction Hne | exact Hin]).
    destruct include_tag_features.
    + apply IH; try assumption.
      * now rewrite append_at_length.
      * apply append_at_Forall; [exact (Hentity eq_refl) | exact Hev].
    + apply IH; assumption.
Qed.

Lemma even_span (n : nat) :
  Nat.even n = true -> Z.of_nat n = (2 * (Z.of_nat n / 2))%Z.
Proof.
  intros H. apply Nat.even_spec in H. destruct H as [k Hk].
  pose proof (Z.div_mod (Z.of_nat n) 2 ltac:(lia)) as Hdiv.
  pose proof (Z.mod_pos_bound (Z.of_nat n) 2 ltac:(lia)) as Hmod.
  lia.
Qed.

(** Why the number of feature lists has to be odd: with an even number of
    lists whose features can all be evaluated, [_sentence_to_features]
    raises an [IndexError] on every sentence that has more tokens than half
    that number (the last window position has no list). *)
Theorem sentence_features_fail_for_even_windows
    (configured : list (list string)) (sentence : list CRFToken)
    (include_tag_features : bool) :
  Nat.even (List.length configured) = true ->
  List.length configured / 2 < List.length sentence ->
  Forall (Forall (evaluable function_dict items)) configured ->
  (include_tag_features = true -> evaluable function_dict items "entity") ->
  _sentence_to_features V vTrue CRFToken function_dict items
                        configured sentence include_tag_features
  = Raise (IndexError "list index out of range").
Proof.
  intros Heven Hlong Hev Hentity. unfold _sentence_to_features.
  destruct sentence as [|word sentence]; [simpl in Hlong; lia|].
  cbn [List.length seq words_loop].
  pose proof (even_span _ Heven) as Hspan.
  assert (Hhalf : (Z.of_nat (List.length configured) / 2
                   = Z.of_nat (List.length configured / 2))%Z)
    by (rewrite Nat2Z.inj_div; reflexivity).
  set (half_span := (Z.of_nat (List.length configured) / 2)%Z) in *.
  assert (Hpos : (0 <= half_span)%Z) by lia.
  rewrite (offsets_loop_even (word :: sentence) include_tag_features half_span
             (map str (py_range (- half_span) (half_span + 1)))
             (py_range (- half_span) (half_span + 1)) configured []).
  - reflexivity.
  - exact Hspan.
  - rewrite length_map, py_range_length. lia.
  - simpl List.length in *. lia.
  - eapply Forall_impl; [|apply py_range_bounds]. cbv beta. intros i Hi. lia.
  - unfold py_range. apply in_map_iff.
    exists (Z.to_nat (2 * half_span)). split; [lia|]. apply in_seq. lia.
  - exact Hev.
  - exact Hentity.
Qed.

End EvenWindows.

(* ================================================================== *)
(** * The further properties on the scenarios *)

Section FormExamples.
Import Forms Scenarios MoreScenarios.

(** A list as requested slot is refused as unhashable. *)
Lemma extract_requested_slot_raises_only_witness :
  extract_requested_slot book_restaurant tracker_unhashable_request
  = Raise (TypeError "unhashable type: 'list'")
  /\ (is_TypeError (TypeError "unhashable type: 'list'")
      \/ is_ValueError (TypeError "unhashable type: 'list'")).
Proof.
  split; [reflexivity|].
  apply (extract_requested_slot_raises_only book_restaurant tracker_unhashable_request).
  reflexivity.
Defined.

(** The number the user gives fills [people]. *)
Lemma extract_requested_slot_single_witness :
  extract_requested_slot book_restaurant tracker_answers_people
  = Ok [("people", PStr "4")]
  /\ ([("people", PStr "4")] = []
      \/ exists (slot : string) (value : PyVal),
           get_slot tracker_answers_people REQUESTED_SLOT = PStr slot
           /\ py_is_none value = false
           /\ [("people", PStr "4")] = [(slot, value)]).
Proof.
  split; [reflexivity|].
  apply (extract_requested_slot_single book_restaurant tracker_answers_people).
  reflexivity.
Defined.

(** A trigger mapping does not fill [people], whatever the intent. *)
Lemma trigger_intent_never_fills_requested_slot_witness :
  requested_loop tracker_two_cities (PStr "people") [trigger_mapping] = Ok [].
Proof.
  apply (trigger_intent_never_fills_requested_slot
           tracker_two_cities (PStr "people") [trigger_mapping]).
  constructor; [|constructor].
  split; [reflexivity|]. exists true. reflexivity.
Defined.

(** The type [from_slot] is only refused when the mapping is reached. *)
Lemma unsupported_mapping_type_raises_late_witness :
  check_mappings [PDict from_slot_mapping] = Ok [from_slot_mapping]
  /\ requested_loop tracker_two_cities (PStr "people") [from_slot_mapping]
     = Raise (ValueError "Provided slot mapping type is not supported").
Proof.
  destruct (unsupported_mapping_type_raises_late
              tracker_two_cities (PStr "people") from_slot_mapping (PStr "from_slot") []
              eq_refl eq_refl eq_refl) as [Hcheck [Hraise _]].
  split; [exact Hcheck | exact (Hraise eq_refl)].
Defined.

(** Without a domain the required slots cannot be read. *)
Lemma extract_other_slots_raises_only_witness :
  is_AttributeError (AttributeError "'NoneType' object has no attribute 'forms'")
  \/ is_TypeError (AttributeError "'NoneType' object has no attribute 'forms'").
Proof.
  apply (extract_other_slots_raises_only cuisine_form tracker_gives_time).
  reflexivity.
Defined.

(** The time the user gives is extracted for [time], not for the requested
    [people]. *)
Lemma extract_other_slots_entries_witness :
  extract_other_slots book_restaurant tracker_gives_time = Ok [("time", PStr "8pm")]
  /\ exists slots : list string,
       required_slots book_restaurant tracker_gives_time = Ok slots
       /\ (forall (k : string) (v : PyVal),
              In (k, v) [("time", PStr "8pm")] ->
              In k slots
              /\ py_eq_str k (get_slot tracker_gives_time REQUESTED_SLOT) = false
              /\ py_is_none v = false)
       /\ NoDup (dict_keys [("time", PStr "8pm")]).
Proof.
  split; [reflexivity|].
  apply (extract_other_slots_entries book_restaurant tracker_gives_time).
  reflexivity.
Defined.

(** The intent [info] passes a filter that is the text [inform]. *)
Lemma intent_filter_text_is_substring_test_witness :
  exists b : bool,
    intent_is_desired text_filter_mapping tracker_info = Ok b
    /\ (b = true <-> exists pre post : string, "inform" = (pre ++ "info" ++ post)%string).
Proof.
  apply (proj1 (intent_filter_text_is_substring_test
                  text_filter_mapping tracker_info "inform" eq_refl
                  ltac:(discriminate)) "info").
  reflexivity.
Defined.

(** No form is active and [time] is set: activation yields the activation
    event and the event for [time], without any server. *)
Lemma activation_without_active_form_witness :
  _activate_if_required no_server book_restaurant tracker_finishes_at_once
                        restaurant_domain
  = Ok [Form (Some "book_restaurant"); SlotSet "time" (PStr "8pm")].
Proof.
  apply (activation_without_active_form
           no_server book_restaurant tracker_finishes_at_once restaurant_domain
           ["time"; "people"] eq_refl eq_refl).
  constructor; [|constructor; [|constructor]].
  - intros [H|[]]. discriminate H.
  - intros [].
Defined.

(** The run that finishes the form at once ends with the requested slot. *)
Lemma run_ends_with_requested_slot_witness :
  exists (before : list Event) (value : PyVal),
    [SlotSet "people" (PStr "4"); Form None; SlotSet "requested_slot" PNone]
    = before ++ [SlotSet REQUESTED_SLOT value].
Proof.
  apply (run_ends_with_requested_slot
           no_server book_restaurant tracker_finishes_at_once restaurant_domain);
    reflexivity.
Defined.

(** The user only greets when asked for [people]: the run is rejected. *)
Lemma run_rejects_when_nothing_extracted_witness :
  run no_server book_restaurant tracker_greets restaurant_domain
  = Raise (ActionExecutionRejection
             "book_restaurant"
             "Failed to extract slot people with action book_restaurant").
Proof.
  apply (run_rejects_when_nothing_extracted
           no_server book_restaurant tracker_greets restaurant_domain);
    reflexivity.
Defined.

(** A form the domain does not configure deactivates itself. *)
Lemma run_without_required_slots_witness :
  run no_server unknown_form tracker_before_form restaurant_domain
  = Ok [Form None; SlotSet REQUESTED_SLOT PNone].
Proof.
  apply (run_without_required_slots
           no_server unknown_form tracker_before_form restaurant_domain);
    reflexivity.
Defined.

End FormExamples.

Section InteractiveExamples.
Import Interactive InteractiveEvents InteractiveScenarios MoreInteractiveScenarios.

(** [utter_greet] rejects the active form and does not restore it. *)
Lemma form_rejected_excludes_restored_witness :
  _form_is_restored "active_loop" "action_listen" "utter_greet" dump_with_active_form
  = Ok false.
Proof.
  apply (form_rejected_excludes_restored
           "active_loop" "action_listen" "utter_greet" dump_with_active_form).
  reflexivity.
Defined.

(** The user confirms at once: one answer is consumed, nothing is sent. *)
Lemma ask_questions_returns_after_an_answer_witness :
  sent (mkSession [] []) = sent confirming_session
  /\ exists consumed : list (option Answer),
       consumed <> [] /\ keyboard confirming_session = consumed ++ keyboard (mkSession [] []).
Proof.
  apply (ask_questions_returns_after_an_answer
           export_nothing "Continue?" "c1" times_out_once (fun _ => false)
           confirming_session (mkSession [] []) (Some (AnswerBool true))).
  reflexivity.
Defined.

(** An internal error of the server is raised as it is, also for a new
    action. *)
Lemma send_action_passes_through_witness :
  send_action [] export_nothing server_error "c1" "action_book" None None true
              confirming_session
  = (Raise (OtherError "internal server error"),
     mkSession [Some (AnswerBool true)]
               [mkRequest "post" "/conversations/c1/execute"
                          (ActionExecuted "action_book" None None)]).
Proof.
  apply (send_action_passes_through
           [] export_nothing server_error "c1" "action_book" None None true
           confirming_session (Raise (OtherError "internal server error")) eq_refl).
  intros message. discriminate.
Defined.

End InteractiveExamples.

Section CRFExamples.
Import CRFModel CRFScenarios.

(** The second tagger's file name extends the first one's. *)
Lemma persist_file_names_are_distinct_witness :
  persist unit join_with_slash (Some two_taggers) "crf" "models"
  = ([("entity", "crf.entity.pkl"); ("role", "crf.entity.pkl.role.pkl")],
     [(tt, "models/crf.entity.pkl"); (tt, "models/crf.entity.pkl.role.pkl")])
  /\ NoDup ["crf.entity.pkl"; "crf.entity.pkl.role.pkl"].
Proof.
  destruct (persist_file_names_are_distinct unit join_with_slash two_taggers
              "crf" "models") as [Hpersist [Hnodup _]].
  - constructor; [|constructor; [|constructor]].
    + intros [H|[]]. discriminate H.
    + intros [].
  - split; [exact Hpersist | exact Hnodup].
Defined.

(** Three windows on three tokens: three feature dicts, three lists. *)
Lemma sentence_features_stay_inside_windows_witness :
  match _sentence_to_features string "True" string text_functions no_items
                              three_windows book_a_table false with
  | Ok out => List.length (fst out) = 3 /\ List.length (snd out) = 3
  | Raise e => not_IndexError e
  end.
Proof.
  apply (sentence_features_stay_inside_windows
           string "True" string text_functions no_items
           three_windows book_a_table false).
  reflexivity.
Defined.

(** With tag features the three lists come back longer. *)
Lemma sentence_features_grow_configuration_witness :
  _sentence_to_features string "True" string text_functions no_items
                        three_windows book_a_table true
  = Ok ([[("BOS", "True"); ("0:low", "book"); ("0:bias", "bias"); ("0:entity", "O");
          ("1:low", "a"); ("1:entity", "O")];
         [("-1:low", "book"); ("-1:entity", "O"); ("0:low", "a"); ("0:bias", "bias");
          ("0:entity", "O"); ("1:low", "table"); ("1:entity", "O")];
         [("-1:low", "a"); ("-1:entity", "O"); ("0:low", "table"); ("0:bias", "bias");
          ("0:entity", "O"); ("EOS", "True")]],
        [["low"; "entity"; "entity"];
         ["low"; "bias"; "entity"; "entity"; "entity"];
         ["low"; "entity"; "entity"]])
  /\ List.length (List.concat three_windows)
     < List.length (List.concat [["low"; "entity"; "entity"];
                                 ["low"; "bias"; "entity"; "entity"; "entity"];
                                 ["low"; "entity"; "entity"]]).
Proof.
  assert (H : _sentence_to_features string "True" string text_functions no_items
                                    three_windows book_a_table true
              = Ok ([[("BOS", "True"); ("0:low", "book"); ("0:bias", "bias");
                      ("0:entity", "O"); ("1:low", "a"); ("1:entity", "O")];
                     [("-1:low", "book"); ("-1:entity", "O"); ("0:low", "a");
                      ("0:bias", "bias"); ("0:entity", "O"); ("1:low", "table");
                      ("1:entity", "O")];
                     [("-1:low", "a"); ("-1:entity", "O"); ("0:low", "table");
                      ("0:bias", "bias"); ("0:entity", "O"); ("EOS", "True")]],
                    [["low"; "entity"; "entity"];
                     ["low"; "bias"; "entity"; "entity"; "entity"];
                     ["low"; "entity"; "entity"]])) by reflexivity.
  split; [exact H|].
  destruct (sentence_features_grow_configuration
              string "True" string text_functions no_items
              three_windows book_a_table true _ H) as [_ [_ Hgrow]].
  apply Hgrow; [reflexivity | discriminate].
Defined.

(** Two windows on three tokens: the window reaches outside. *)
Lemma sentence_features_fail_for_even_windows_witness :
  _sentence_to_features string "True" string text_functions no_items
                        two_windows book_a_table false
  = Raise (IndexError "list index out of range").
Proof.
  apply (sentence_features_fail_for_even_windows
           string "True" string text_functions no_items
           two_windows book_a_table false).
  - reflexivity.
  - simpl. lia.
  - repeat constructor;
      (eexists; split; [reflexivity | intros H; discriminate H]).
  - discriminate.
Defined.

End CRFExamples.

(* ================================================================== *)
(** * A required slot declared without a mapping *)

Section DeclaredWithoutMapping.
Import Forms Scenarios MoreScenarios.

Lemma dict_keys_have_entries {V : Type} (k : string) (d : dict V) :
  In k (dict_keys d) -> exists v : V, dict_get k d = Some v.
Proof.
  unfold dict_keys. induction d as [|[k0 v0] d IH]; simpl; [intros []|].
  destruct (String.eqb k k0) eqn:E; [intros _; exists v0; reflexivity|].
  intros [H|H]; [|exact (IH H)].
  subst. rewrite String.eqb_refl in E. discriminate E.
Qed.

(** Every required slot is a key of the slot mappings the form reads, so
    the default of the lookup is never taken for a required slot. *)
Lemma required_slots_are_keys (self : FormAction) (t : DialogueStateTracker)
    (slots : list string) (slot : string) :
  required_slots self t = Ok slots ->
  In slot slots ->
  exists (mappings : dict PyVal) (configured : PyVal),
    slot_mappings self = Ok mappings /\ dict_get slot mappings = Some configured.
Proof.
  unfold required_slots, slot_mappings, _config.
  destruct (_domain self) as [domain|]; simpl; [|discriminate].
  intros H Hin. injection H as <-.
  destruct (dict_keys_have_entries _ _ Hin) as [configured Hget].
  exists (first_form_config (_form_name self) (forms domain)), configured.
  split; [reflexivity | exact Hget].
Qed.

(** A slot declared with [None] or with an empty list gets no mapping at
    all, and one declared with an empty dict makes the lookup raise. *)
Lemma get_mappings_for_slot_declared_empty (self : FormAction) (slot : string)
    (mappings : dict PyVal) :
  slot_mappings self = Ok mappings ->
  (dict_get slot mappings = Some PNone ->
   get_mappings_for_slot self (PStr slot) = Ok [])
  /\ (dict_get slot mappings = Some (PList []) ->
      get_mappings_for_slot self (PStr slot) = Ok [])
  /\ (dict_get slot mappings = Some (PDict []) ->
      get_mappings_for_slot self (PStr slot)
      = Raise (TypeError "Provided incompatible slot mapping")).
Proof.
  intros Hm. unfold get_mappings_for_slot. rewrite Hm, from_entity_implicit. simpl.
  unfold dict_get_default. repeat split; intros ->; reflexivity.
Qed.

(** C6 (the code at the failing input): the form requires [cuisine] and
    declares it without a mapping; the form is active and asked for
    [cuisine], and the user's message carries the entity [cuisine] with the
    value [thai].  The implicit mapping [from_entity("cuisine")] would fill
    the slot with [thai], but [get_mappings_for_slot] returns no mapping at
    all, nothing is extracted, and [validate] rejects. *)
Theorem declared_slot_without_mapping_gets_no_mapping :
  required_slots declared_cuisine_form tracker_wants_thai = Ok ["cuisine"]
  /\ slot_mappings declared_cuisine_form = Ok [("cuisine", PNone)]
  /\ get_mappings_for_slot declared_cuisine_form (PStr "cuisine") = Ok []
  /\ from_entity (PStr "cuisine") PNone PNone PNone PNone
     = Ok (implicit_mapping "cuisine")
  /\ requested_loop tracker_wants_thai (PStr "cuisine") [implicit_mapping "cuisine"]
     = Ok [("cuisine", PStr "thai")]
  /\ extract_requested_slot declared_cuisine_form tracker_wants_thai = Ok []
  /\ validate no_server declared_cuisine_form tracker_wants_thai cuisine_domain
     = Raise (ActionExecutionRejection
                "cuisine_form"
                "Failed to extract slot cuisine with action cuisine_form").
Proof.
  split; [reflexivity|]. split; [reflexivity|].
  split.
  { apply (proj1 (get_mappings_for_slot_declared_empty
                    declared_cuisine_form "cuisine" [("cuisine", PNone)] eq_refl)).
    reflexivity. }
  split; [apply from_entity_implicit|].
  split; [reflexivity|]. split; reflexivity.
Qed.

End DeclaredWithoutMapping.
